(** * Form 3 to Circular 29 converter: a shallow embedding and its properties

    The development follows [src/full_streamlit_app.py].  Python values are
    modelled as the code sees them:

    - a text is a [string] of ASCII characters (codes above 127 are carried
      along as characters that are neither whitespace nor letters);
    - a grid (a [pd.DataFrame] read with [header=None]) is a list of rows,
      a row is a list of cells, and the row label yielded by [iterrows] is
      the row position; a sheet of a workbook holds the two grids the code
      reads it as, with and without [dtype=str];
    - an exception that leaves a function is a value of [py_result];
    - the attributes of [Form3ToCircular29Converter] are the fields of the
      record [converter], threaded through the methods that assign them. *)

From Stdlib Require Import ZArith String Ascii DecimalString.
From stdpp Require Import gmap strings list.

Local Open Scope string_scope.
Local Open Scope list_scope.
Local Open Scope Z_scope.

(** ** Python text operations *)

Module PyStr.

Definition code (c : ascii) : N := N_of_ascii c.

(** [str.isspace] on one ASCII character: the characters [str.strip] removes
    and the regular expression class [\s] accepts. *)
Definition is_space (c : ascii) : bool :=
  let n := code c in
  (((9 <=? n) && (n <=? 13)) || ((28 <=? n) && (n <=? 32)))%N.

Definition is_digit (c : ascii) : bool :=
  let n := code c in ((48 <=? n) && (n <=? 57))%N.

Definition is_upper (c : ascii) : bool :=
  let n := code c in ((65 <=? n) && (n <=? 90))%N.

Definition is_lower (c : ascii) : bool :=
  let n := code c in ((97 <=? n) && (n <=? 122))%N.

Definition lower_char (c : ascii) : ascii :=
  if is_upper c then ascii_of_N (code c + 32) else c.

Definition upper_char (c : ascii) : ascii :=
  if is_lower c then ascii_of_N (code c - 32) else c.

(** [s.lower()] and [s.upper()] *)
Fixpoint lower (s : string) : string :=
  match s with
  | EmptyString => EmptyString
  | String c s' => String (lower_char c) (lower s')
  end.

Fixpoint upper (s : string) : string :=
  match s with
  | EmptyString => EmptyString
  | String c s' => String (upper_char c) (upper s')
  end.

(** [s.capitalize()] *)
Definition capitalize (s : string) : string :=
  match s with
  | EmptyString => EmptyString
  | String c s' => String (upper_char c) (lower s')
  end.

(** Stripping of the characters accepted by [sp] from both ends. *)
Fixpoint lstrip_by (sp : ascii -> bool) (s : string) : string :=
  match s with
  | EmptyString => EmptyString
  | String c s' => if sp c then lstrip_by sp s' else s
  end.

Fixpoint rstrip_by (sp : ascii -> bool) (s : string) : string :=
  match s with
  | EmptyString => EmptyString
  | String c s' =>
      match rstrip_by sp s' with
      | EmptyString => if sp c then EmptyString else String c EmptyString
      | r => String c r
      end
  end.

Definition strip_by (sp : ascii -> bool) (s : string) : string :=
  rstrip_by sp (lstrip_by sp s).

(** [s.strip()] *)
Definition strip (s : string) : string := strip_by is_space s.

(** [needle in hay] *)
Fixpoint contains (needle hay : string) : bool :=
  String.prefix needle hay ||
  match hay with
  | EmptyString => false
  | String _ hay' => contains needle hay'
  end.

(** [any(k in text for k in keywords)] *)
Definition contains_any (keywords : list string) (text : string) : bool :=
  existsb (fun k => contains k text) keywords.

(** [not s] for a text: true on the empty text. *)
Definition is_empty (s : string) : bool :=
  match s with EmptyString => true | _ => false end.

(** [str(n)] for a natural number. *)
Definition of_N (n : N) : string := NilZero.string_of_uint (N.to_uint n).

End PyStr.

(** ** Python exceptions and results *)

Inductive py_exn : Type :=
| ValueError
| TypeError
| OverflowError
| UnboundLocalError
| KeyError.

Inductive py_result (A : Type) : Type :=
| Ret (a : A)
| Raise (e : py_exn).

Arguments Ret {A} a.
Arguments Raise {A} e.

(** ** Python floats: [float(text)], [int(x)] and the format [.2f]

    A finite float is a sign and two integers [m] and [q] standing for
    [m * 2^q], the binary64 number nearest to the decimal that was read
    (ties to the even mantissa). *)

Module PyFloat.

Import PyStr.

Inductive pyfloat : Type :=
| FNan
| FInf (neg : bool)
| FFin (neg : bool) (m q : Z).

(** The whitespace [float] skips around an ASCII text. *)
Definition is_cspace (c : ascii) : bool :=
  let n := code c in (((9 <=? n) && (n <=? 13)) || (n =? 32))%N.

(** Underscores are accepted between two digits only; they are removed
    before the number is read. *)
Fixpoint remove_underscores (prev : ascii) (s : string) : option string :=
  match s with
  | EmptyString => if Ascii.eqb prev "_" then None else Some EmptyString
  | String c s' =>
      if Ascii.eqb c "_" then
        if is_digit prev then remove_underscores c s' else None
      else if Ascii.eqb prev "_" && negb (is_digit c) then None
      else option_map (String c) (remove_underscores c s')
  end.

Definition digit_val (c : ascii) : Z := Z.of_N (code c) - 48.

(** Reads the longest run of digits: the value accumulated after [acc],
    the number of digits read after [cnt], and the rest of the text. *)
Fixpoint read_digits (acc : Z) (cnt : nat) (s : string) : Z * nat * string :=
  match s with
  | EmptyString => (acc, cnt, s)
  | String c s' =>
      if is_digit c then read_digits (10 * acc + digit_val c) (S cnt) s'
      else (acc, cnt, s)
  end.

(** An unsigned decimal [digits [. digits] [e [sign] digits]] with at least
    one digit before the exponent; the result [(m, e)] stands for
    [m * 10^e]. *)
Definition parse_number (t : string) : option (Z * Z) :=
  let '(mi, ni, r1) := read_digits 0 0 t in
  let '(m, nf, r2) :=
    match r1 with
    | String "." r => read_digits mi 0 r
    | _ => (mi, 0%nat, r1)
    end in
  if (ni + nf =? 0)%nat then None
  else
    match r2 with
    | EmptyString => Some (m, - Z.of_nat nf)
    | String c r3 =>
        if Ascii.eqb (lower_char c) "e" then
          let '(eneg, r4) :=
            match r3 with
            | String "+" r => (false, r)
            | String "-" r => (true, r)
            | _ => (false, r3)
            end in
          let '(ev, ne, r5) := read_digits 0 0 r4 in
          if (ne =? 0)%nat || negb (is_empty r5) then None
          else Some (m, (if eneg then - ev else ev) - Z.of_nat nf)
        else None
    end.

(** [n / d] rounded to the nearest integer, ties to even ([0 <= n], [0 < d]). *)
Definition round_half_even (n d : Z) : Z :=
  let q := n / d in
  let r := n mod d in
  if 2 * r <? d then q
  else if d <? 2 * r then q + 1
  else if Z.even q then q else q + 1.

(** The binary64 number nearest to [n / d] ([0 <= n], [0 < d]); a result of
    [2^1024] or more is an infinity. *)
Definition of_ratio (neg : bool) (n d : Z) : pyfloat :=
  if n =? 0 then FFin neg 0 0
  else
    let e0 := Z.log2 n - Z.log2 d in
    let above := if 0 <=? e0 then d * 2 ^ e0 <=? n else d <=? n * 2 ^ (- e0) in
    let e := if above then e0 else e0 - 1 in
    let q := Z.max (e - 52) (-1074) in
    let m := if 0 <=? q then round_half_even n (d * 2 ^ q)
             else round_half_even (n * 2 ^ (- q)) d in
    if (0 <=? q) && (2 ^ 1024 <=? m * 2 ^ q) then FInf neg else FFin neg m q.

Definition of_decimal (neg : bool) (m e10 : Z) : pyfloat :=
  if 0 <=? e10 then of_ratio neg (m * 10 ^ e10) 1
  else of_ratio neg m (10 ^ (- e10)).

(** [float(s)] for a text; [None] is [ValueError]. *)
Definition parse (s : string) : option pyfloat :=
  match remove_underscores "000" (strip_by is_cspace s) with
  | None => None
  | Some u =>
      let '(neg, body) :=
        match u with
        | String "-" r => (true, r)
        | String "+" r => (false, r)
        | _ => (false, u)
        end in
      let lb := lower body in
      if String.eqb lb "inf" || String.eqb lb "infinity" then Some (FInf neg)
      else if String.eqb lb "nan" then Some FNan
      else
        match parse_number body with
        | Some (m, e10) => Some (of_decimal neg m e10)
        | None => None
        end
  end.

(** [int(x)] for a float. *)
Definition to_int (x : pyfloat) : py_result Z :=
  match x with
  | FNan => Raise ValueError
  | FInf _ => Raise OverflowError
  | FFin neg m q =>
      let a := if 0 <=? q then m * 2 ^ q else m / 2 ^ (- q) in
      Ret (if neg then - a else a)
  end.

Definition two_digits (n : Z) : string :=
  String.append (of_N (Z.to_N (n / 10))) (of_N (Z.to_N (n mod 10))).

(** [f"{x:.2f}"] *)
Definition format_2f (x : pyfloat) : string :=
  match x with
  | FNan => "nan"
  | FInf neg => if neg then "-inf" else "inf"
  | FFin neg m q =>
      let h := if 0 <=? q then m * 2 ^ q * 100
               else round_half_even (m * 100) (2 ^ (- q)) in
      String.append (if neg then "-" else "")
        (String.append (of_N (Z.to_N (h / 100)))
           (String "." (two_digits (h mod 100))))
  end.

End PyFloat.

(** ** Regular expressions: the fragment used by the extractors

    A pattern is a sequence of atoms with one capture group; matching
    follows the order in which [re] explores alternatives (a greedy [+]
    tries the longest run first, a lazy [+?] the shortest), and [search]
    takes the leftmost position at which a match exists. *)

Module Re.

Import PyStr.

Inductive atom : Type :=
| Lit (c : ascii)
| Plus (cls : ascii -> bool) (greedy : bool)
| Open
| Close.

(** A literal under [re.IGNORECASE]. *)
Definition lit_eq (p c : ascii) : bool := Ascii.eqb (lower_char p) (lower_char c).

(** [match_here p start cap s]: the text of group 1 when [p] matches a
    prefix of [s]; [start] is the text at the last opening parenthesis and
    [cap] the group captured so far. *)
Fixpoint match_here (p : list atom) (start cap s : string) : option string :=
  match p with
  | [] => Some cap
  | Lit c :: p' =>
      match s with
      | String a s' => if lit_eq c a then match_here p' start cap s' else None
      | EmptyString => None
      end
  | Open :: p' => match_here p' s cap s
  | Close :: p' =>
      match_here p' start
        (String.substring 0 (String.length start - String.length s) start) s
  | Plus cls greedy :: p' =>
      (fix more (t : string) : option string :=
         match t with
         | String a t' =>
             if cls a then
               if greedy then
                 match more t' with
                 | Some r => Some r
                 | None => match_here p' start cap t'
                 end
               else
                 match match_here p' start cap t' with
                 | Some r => Some r
                 | None => more t'
                 end
             else None
         | EmptyString => None
         end) s
  end.

(** [re.search(p, s, re.IGNORECASE).group(1)]; [None] when nothing matches. *)
Fixpoint search (p : list atom) (s : string) : option string :=
  match match_here p s EmptyString s with
  | Some c => Some c
  | None =>
      match s with
      | String _ s' => search p s'
      | EmptyString => None
      end
  end.

Fixpoint lits (s : string) : list atom :=
  match s with
  | EmptyString => []
  | String c s' => Lit c :: lits s'
  end.

(** The class [.] (no newline) and the class [[A-Z0-9]] under IGNORECASE. *)
Definition dot (c : ascii) : bool := negb (code c =? 10)%N.
Definition alnum (c : ascii) : bool := is_upper c || is_lower c || is_digit c.

(** [for the project\s+(.+?)\s+having] *)
Definition project_info : list atom :=
  lits "for the project" ++
  [Plus is_space true; Open; Plus dot false; Close; Plus is_space true] ++
  lits "having".

(** [having maharera registration number\s+([A-Z0-9]+)\s+being developed] *)
Definition rera_number : list atom :=
  lits "having maharera registration number" ++
  [Plus is_space true; Open; Plus alnum true; Close; Plus is_space true] ++
  lits "being developed".

(** [\(as on\s+(.+?)\)] *)
Definition date_pattern : list atom :=
  lits "(as on" ++
  [Plus is_space true; Open; Plus dot false; Close; Lit ")"].

End Re.

(** ** Cells and sheets

    A cell is missing ([NaN]), a text, or a number.  A number is carried by
    the text [str] prints for it ([1] is [CNum "1"], [1.0] is [CNum "1.0"],
    [23.5] is [CNum "23.5"]): [str], [float] and the comparison with [1] are
    all read off that text.  The rows of a sheet have the same length;
    no definition below relies on it. *)

Inductive cell : Type :=
| CEmpty
| CText (s : string)
| CNum (repr : string).

Abbreviation row := (list cell).
Abbreviation grid := (list (list cell)).

(** [str(x)] *)
Definition py_str (c : cell) : string :=
  match c with
  | CEmpty => "nan"
  | CText s => s
  | CNum r => r
  end.

(** [str(x)] where [None] stands for Python's [None]. *)
Definition py_str_opt (c : option cell) : string :=
  match c with
  | Some c => py_str c
  | None => "None"
  end.

(** [pd.notna(x)] and [pd.isna(x)] *)
Definition notna (c : cell) : bool :=
  match c with CEmpty => false | _ => true end.

Definition isna_opt (c : option cell) : bool :=
  match c with
  | Some c => negb (notna c)
  | None => true
  end.

(** [str(x) if pd.notna(x) else ""] *)
Definition cell_text (c : cell) : string :=
  if notna c then py_str c else "".

(** [x == 1 or x == "1"] *)
Definition is_one (c : cell) : bool :=
  match c with
  | CEmpty => false
  | CText s => String.eqb s "1"
  | CNum r => String.eqb r "1" || String.eqb r "1.0"
  end.

(** [int(float(x))] *)
Definition int_float (c : option cell) : py_result Z :=
  match c with
  | None => Raise TypeError
  | Some CEmpty => Raise ValueError
  | Some (CText s) | Some (CNum s) =>
      match PyFloat.parse s with
      | Some f => PyFloat.to_int f
      | None => Raise ValueError
      end
  end.

(** ** The converter *)

(** One extracted unit: the dictionary built by [extract_unit_data]. *)
Record unit_data : Type := mk_unit {
  sr_no : Z;
  building_no : string;
  flat_no : string;
  carpet_area : string;
  status : string;
  registration_date : string
}.

(** The attributes of [Form3ToCircular29Converter]. *)
Record converter : Type := mk_converter {
  include_building_column : bool;
  project_name : string;
  rera_number : string;
  as_on_date : string;
  unit_sections : gmap string (list unit_data)
}.

Definition set_include (b : bool) (st : converter) : converter :=
  mk_converter b (project_name st) (rera_number st) (as_on_date st) (unit_sections st).

Definition set_project_name (v : string) (st : converter) : converter :=
  mk_converter (include_building_column st) v (rera_number st) (as_on_date st)
    (unit_sections st).

Definition set_rera_number (v : string) (st : converter) : converter :=
  mk_converter (include_building_column st) (project_name st) v (as_on_date st)
    (unit_sections st).

Definition set_as_on_date (v : string) (st : converter) : converter :=
  mk_converter (include_building_column st) (project_name st) (rera_number st) v
    (unit_sections st).

Definition set_units (section : string) (units : list unit_data) (st : converter)
  : converter :=
  mk_converter (include_building_column st) (project_name st) (rera_number st)
    (as_on_date st) (<[section := units]> (unit_sections st)).

(** The order in which [process_form3_file] and [attempt_data_recovery]
    extract the sections, and the order in which [create_circular29_excel]
    writes them. *)
Definition sections : list string :=
  ["sold"; "unsold"; "tenant"; "landowner"; "rehab"; "cidco"; "pap"].

Definition section_order : list string :=
  ["sold"; "unsold"; "landowner"; "tenant"; "rehab"; "cidco"; "pap"].

(** [ConversionConfig.section_keywords] *)
Definition section_keywords : list (string * list string) :=
  [("sold", ["sold"; "booked"]);
   ("unsold", ["unsold"; "available"]);
   ("tenant", ["tenant"; "rented"]);
   ("landowner", ["landowner"; "land owner"; "owner"]);
   ("rehab", ["existing"; "members"; "member"]);
   ("cidco", ["CIDCO"; "NMMC"]);
   ("pap", ["PAP"])].

(** [Form3ToCircular29Converter()] *)
Definition new_converter : converter :=
  mk_converter false "" "" ""
    (list_to_map (map (fun s => (s, [])) sections)).

(** [self.unit_sections.get(section, [])] *)
Definition units_of (st : converter) (section : string) : list unit_data :=
  default [] (unit_sections st !! section).

(** *** State and exceptions

    A method is a function from the converter to a result and the converter
    it leaves behind; an assignment made before an exception stays. *)

Definition M (A : Type) : Type := converter -> py_result A * converter.

Definition mret {A : Type} (a : A) : M A := fun st => (Ret a, st).

Definition mraise {A : Type} (e : py_exn) : M A := fun st => (Raise e, st).

Definition mbind_ {A B : Type} (m : M A) (k : A -> M B) : M B :=
  fun st =>
    match m st with
    | (Ret a, st') => k a st'
    | (Raise e, st') => (Raise e, st')
    end.

Definition mlift {A : Type} (r : py_result A) : M A := fun st => (r, st).

Definition mget : M converter := fun st => (Ret st, st).

Definition mmodify (f : converter -> converter) : M unit :=
  fun st => (Ret tt, f st).

(** [try: m  except Exception: h] *)
Definition mtry {A : Type} (m : M A) (h : M A) : M A :=
  fun st =>
    match m st with
    | (Ret a, st') => (Ret a, st')
    | (Raise _, st') => h st'
    end.

Notation "x <- m ;; k" := (mbind_ m (fun x => k))
  (at level 100, m at next level, right associativity).
Notation "m ;;; k" := (mbind_ m (fun _ => k))
  (at level 100, right associativity).

(** [for x in xs: body(x)] *)
Fixpoint mfor {A : Type} (xs : list A) (body : A -> M unit) : M unit :=
  match xs with
  | [] => mret tt
  | x :: xs' => body x ;;; mfor xs' body
  end.

(** [if b: m] *)
Definition mwhen (b : bool) (m : M unit) : M unit := if b then m else mret tt.

(** [invariant I m]: from a converter that satisfies [I], [m] leaves a
    converter that satisfies [I], whether it returns or raises. *)
Definition invariant {A : Type} (I : converter -> Prop) (m : M A) : Prop :=
  forall st r st', I st -> m st = (r, st') -> I st'.

(** *** Scanning a sheet *)

Import PyStr.

(** [normalize_text] on a text. *)
Definition normalize_text (text : string) : string := lower (strip text).

(** The position of the first row accepted by [p], counting from [i]. *)
Fixpoint find_row (p : row -> bool) (i : nat) (rows : grid) : option nat :=
  match rows with
  | [] => None
  | r :: rs => if p r then Some i else find_row p (S i) rs
  end.

Definition or_minus_one (o : option nat) : Z :=
  match o with
  | Some i => Z.of_nat i
  | None => -1
  end.

Definition cell_has_keyword (section_keyword : string) (c : cell) : bool :=
  contains (lower section_keyword) (lower (cell_text c)).

Definition find_section_start (sheet_data : grid) (section_keyword : string) : Z :=
  or_minus_one
    (find_row (existsb (cell_has_keyword section_keyword)) 0 sheet_data).

Definition find_data_start_row (sheet_data : grid) (start_row : nat) : Z :=
  or_minus_one (find_row (existsb is_one) start_row (drop start_row sheet_data)).

(** [sheet_data.iloc[i]]; the positions read by [extract_unit_data] are
    always inside the sheet. *)
Definition iloc (sheet_data : grid) (i : nat) : row :=
  default [] (sheet_data !! i).

(** *** The header row *)

Definition header_keywords : list string :=
  ["sr"; "flat"; "carpet"; "unit"; "building"; "wing"].

Definition header_hit (c : cell) : bool :=
  contains_any header_keywords (lower (strip (py_str c))).

Fixpoint match_count (r : row) : nat :=
  match r with
  | [] => 0
  | c :: r' => if header_hit c then S (match_count r') else match_count r'
  end.

(** [range(max(0, data_start - 3), data_start + 1)] *)
Definition header_window (data_start : nat) : list nat :=
  seq (data_start - 3) (data_start + 1 - (data_start - 3)).

Fixpoint find_header (sheet_data : grid) (window : list nat) : Z :=
  match window with
  | [] => -1
  | i :: window' =>
      if (2 <=? match_count (iloc sheet_data i))%nat then Z.of_nat i
      else find_header sheet_data window'
  end.

Definition header_row_index (sheet_data : grid) (data_start : nat) : Z :=
  find_header sheet_data (header_window data_start).

(** *** The column mapping *)

Definition mapped (k : string) (col_mapping : gmap string nat) : bool :=
  bool_decide (is_Some (col_mapping !! k)).

(** One turn of the loop over [enumerate(headers)]: the [if]/[elif] chain
    that extends the mapping, then the test that sets the converter's
    [include_building_column]. *)
Definition map_header_step (i : nat) (header : string) (m : gmap string nat)
  : gmap string nat :=
  let has k := contains k header in
  if has "sr" && has "no" && negb (mapped "sr_no" m)
  then <["sr_no" := i]> m
  else if (has "flat" && has "no" || has "shop" && has "no")
          && negb (mapped "flat_no" m)
  then <["flat_no" := i]> m
  else if has "carpet" && has "area" && negb (mapped "carpet_area" m)
  then <["carpet_area" := i]> m
  else if has "unit" && has "type" && negb (has "apartment")
          && negb (mapped "unit_type" m)
  then <["unit_type" := i]> m
  else if has "building" && has "no" && negb (mapped "building_no" m)
  then <["building_no" := i]> m
  else if has "wing" && negb (mapped "building_no" m)
  then <["building_no" := i]> m
  else m.

Definition map_header (i : nat) (header : string)
    (acc : gmap string nat * bool) : gmap string nat * bool :=
  let '(m, inc) := acc in
  let m' := map_header_step i header m in
  (m', if mapped "building_no" m' then true else inc).

Fixpoint map_columns (i : nat) (headers : list string)
    (acc : gmap string nat * bool) : gmap string nat * bool :=
  match headers with
  | [] => acc
  | h :: hs => map_columns (S i) hs (map_header i h acc)
  end.

Definition headers_of (header_row : row) : list string :=
  map (fun c => normalize_text (cell_text c)) header_row.

(** *** The data rows *)

(** [row.iloc[i] if i < len(row) else None] *)
Definition cell_at (r : row) (i : nat) : option cell := r !! i.

(** [str(row.iloc[i]).strip() if (i < len(row) and pd.notna(row.iloc[i])) else ""] *)
Definition field_at (r : row) (i : nat) : string :=
  match r !! i with
  | Some c => if notna c then strip (py_str c) else ""
  | None => ""
  end.

(** [col_mapping.get('sr_no', 0)] and the three positional fallbacks. *)
Definition sr_no_col (col_mapping : gmap string nat) : nat :=
  default 0%nat (col_mapping !! "sr_no").

Definition bldg_index (col_mapping : gmap string nat) : nat :=
  default 1%nat (col_mapping !! "building_no").

Definition flat_index (col_mapping : gmap string nat) : nat :=
  default 2%nat (col_mapping !! "flat_no").

Definition carpet_index (col_mapping : gmap string nat) : nat :=
  default 3%nat (col_mapping !! "carpet_area").

Definition unit_of_row (col_mapping : gmap string nat) (section_keyword : string)
    (sr : Z) (r : row) : unit_data :=
  mk_unit sr (field_at r (bldg_index col_mapping))
    (field_at r (flat_index col_mapping))
    (field_at r (carpet_index col_mapping)) (lower section_keyword) "".

(** The loop over [range(data_start, len(sheet_data))]: [rows] are the rows
    still to visit, [units] the list built so far. *)
Fixpoint extract_rows (col_mapping : gmap string nat) (section_keyword : string)
    (parsing_started : bool) (rows : grid) (units : list unit_data)
  : py_result (list unit_data) :=
  match rows with
  | [] => Ret units
  | r :: rows' =>
      let sr_no_cell := cell_at r (sr_no_col col_mapping) in
      if negb parsing_started && negb (String.eqb (strip (py_str_opt sr_no_cell)) "1")
      then extract_rows col_mapping section_keyword false rows' units
      else if isna_opt sr_no_cell || is_empty (strip (py_str_opt sr_no_cell))
      then Ret units
      else
        match int_float sr_no_cell with
        | Ret sr =>
            extract_rows col_mapping section_keyword true rows'
              (units ++ [unit_of_row col_mapping section_keyword sr r])
        | Raise ValueError | Raise TypeError => Ret units
        | Raise e => Raise e
        end
  end.

Definition extract_unit_data (sheet_data : grid) (section_keyword : string)
  : M (list unit_data) :=
  let section_start := find_section_start sheet_data section_keyword in
  if section_start =? -1 then mret []
  else
    let data_start := find_data_start_row sheet_data (Z.to_nat section_start) in
    if data_start =? -1 then mret []
    else
      let header_row_index := header_row_index sheet_data (Z.to_nat data_start) in
      if header_row_index =? -1 then mret []
      else
        let headers := headers_of (iloc sheet_data (Z.to_nat header_row_index)) in
        st <- mget ;;
        let '(col_mapping, inc) :=
          map_columns 0 headers (∅, include_building_column st) in
        mmodify (set_include inc) ;;;
        mlift (extract_rows col_mapping section_keyword false
                 (drop (Z.to_nat data_start) sheet_data) []).

(** *** Project information and the as-on date *)

Definition certificate_sentence : string :=
  "certificate is being issued for the project".

(** The cells in the order of the two nested loops: rows first, then the
    columns of a row; each as [cell_value]. *)
Definition cell_values (sheet_data : grid) : list string :=
  map cell_text (concat sheet_data).

(** The locals [project_name] and [rera_number] are bound only when their
    pattern matches; [None] is the unbound local, and reading it in the
    [return] statement raises. *)
Definition extract_project_info (sheet_data : grid) : py_result (string * string) :=
  match List.find (fun v => contains certificate_sentence (lower v))
          (cell_values sheet_data) with
  | Some cell_value =>
      let project_name := option_map strip (Re.search Re.project_info cell_value) in
      let rera_number := option_map strip (Re.search Re.rera_number cell_value) in
      match project_name, rera_number with
      | Some p, Some r => Ret (p, r)
      | _, _ => Raise UnboundLocalError
      end
  | None => Ret ("", "")
  end.

Fixpoint first_date (values : list string) : string :=
  match values with
  | [] => ""
  | v :: values' =>
      if contains "table b" (lower v) && contains "as on" (lower v) then
        match Re.search Re.date_pattern v with
        | Some d => strip d
        | None => first_date values'
        end
      else first_date values'
  end.

Definition extract_as_on_date (sheet_data : grid) : string :=
  first_date (cell_values sheet_data).

(** *** Processing a workbook

    The code reads a sheet in two ways, and a sheet of the model holds what
    each way returns: [read_excel] is the grid of
    [pd.read_excel(..., header=None)], which Table A, Table B, the
    validation and the recovery pass work on, and [read_excel_str] is the
    grid of [pd.read_excel(..., header=None, dtype=str)], which the primary
    pass works on for Table C.  Neither grid is computed from the other: a
    number that prints as [1.0] in the first may arrive as the text ["1"]
    in the second.  A workbook is the list of its sheets with their names.
    The result of [extract_from_filename] on the file's name is the argument
    [fallback]. *)

Record sheet : Type := mk_sheet {
  read_excel : grid;
  read_excel_str : grid
}.

Abbreviation workbook := (list (string * sheet)).

(** A sheet that both calls return as the same grid, as they do for the
    sheets of texts and empty cells used as examples below. *)
Definition text_sheet (g : grid) : sheet := mk_sheet g g.

Definition find_sheet (pattern : string) (wb : workbook) : option sheet :=
  option_map snd (List.find (fun sh => contains pattern (lower (fst sh))) wb).


(** Table A: the project name and the registration number. *)
Definition process_table_a (wb : workbook) : M unit :=
  match find_sheet "table a" wb with
  | Some table_a =>
      info <- mlift (extract_project_info (read_excel table_a)) ;;
      mmodify (set_project_name (fst info)) ;;;
      mmodify (set_rera_number (snd info))
  | None => mret tt
  end.

(** Table B: the as-on date. *)
Definition process_table_b (wb : workbook) : M unit :=
  match find_sheet "table b" wb with
  | Some table_b =>
      mmodify (set_as_on_date (extract_as_on_date (read_excel table_b)))
  | None => mret tt
  end.

(** Table C, read with [dtype=str]: the units of each section. *)
Definition process_sections (table_c_data : grid) (todo : list string) : M unit :=
  mfor todo (fun section =>
    units <- extract_unit_data table_c_data section ;;
    mmodify (set_units section units)).

Definition process_table_c (wb : workbook) : M unit :=
  match find_sheet "table c" wb with
  | Some table_c => process_sections (read_excel_str table_c) sections
  | None => mret tt
  end.

(** The fields still empty take the values read off the file name. *)
Definition filename_fallback (fallback : string * string * string) : M unit :=
  st <- mget ;;
  mwhen (is_empty (project_name st) || is_empty (rera_number st)
         || is_empty (as_on_date st))
    (let '(fallback_project, fallback_rera, fallback_date) := fallback in
     (st <- mget ;;
      mwhen (is_empty (project_name st)) (mmodify (set_project_name fallback_project))) ;;;
     (st <- mget ;;
      mwhen (is_empty (rera_number st)) (mmodify (set_rera_number fallback_rera))) ;;;
     (st <- mget ;;
      mwhen (is_empty (as_on_date st)) (mmodify (set_as_on_date fallback_date)))).

Definition process_body (wb : workbook) (fallback : string * string * string)
  : M unit :=
  process_table_a wb ;;;
  process_table_b wb ;;;
  process_table_c wb ;;;
  filename_fallback fallback.

(** The outer [try ... except Exception: return False]. *)
Definition process_form3_file (wb : workbook) (fallback : string * string * string)
    (st : converter) : bool * converter :=
  match process_body wb fallback st with
  | (Ret _, st') => (true, st')
  | (Raise _, st') => (false, st')
  end.

(** *** The recovery pass *)

Definition is_nil {A : Type} (l : list A) : bool :=
  match l with [] => true | _ => false end.

(** [converter.unit_sections[section]] *)
Definition units_at (section : string) : M (list unit_data) :=
  fun st =>
    match unit_sections st !! section with
    | Some units => (Ret units, st)
    | None => (Raise KeyError, st)
    end.

(** The body of the inner [try] for one sheet. *)
Definition recover_sheet (sheet_data : grid) : M unit :=
  (st <- mget ;;
   mwhen (is_empty (project_name st) || is_empty (rera_number st))
     (info <- mlift (extract_project_info sheet_data) ;;
      mwhen (negb (is_empty (fst info))) (mmodify (set_project_name (fst info))) ;;;
      mwhen (negb (is_empty (snd info))) (mmodify (set_rera_number (snd info))))) ;;;
  (st <- mget ;;
   mwhen (is_empty (as_on_date st))
     (let date_info := extract_as_on_date sheet_data in
      mwhen (negb (is_empty date_info)) (mmodify (set_as_on_date date_info)))) ;;;
  mfor sections (fun section =>
    existing <- units_at section ;;
    mwhen (is_nil existing)
      (units <- extract_unit_data sheet_data section ;;
       mwhen (negb (is_nil units)) (mmodify (set_units section units)))).

Definition has_units (st : converter) : bool :=
  existsb (fun kv => negb (is_nil (snd kv))) (map_to_list (unit_sections st)).

Definition attempt_data_recovery (wb : workbook) (st : converter) : bool * converter :=
  let '(_, st') :=
    mfor wb (fun sh => mtry (recover_sheet (read_excel (snd sh))) (mret tt)) st in
  (negb (is_empty (project_name st')) || negb (is_empty (rera_number st'))
   || has_units st', st').

(** *** The Circular 29 table

    The header row is written on row 11 of the worksheet and the data rows
    from row 12 on, one cell per column from column 1; a row is the list of
    the values written to its cells. *)

Inductive xl_value : Type :=
| XInt (n : Z)
| XStr (s : string).

Definition table_headers (include_building_no : bool) : list string :=
  ["Sr.No"] ++ (if include_building_no then ["Building No"] else []) ++
  ["Flat No./ Shop No";
   "Carpet Area In Sq.Mtrs ";
   "Sold/ Booked /Unsold Reserved/ Rehab/ Mortgaged/ Not for Sale";
   "Registration Date of Sub Registrar"].

(** [try: carpet_val = f"{float(carpet_val):.2f}"  except: pass] *)
Definition render_carpet (carpet_val : string) : string :=
  match PyFloat.parse carpet_val with
  | Some x => PyFloat.format_2f x
  | None => carpet_val
  end.

Definition status_display (section : string) : string :=
  if String.eqb section "cidco" || String.eqb section "pap"
  then upper section else capitalize section.

Definition reg_date_val (section : string) : string :=
  if String.eqb section "sold" then "" else "NA".

Definition render_unit (include_building_no : bool) (section : string)
    (unit_counter : Z) (unit : unit_data) : list xl_value :=
  [XInt unit_counter] ++
  (if include_building_no then [XStr (strip (building_no unit))] else []) ++
  [XStr (strip (flat_no unit));
   XStr (render_carpet (carpet_area unit));
   XStr (status_display section);
   XStr (reg_date_val section)].

(** The loop over the units of one section: the rows written and the value
    of [unit_counter] afterwards. *)
Fixpoint render_units (include_building_no : bool) (section : string)
    (unit_counter : Z) (units : list unit_data) : list (list xl_value) * Z :=
  match units with
  | [] => ([], unit_counter)
  | unit :: units' =>
      let '(rows, n) :=
        render_units include_building_no section (unit_counter + 1) units' in
      (render_unit include_building_no section unit_counter unit :: rows, n)
  end.

Fixpoint render_sections (st : converter) (order : list string) (unit_counter : Z)
  : list (list xl_value) * Z :=
  match order with
  | [] => ([], unit_counter)
  | section :: order' =>
      let '(rows, n) :=
        render_units (include_building_column st) section unit_counter
          (units_of st section) in
      let '(rows', n') := render_sections st order' n in
      (rows ++ rows', n')
  end.

(** The data rows of [create_circular29_excel]. *)
Definition data_rows (st : converter) : list (list xl_value) :=
  fst (render_sections st section_order 1).

(** ** Vocabulary of the statements *)

(** The column mapping built from a header row by a converter whose flag
    is not set. *)
Definition column_map (header_row : row) : gmap string nat :=
  fst (map_columns 0 (headers_of header_row) (∅, false)).

(** The data start and the header row [extract_unit_data] settles on, when
    it gets as far as the column mapping. *)
Definition locate_header (sheet_data : grid) (section_keyword : string)
  : option (nat * nat) :=
  match find_row (existsb (cell_has_keyword section_keyword)) 0 sheet_data with
  | None => None
  | Some section_start =>
      match find_row (existsb is_one) section_start
              (drop section_start sheet_data) with
      | None => None
      | Some data_start =>
          let h := header_row_index sheet_data data_start in
          if h =? -1 then None else Some (data_start, Z.to_nat h)
      end
  end.

(** The section's header row has a building or wing column. *)
Definition maps_building (sheet_data : grid) (section_keyword : string) : bool :=
  match locate_header sheet_data section_keyword with
  | Some (_, h) => mapped "building_no" (column_map (iloc sheet_data h))
  | None => false
  end.



(** The serial cell of a row, and the three tests the loop makes on it. *)
Definition serial_cell (col_mapping : gmap string nat) (r : row) : option cell :=
  cell_at r (sr_no_col col_mapping).

Definition arms (c : option cell) : bool :=
  String.eqb (strip (py_str_opt c)) "1".

Definition blank (c : option cell) : bool :=
  isna_opt c || is_empty (strip (py_str_opt c)).

(** A serial cell ends the run: it is missing or blank, or [int(float(.))]
    raises one of the two exceptions the loop catches. *)
Definition stops (c : option cell) : Prop :=
  blank c = true \/ int_float c = Raise ValueError \/ int_float c = Raise TypeError.

(** The units of the converter in the order of the output table, each with
    the section it is stored under. *)
Definition ordered_units (st : converter) : list (string * unit_data) :=
  concat (map (fun section => map (pair section) (units_of st section))
            section_order).

(** Row [k] of the output table when the numbering starts at [start]. *)
Definition numbered_row (inc : bool) (start : Z) (k : nat)
    (su : string * unit_data) : list xl_value :=
  render_unit inc (fst su) (start + Z.of_nat k) (snd su).

(** A text that ends with a point and two digits. *)
Fixpoint ends_two_decimals (s : string) : bool :=
  match s with
  | EmptyString => false
  | String c s' =>
      (Ascii.eqb c "." &&
       match s' with
       | String d1 (String d2 EmptyString) => is_digit d1 && is_digit d2
       | _ => false
       end)
      || ends_two_decimals s'
  end.

(** *** The statements as the specification words them *)

(** Section location by synonyms: the first row with a cell that contains
    one of the keywords listed for the label. *)
Definition synonyms (label : string) : list string :=
  default [] (snd <$> List.find (fun kv => String.eqb (fst kv) label) section_keywords).

Definition claimed_section_start (sheet_data : grid) (label : string) : Z :=
  or_minus_one
    (find_row (existsb (fun c => existsb (fun k => cell_has_keyword k c)
                                   (synonyms label))) 0 sheet_data).

(** Header detection in the window that ends at the section start. *)
Definition claimed_header_row (sheet_data : grid) (section_start : nat) : Z :=
  find_header sheet_data (header_window section_start).

(** *** Sheets and converters used as examples *)

Definition sold_header : row :=
  [CText "Sr No"; CText "Wing"; CText "Flat No"; CText "Carpet Area"].

Definition sheet_serial_x : grid :=
  [[CText "Sold units"; CEmpty; CEmpty; CEmpty];
   sold_header;
   [CNum "1"; CText "A"; CText "101"; CNum "23.5"];
   [CNum "2"; CText "A"; CText "102"; CNum "40"];
   [CText "x"; CText "A"; CText "103"; CNum "41"]].

(** A [dtype=str] reading that goes with it: each number arrives as the
    text it prints as. *)
Definition sheet_serial_x_str : grid :=
  [[CText "Sold units"; CEmpty; CEmpty; CEmpty];
   sold_header;
   [CText "1"; CText "A"; CText "101"; CText "23.5"];
   [CText "2"; CText "A"; CText "102"; CText "40"];
   [CText "x"; CText "A"; CText "103"; CText "41"]].

Definition sheet_serial_blank : grid :=
  [[CText "Sold units"; CEmpty; CEmpty; CEmpty];
   sold_header;
   [CNum "1"; CText "A"; CText "101"; CNum "23.5"];
   [CNum "2"; CText "A"; CText "102"; CNum "40"];
   [CText ""; CText "A"; CText "103"; CNum "41"]].

Definition sheet_serial_inf : grid :=
  [[CText "Sold units"; CEmpty; CEmpty; CEmpty];
   sold_header;
   [CText "1"; CText "A"; CText "101"; CText "23.5"];
   [CText "inf"; CText "A"; CText "102"; CText "40"]].

Definition sheet_far_header : grid :=
  [[CText "Sold"; CEmpty; CEmpty; CEmpty];
   [CText "Annexure A"; CEmpty; CEmpty; CEmpty];
   [CText "Project details"; CEmpty; CEmpty; CEmpty];
   [CText "Name of promoter"; CEmpty; CEmpty; CEmpty];
   [CText "Remarks"; CEmpty; CEmpty; CEmpty];
   sold_header;
   [CText "1"; CText "A"; CText "101"; CText "23.5"]].

Definition sheet_booked : grid :=
  [[CText "Booked flats"; CEmpty];
   [CText "Sr No"; CText "Flat No"];
   [CText "1"; CText "101"]].

(** A sheet whose only candidate header row has a single keyword cell. *)
Definition sheet_one_hit : grid :=
  [[CText "Sold"; CEmpty];
   [CText "Flat"; CEmpty];
   [CText "1"; CText "101"]].

Definition certificate_beta : string :=
  "This certificate is being issued for the project Beta having MahaRERA Registration Number P51800012345 being developed by X".

Definition certificate_no_match : string :=
  "This certificate is being issued for the project Alpha".

Definition converter_alpha : converter := set_project_name "Alpha" new_converter.

(** A workbook whose Table A lacks the certificate sentence, which stands
    on a later sheet; the file is named after the project Alpha. *)
Definition workbook_alpha_beta : workbook :=
  [("Table A", text_sheet [[CText "Project details"]]);
   ("Annexure", text_sheet [[CText certificate_beta]])].

Definition fallback_alpha : string * string * string := ("Alpha", "", "").

Definition workbook_no_match : workbook :=
  [("Table A", text_sheet [[CText certificate_no_match]])].

(** A sold section whose header has a wing column, followed by an unsold
    section whose header has none. *)
Definition sheet_two_sections : grid :=
  [[CText "Sold units"; CEmpty; CEmpty; CEmpty];
   sold_header;
   [CText "1"; CText "A"; CText "101"; CText "23.5"];
   [CEmpty; CEmpty; CEmpty; CEmpty];
   [CText "Unsold units"; CEmpty; CEmpty; CEmpty];
   [CText "Sr No"; CEmpty; CText "Flat No"; CText "Carpet Area"];
   [CText "1"; CEmpty; CText "201"; CText "30"]].

Definition workbook_two_sections : workbook :=
  [("Table C", text_sheet sheet_two_sections)].

Definition workbook_serial_inf : workbook :=
  [("Table C", text_sheet sheet_serial_inf)].



Definition unit_a : unit_data := mk_unit 7 "A" "101" "23.5" "sold" "".
Definition unit_b : unit_data := mk_unit 9 "A" "102" "40" "sold" "".
Definition unit_c : unit_data := mk_unit 1 "B" "201" "n/a" "unsold" "".

(** The same unit with another stored serial. *)
Definition with_sr_no (z : Z) (u : unit_data) : unit_data :=
  mk_unit z (building_no u) (flat_no u) (carpet_area u) (status u)
    (registration_date u).

Definition converter_abc : converter :=
  set_units "unsold" [unit_c] (set_units "sold" [unit_a; unit_b] new_converter).

(** A row has a cell whose text contains the keyword, whatever the case. *)
Definition row_mentions (section_keyword : string) (r : row) : Prop :=
  exists c, In c r /\ cell_has_keyword section_keyword c = true.

(** A row has a cell equal to [1] or to ["1"]. *)
Definition row_has_one (r : row) : Prop :=
  exists c, In c r /\ is_one c = true.

(** The five fields a column mapping may hold. *)
Definition mapping_keys : list string :=
  ["sr_no"; "flat_no"; "carpet_area"; "unit_type"; "building_no"].

(** The test of the first branch of the mapping chain. *)
Definition is_serial_header (header : string) : bool :=
  contains "sr" header && contains "no" header.

(** What a mapping looks like after the headers before position [i]. *)
Definition mapping_ok (i : nat) (m : gmap string nat) : Prop :=
  (forall k j, m !! k = Some j -> (j < i)%nat /\ In k mapping_keys) /\
  (forall k1 k2 j, m !! k1 = Some j -> m !! k2 = Some j -> k1 = k2).

(** Every character of a text passes the test. *)
Fixpoint all_chars (p : ascii -> bool) (s : string) : bool :=
  match s with
  | EmptyString => true
  | String c s' => p c && all_chars p s'
  end.

(** [s or fallback] for two texts. *)
Definition or_else (s fallback : string) : string :=
  if is_empty s then fallback else s.

(** What Table A gives to the primary pass: the pair returned by
    [extract_project_info], or two empty texts when the sheet is missing. *)
Definition table_a_info (wb : workbook) : py_result (string * string) :=
  match find_sheet "table a" wb with
  | Some table_a => extract_project_info (read_excel table_a)
  | None => Ret ("", "")
  end.

(** What Table B gives to the primary pass. *)
Definition table_b_date (wb : workbook) : string :=
  match find_sheet "table b" wb with
  | Some table_b => extract_as_on_date (read_excel table_b)
  | None => ""
  end.

(** *** The unit summary of the conversion report

    [generate_conversion_report] adds up [len(units)] over
    [converter.unit_sections.items()] and reports success when the total is
    positive; the total does not depend on the order of the items. *)

Definition total_units (st : converter) : nat :=
  sum_list_with (fun kv => length (snd kv)) (map_to_list (unit_sections st)).

Definition report_success (st : converter) : bool :=
  (0 <? total_units st)%nat.

(** The keys of [unit_sections] are the seven sections. *)
Definition has_section_keys (st : converter) : Prop :=
  dom (unit_sections st) = list_to_set sections.

(** No cell of the sheet is the float [1.0]. *)
Definition no_float_one (g : grid) : Prop :=
  forall r c, In r g -> In c r -> c <> CNum "1.0".

(** A number as the text it prints as; the other cells as they are. *)
Definition as_str (c : cell) : cell :=
  match c with CNum r => CText r | _ => c end.

(** The two readings of a sheet show every number alike: a number of the
    plain reading arrives under [dtype=str] as the text it prints as, and
    the other cells are the same.  It is not so for an integer in a column
    that the plain reading holds as floats, which prints as [1.0] and
    arrives as ["1"]. *)
Definition prints_alike (s : sheet) : Prop :=
  read_excel_str s = map (map as_str) (read_excel s).

(** The characters of a finite number in print: digits, a sign, the point
    and the letter of the exponent. *)
Definition numeral_char (c : ascii) : bool :=
  is_digit c || Ascii.eqb c "+" || Ascii.eqb c "-" || Ascii.eqb c "."
  || Ascii.eqb c "e" || Ascii.eqb c "E".

(** What [dtype=str] may return for a cell of the plain reading: an empty
    cell stays empty, a text stays the same text, and a number arrives as a
    text, the one it prints as in the plain reading or another numeral
    (["1"] for a number that prints as [1.0]). *)
Definition reads_as (plain_cell text_cell : cell) : Prop :=
  match plain_cell with
  | CEmpty => text_cell = CEmpty
  | CText s => text_cell = CText s
  | CNum r =>
      exists r', text_cell = CText r' /\
                 (r' = r \/ all_chars numeral_char r' = true)
  end.

(** The two readings of a sheet agree cell by cell. *)
Definition readings_agree (s : sheet) : Prop :=
  Forall2 (Forall2 reads_as) (read_excel s) (read_excel_str s).

(** *** Validation of an input file ([validate_form3_file]) *)

(** [s.endswith(suffix)] *)
Definition ends_with (suffix s : string) : bool :=
  (String.length suffix <=? String.length s)%nat &&
  String.eqb
    (String.substring (String.length s - String.length suffix)
       (String.length suffix) s)
    suffix.

(** The dictionary [validation_results]. *)
Record validation : Type := mk_validation {
  is_excel : bool;
  has_table_a : bool;
  has_table_b : bool;
  has_table_c : bool;
  has_project_info : bool;
  has_date_info : bool;
  has_unit_data : bool;
  overall_valid : bool
}.

(** [any(p(str(cell).lower()) for row in g.values for cell in row if pd.notna(cell))] *)
Definition any_cell (p : string -> bool) (g : grid) : bool :=
  existsb (fun c => notna c && p (lower (py_str c))) (concat g).

(** [wb] is [None] when [pd.ExcelFile] raises: the [except] clause then
    returns the results set so far.  The project information is looked for
    in the first sheet of the workbook, the date and the units in the sheets
    named after Table B and Table C; every sheet is read with
    [header=None] alone. *)
Definition validate_form3_file (file_path : string) (wb : option workbook)
  : validation :=
  if negb (ends_with ".xlsx" file_path || ends_with ".xls" file_path)
  then mk_validation false false false false false false false false
  else
    match wb with
    | None => mk_validation true false false false false false false false
    | Some w =>
        let sheet_names := map (fun sh => lower (fst sh)) w in
        let table_a := existsb (contains "table a") sheet_names in
        let table_b := existsb (contains "table b") sheet_names in
        let table_c := existsb (contains "table c") sheet_names in
        let project_info :=
          table_a &&
          match w with
          | (_, first_sheet) :: _ =>
              any_cell (contains certificate_sentence) (read_excel first_sheet)
          | [] => false
          end in
        let date_info :=
          table_b &&
          match find_sheet "table b" w with
          | Some table_b_data =>
              any_cell (contains "as on") (read_excel table_b_data)
          | None => false
          end in
        let unit_data :=
          table_c &&
          match find_sheet "table c" w with
          | Some table_c_data =>
              any_cell (fun text => existsb (fun keyword => contains keyword text)
                                      sections) (read_excel table_c_data)
          | None => false
          end in
        mk_validation true table_a table_b table_c project_info date_info unit_data
          (true && (table_a || table_b || table_c)
           && (project_info || date_info || unit_data))
    end.

(** *** Information read off the file name ([extract_from_filename]) *)

Module FileName.

(** A pattern is a sequence of character classes, each repeated between
    [lo] and [hi] times ([hi = None]: without bound), greedily: [re] tries
    the longest repetition first and gives characters back one at a time. *)
Inductive atom : Type :=
| Rep (cls : ascii -> bool) (lo : nat) (hi : option nat).

Fixpoint run_length (cls : ascii -> bool) (s : string) : nat :=
  match s with
  | String c s' => if cls c then S (run_length cls s') else 0%nat
  | EmptyString => 0%nat
  end.

Fixpoint drop_chars (n : nat) (s : string) : string :=
  match n, s with
  | S n', String _ s' => drop_chars n' s'
  | _, _ => s
  end.

(** The first success of [f] on [k], [k - 1], ..., [lo]. *)
Fixpoint try_down (f : nat -> option nat) (lo k : nat) : option nat :=
  match f k with
  | Some r => Some r
  | None =>
      match k with
      | S k' => if (lo <=? k')%nat then try_down f lo k' else None
      | O => None
      end
  end.

(** The length of the match of [p] at the start of [s]. *)
Fixpoint match_here (p : list atom) (s : string) : option nat :=
  match p with
  | [] => Some 0%nat
  | Rep cls lo hi :: p' =>
      let n := run_length cls s in
      let top := match hi with Some h => Nat.min h n | None => n end in
      if (top <? lo)%nat then None
      else
        try_down
          (fun k => option_map (Nat.add k) (match_here p' (drop_chars k s)))
          lo top
  end.

(** [re.search(p, s)]: the start and the length of the leftmost match. *)
Fixpoint search_from (p : list atom) (i : nat) (s : string) : option (nat * nat) :=
  match match_here p s with
  | Some n => Some (i, n)
  | None =>
      match s with
      | String _ s' => search_from p (S i) s'
      | EmptyString => None
      end
  end.

Definition search (p : list atom) (s : string) : option (nat * nat) :=
  search_from p 0 s.

Definition is_sep (c : ascii) : bool := Ascii.eqb c "/" || Ascii.eqb c "-".

(** [[A-Z]\d+] *)
Definition filename_rera : list atom :=
  [Rep is_upper 1 (Some 1%nat); Rep is_digit 1 None].

(** [\d{1,2}[/-]\d{1,2}[/-]\d{2,4}] *)
Definition filename_date : list atom :=
  [Rep is_digit 1 (Some 2%nat); Rep is_sep 1 (Some 1%nat);
   Rep is_digit 1 (Some 2%nat); Rep is_sep 1 (Some 1%nat);
   Rep is_digit 2 (Some 4%nat)].

(** [match.group(1)] and [s[:match.start()]] *)
Definition group (s : string) (m : nat * nat) : string :=
  String.substring (fst m) (snd m) s.

Definition before (s : string) (m : nat * nat) : string :=
  String.substring 0 (fst m) s.

(** [re.sub(r'[_-]+', ' ', s)]: every longest run of underscores and
    hyphens becomes one space; [in_run] tells that the previous character
    belonged to a run. *)
Definition is_joiner (c : ascii) : bool := Ascii.eqb c "_" || Ascii.eqb c "-".

Fixpoint sub_joiners (in_run : bool) (s : string) : string :=
  match s with
  | EmptyString => EmptyString
  | String c s' =>
      if is_joiner c then
        if in_run then sub_joiners true s'
        else String " " (sub_joiners true s')
      else String c (sub_joiners false s')
  end.

(** The position of the last character accepted by [p]. *)
Fixpoint rfind (p : ascii -> bool) (i : nat) (s : string) : option nat :=
  match s with
  | EmptyString => None
  | String c s' =>
      match rfind p (S i) s' with
      | Some j => Some j
      | None => if p c then Some i else None
      end
  end.

(** [os.path.splitext(p)[0]] of [posixpath]: the extension starts at the
    last dot, provided the dot comes after the last slash and some character
    between that slash and the dot is not a dot. *)
Definition splitext_root (p : string) : string :=
  match rfind (Ascii.eqb ".") 0 p with
  | None => p
  | Some dot_index =>
      let filename_index :=
        match rfind (Ascii.eqb "/") 0 p with
        | Some sep_index => S sep_index
        | None => 0%nat
        end in
      if (filename_index <=? dot_index)%nat
         && negb (all_chars (Ascii.eqb ".")
                    (String.substring filename_index (dot_index - filename_index) p))
      then String.substring 0 dot_index p
      else p
  end.

(** [os.path.basename(p)] of [posixpath] *)
Definition basename (p : string) : string :=
  match rfind (Ascii.eqb "/") 0 p with
  | Some i => drop_chars (S i) p
  | None => p
  end.

Definition extract_from_filename (filename : string) : string * string * string :=
  let base_name := splitext_root filename in
  let rera_match := search filename_rera base_name in
  let rera_number :=
    match rera_match with Some m => group base_name m | None => "" end in
  let date_match := search filename_date base_name in
  let date_str :=
    match date_match with Some m => group base_name m | None => "" end in
  let project_name :=
    match rera_match, date_match with
    | Some m, _ => strip (before base_name m)
    | None, Some m => strip (before base_name m)
    | None, None => base_name
    end in
  (strip (sub_joiners false project_name), rera_number, date_str).

(** The texts a pattern accepts as a whole: one block of characters per
    class, of a length within the bounds of the repetition. *)
Fixpoint accepts (p : list atom) (t : string) : Prop :=
  match p with
  | [] => t = EmptyString
  | Rep cls lo hi :: p' =>
      exists a b,
        t = String.append a b /\
        all_chars cls a = true /\
        (lo <= String.length a)%nat /\
        match hi with Some h => (String.length a <= h)%nat | None => True end /\
        accepts p' b
  end.

(** A capital letter directly followed by a digit: at the start of [s],
    and anywhere in [s]. *)
Definition token_at_start (s : string) : bool :=
  match s with
  | String c (String d _) => is_upper c && is_digit d
  | _ => false
  end.

Fixpoint has_token (s : string) : bool :=
  token_at_start s ||
  match s with
  | String _ s' => has_token s'
  | EmptyString => false
  end.

End FileName.

(** [process_form3_file(file_path)] on a workbook that could be opened. *)
Definition process_form3_path (file_path : string) (wb : workbook) (st : converter)
  : bool * converter :=
  process_form3_file wb
    (FileName.extract_from_filename (FileName.basename file_path)) st.

(** *** Vocabulary of the metadata *)

(** The atoms of a pattern other than the two parentheses of its group. *)
Definition plain_atom (a : Re.atom) : Prop :=
  match a with Re.Open | Re.Close => False | _ => True end.

(** The three header values of a converter are clean: no whitespace around
    the project name and the as-on date, letters and digits only in the
    registration number. *)
Definition clean_metadata (st : converter) : Prop :=
  strip (project_name st) = project_name st /\
  all_chars Re.alnum (rera_number st) = true /\
  strip (as_on_date st) = as_on_date st.

(** *** Output paths *)

(** [os.path.join(a, b)] of [posixpath] *)
Definition path_join (a b : string) : string :=
  if String.prefix "/" b then b
  else if is_empty a || ends_with "/" a then String.append a b
  else String.append a (String "/" b).

(** [f"{os.path.splitext(p)[0]}_Circular29.xlsx"] *)
Definition default_output_path (input_file_path : string) : string :=
  String.append (FileName.splitext_root input_file_path) "_Circular29.xlsx".

(** The path [convert_form3_to_circular29] writes to; [None] and the empty
    text both count as no path given. *)
Definition convert_output_path (input_file_path : string)
    (output_file_path : option string) : string :=
  match output_file_path with
  | Some p => if is_empty p then default_output_path input_file_path else p
  | None => default_output_path input_file_path
  end.

(** The path [batch_convert_form3_files] reads a file of the input
    directory from, and the path it writes the conversion to. *)
Definition batch_paths (input_directory : string) (output_directory : option string)
    (file : string) : string * string :=
  let output_directory :=
    match output_directory with
    | Some d => if is_empty d then input_directory else d
    | None => input_directory
    end in
  (path_join input_directory file,
   path_join output_directory (default_output_path file)).

(** * Properties *)

(** ** Scanning *)

Section FindRow.

Variable p : row -> bool.

Lemma find_row_Some (rows : grid) :
  forall i k, find_row p i rows = Some k ->
    exists j r, k = (i + j)%nat /\ rows !! j = Some r /\ p r = true /\
      forall j' r', (j' < j)%nat -> rows !! j' = Some r' -> p r' = false.
Proof.
  induction rows as [|r0 rs IH]; intros i k H; simpl in H; [discriminate|].
  destruct (p r0) eqn:E.
  - injection H as <-. exists 0%nat, r0.
    split; [lia|]. split; [reflexivity|]. split; [exact E|].
    intros j' r' Hlt. lia.
  - destruct (IH _ _ H) as (j & r & -> & Hj & Hp & Hfirst).
    exists (S j), r.
    split; [lia|]. split; [exact Hj|]. split; [exact Hp|].
    intros [|j'] r' Hlt Hl; simpl in Hl.
    + congruence.
    + apply (Hfirst j'); [lia | exact Hl].
Qed.

Lemma find_row_None (rows : grid) :
  forall i, find_row p i rows = None ->
    forall j r, rows !! j = Some r -> p r = false.
Proof.
  induction rows as [|r0 rs IH]; intros i H j r Hj; [destruct j; discriminate|].
  simpl in H. destruct (p r0) eqn:E; [discriminate|].
  destruct j as [|j]; simpl in Hj.
  - congruence.
  - eapply IH; eauto.
Qed.

Lemma find_row_first (rows : grid) :
  forall i j r, rows !! j = Some r -> p r = true ->
    (forall j' r', (j' < j)%nat -> rows !! j' = Some r' -> p r' = false) ->
    find_row p i rows = Some (i + j)%nat.
Proof.
  induction rows as [|r0 rs IH]; intros i j r Hj Hp Hfirst; [destruct j; discriminate|].
  simpl. destruct j as [|j]; simpl in Hj.
  - injection Hj as ->. rewrite Hp. f_equal. lia.
  - rewrite (Hfirst 0%nat r0); [|lia|reflexivity].
    rewrite (IH (S i) j r); [f_equal; lia|exact Hj|exact Hp|].
    intros j' r' Hlt Hl. apply (Hfirst (S j')); [lia|exact Hl].
Qed.

Lemma find_row_all_false (rows : grid) :
  forall i, (forall j r, rows !! j = Some r -> p r = false) ->
    find_row p i rows = None.
Proof.
  induction rows as [|r0 rs IH]; intros i H; [reflexivity|].
  simpl. rewrite (H 0%nat r0) by reflexivity.
  apply IH. intros j r Hj. apply (H (S j)). exact Hj.
Qed.

End FindRow.

Lemma or_minus_one_nat (o : option nat) (i : nat) :
  or_minus_one o = Z.of_nat i <-> o = Some i.
Proof.
  destruct o as [k|]; simpl; split; intros H.
  - f_equal. lia.
  - injection H as ->. reflexivity.
  - lia.
  - discriminate.
Qed.

Lemma or_minus_one_none (o : option nat) :
  or_minus_one o = -1 <-> o = None.
Proof.
  destruct o as [k|]; simpl; split; intros H; try reflexivity; try discriminate; lia.
Qed.

Lemma existsb_row_mentions (kw : string) (r : row) :
  existsb (cell_has_keyword kw) r = true <-> row_mentions kw r.
Proof. unfold row_mentions. apply existsb_exists. Qed.

Lemma existsb_row_has_one (r : row) :
  existsb is_one r = true <-> row_has_one r.
Proof. unfold row_has_one. apply existsb_exists. Qed.

Lemma not_true_false (b : bool) : b <> true <-> b = false.
Proof. destruct b; split; congruence. Qed.

(** ** The column mapping and the flag *)

Lemma mapped_insert (k k' : string) (i : nat) (m : gmap string nat) :
  mapped k m = true -> mapped k (<[k' := i]> m) = true.
Proof.
  unfold mapped. rewrite !bool_decide_eq_true. intros [v Hv].
  destruct (decide (k' = k)) as [->|Hne].
  - rewrite lookup_insert_eq. eauto.
  - rewrite lookup_insert_ne by exact Hne. eauto.
Qed.

Lemma map_header_step_keeps (k : string) (i : nat) (h : string) (m : gmap string nat) :
  mapped k m = true -> mapped k (map_header_step i h m) = true.
Proof.
  intros H. unfold map_header_step.
  repeat match goal with
         | |- context [if ?b then _ else _] => destruct b
         end; auto using mapped_insert.
Qed.

Lemma map_columns_keeps (k : string) (hs : list string) :
  forall i m b, mapped k m = true ->
    mapped k (fst (map_columns i hs (m, b))) = true.
Proof.
  induction hs as [|h hs IH]; intros i m b H; simpl; [exact H|].
  apply IH. apply map_header_step_keeps. exact H.
Qed.

Lemma map_columns_flag (hs : list string) :
  forall i m inc,
    map_columns i hs (m, inc) =
    (fst (map_columns i hs (m, false)),
     inc || snd (map_columns i hs (m, false))).
Proof.
  induction hs as [|h hs IH]; intros i m inc; simpl.
  - rewrite orb_false_r. reflexivity.
  - rewrite IH.
    rewrite (IH (S i) _ (if mapped "building_no" (map_header_step i h m) then true else false)).
    simpl. f_equal.
    destruct (mapped "building_no" (map_header_step i h m)), inc; reflexivity.
Qed.

Lemma map_columns_flag_mapped (hs : list string) :
  forall i m,
    snd (map_columns i hs (m, false)) =
    negb (is_nil hs) && mapped "building_no" (fst (map_columns i hs (m, false))).
Proof.
  induction hs as [|h hs IH]; intros i m; simpl; [reflexivity|].
  rewrite map_columns_flag. simpl. rewrite IH.
  destruct (mapped "building_no" (map_header_step i h m)) eqn:E.
  - simpl. symmetry. apply map_columns_keeps. exact E.
  - simpl. destruct hs; simpl; [rewrite E|]; reflexivity.
Qed.

(** The flag after the mapping of a header row: set when it was set, or
    when the row maps a building column. *)
Lemma map_columns_header (header_row : row) (inc : bool) :
  map_columns 0 (headers_of header_row) (∅, inc) =
  (column_map header_row, inc || mapped "building_no" (column_map header_row)).
Proof.
  rewrite map_columns_flag. unfold column_map. f_equal. f_equal.
  rewrite map_columns_flag_mapped.
  destruct (headers_of header_row); reflexivity.
Qed.

(** ** The shape of [extract_unit_data] *)

Lemma extract_unit_data_unfold (sheet_data : grid) (kw : string) (st : converter) :
  extract_unit_data sheet_data kw st =
  match locate_header sheet_data kw with
  | None => (Ret [], st)
  | Some (d, h) =>
      let m := column_map (iloc sheet_data h) in
      (extract_rows m kw false (drop d sheet_data) [],
       set_include (include_building_column st || mapped "building_no" m) st)
  end.
Proof.
  unfold extract_unit_data, locate_header, find_section_start, find_data_start_row.
  destruct (find_row _ 0 sheet_data) as [s|]; simpl; [|reflexivity].
  replace (Z.of_nat s =? -1) with false by (symmetry; apply Z.eqb_neq; lia).
  rewrite Nat2Z.id.
  destruct (find_row _ s (drop s sheet_data)) as [d|]; simpl; [|reflexivity].
  replace (Z.of_nat d =? -1) with false by (symmetry; apply Z.eqb_neq; lia).
  rewrite Nat2Z.id.
  destruct (header_row_index sheet_data d =? -1); [reflexivity|].
  unfold mbind_, mget, mmodify, mlift. simpl.
  rewrite map_columns_header. reflexivity.
Qed.

Lemma find_row_drop_spec (p : row -> bool) (sheet_data : grid) (s d : nat) :
  find_row p s (drop s sheet_data) = Some d <->
  (s <= d)%nat /\
  (exists r, sheet_data !! d = Some r /\ p r = true) /\
  (forall j r, (s <= j < d)%nat -> sheet_data !! j = Some r -> p r = false).
Proof.
  split.
  - intros H. apply find_row_Some in H as (j & r & -> & Hj & Hp & Hfirst).
    rewrite lookup_drop in Hj.
    split; [lia|]. split; [eauto|].
    intros j' r' Hlt Hl. apply (Hfirst (j' - s)%nat); [lia|].
    rewrite lookup_drop. replace (s + (j' - s))%nat with j' by lia. exact Hl.
  - intros (Hle & (r & Hr & Hp) & Hfirst).
    replace d with (s + (d - s))%nat by lia.
    apply find_row_first with (r := r).
    + rewrite lookup_drop. replace (s + (d - s))%nat with d by lia. exact Hr.
    + exact Hp.
    + intros j' r' Hlt Hl. rewrite lookup_drop in Hl.
      apply (Hfirst (s + j')%nat); [lia|exact Hl].
Qed.

Lemma find_row_drop_none (p : row -> bool) (sheet_data : grid) (s : nat) :
  find_row p s (drop s sheet_data) = None <->
  (forall j r, (s <= j)%nat -> sheet_data !! j = Some r -> p r = false).
Proof.
  split.
  - intros H j r Hle Hl. apply (find_row_None _ _ _ H (j - s)%nat).
    rewrite lookup_drop. replace (s + (j - s))%nat with j by lia. exact Hl.
  - intros H. apply find_row_all_false. intros j r Hl.
    rewrite lookup_drop in Hl. apply (H (s + j)%nat); [lia|exact Hl].
Qed.

(** ** Section location (C5) *)

(** C5, as worded, fails: a cell that holds "Booked flats" contains a
    synonym listed for the sold section, so the worded locator answers
    row 0, while [find_section_start], which is given the label "sold",
    answers the sentinel. *)
Lemma booked_does_not_locate_sold :
  claimed_section_start sheet_booked "sold" = 0 /\
  find_section_start sheet_booked "sold" = -1.
Proof. split; vm_compute; reflexivity. Qed.

(** C5, amended: [find_section_start] looks for the one keyword it is
    given (the callers pass the label itself), whatever the case, as a part
    of a cell's text; it answers the position of the first row that has such
    a cell, rows taken from the top, and the sentinel [-1] when no row has
    one, in which case [extract_unit_data] returns no unit. *)
Theorem find_section_start_first_mention (sheet_data : grid) (kw : string) :
  (forall i : nat,
      find_section_start sheet_data kw = Z.of_nat i <->
      (exists r, sheet_data !! i = Some r /\ row_mentions kw r) /\
      (forall j r, (j < i)%nat -> sheet_data !! j = Some r -> ~ row_mentions kw r))
  /\ (find_section_start sheet_data kw = -1 <->
      forall j r, sheet_data !! j = Some r -> ~ row_mentions kw r)
  /\ (find_section_start sheet_data kw = -1 ->
      forall st, extract_unit_data sheet_data kw st = (Ret [], st)).
Proof.
  unfold find_section_start.
  change (find_row (existsb (cell_has_keyword kw)) 0 sheet_data)
    with (find_row (existsb (cell_has_keyword kw)) 0 (drop 0 sheet_data)).
  split; [|split].
  - intros i. rewrite or_minus_one_nat, find_row_drop_spec. split.
    + intros (_ & (r & Hr & Hp) & Hfirst). split.
      * exists r. split; [exact Hr|]. apply existsb_row_mentions. exact Hp.
      * intros j r' Hlt Hl Hm. apply existsb_row_mentions in Hm.
        rewrite (Hfirst j r') in Hm; [discriminate|lia|exact Hl].
    + intros ((r & Hr & Hm) & Hfirst). split; [lia|]. split.
      * exists r. split; [exact Hr|]. apply existsb_row_mentions. exact Hm.
      * intros j r' Hlt Hl. apply not_true_false. intros Hp.
        apply (Hfirst j r'); [lia|exact Hl|]. apply existsb_row_mentions. exact Hp.
  - rewrite or_minus_one_none, find_row_drop_none. split.
    + intros H j r Hl Hm. apply existsb_row_mentions in Hm.
      rewrite (H j r) in Hm; [discriminate|lia|exact Hl].
    + intros H j r _ Hl. apply not_true_false. intros Hp.
      apply (H j r Hl). apply existsb_row_mentions. exact Hp.
  - intros H st. rewrite extract_unit_data_unfold. unfold locate_header.
    apply or_minus_one_none in H.
    change (drop 0 sheet_data) with sheet_data in H. rewrite H. reflexivity.
Qed.

Lemma find_section_start_first_mention_witness :
  find_section_start sheet_booked "booked" = 0 /\
  forall st, extract_unit_data sheet_booked "sold" st = (Ret [], st).
Proof.
  split.
  - apply (proj1 (find_section_start_first_mention sheet_booked "booked") 0%nat).
    split.
    + exists [CText "Booked flats"; CEmpty]. split; [reflexivity|].
      exists (CText "Booked flats"). split; [left; reflexivity|reflexivity].
    + intros j r Hlt. lia.
  - apply (proj2 (proj2 (find_section_start_first_mention sheet_booked "sold"))).
    reflexivity.
Defined.

(** ** The header row (C2) *)

Lemma find_header_seq (sheet_data : grid) (n : nat) :
  forall lo,
    (forall i : nat,
        find_header sheet_data (seq lo n) = Z.of_nat i <->
        (lo <= i < lo + n)%nat /\
        (2 <= match_count (iloc sheet_data i))%nat /\
        (forall j, (lo <= j < i)%nat -> (match_count (iloc sheet_data j) < 2)%nat))
    /\ (find_header sheet_data (seq lo n) = -1 <->
        forall j, (lo <= j < lo + n)%nat -> (match_count (iloc sheet_data j) < 2)%nat).
Proof.
  induction n as [|n IH]; intros lo; cbn [seq find_header].
  - split.
    + intros i. split; [lia|]. intros (H & _). lia.
    + split; [|reflexivity]. intros _ j H. lia.
  - destruct (IH (S lo)) as [IHi IHn].
    destruct (2 <=? match_count (iloc sheet_data lo))%nat eqn:E.
    + apply Nat.leb_le in E. split.
      * intros i. split.
        -- intros H. assert (i = lo) as -> by lia.
           split; [lia|]. split; [exact E|]. intros j Hj. lia.
        -- intros (Hr & Hc & Hfirst).
           destruct (decide (i = lo)) as [->|Hne]; [reflexivity|].
           specialize (Hfirst lo). lia.
      * split; [lia|]. intros H. specialize (H lo). lia.
    + apply Nat.leb_gt in E. split.
      * intros i. rewrite IHi. split.
        -- intros (Hr & Hc & Hfirst). split; [lia|]. split; [exact Hc|].
           intros j Hj. destruct (decide (j = lo)) as [->|Hne]; [exact E|].
           apply Hfirst. lia.
        -- intros (Hr & Hc & Hfirst).
           assert (i <> lo) by (intros ->; lia).
           split; [lia|]. split; [exact Hc|]. intros j Hj. apply Hfirst. lia.
      * rewrite IHn. split.
        -- intros H j Hj. destruct (decide (j = lo)) as [->|Hne]; [exact E|].
           apply H. lia.
        -- intros H j Hj. apply H. lia.
Qed.

(** C2, as worded, fails: with the section banner on row 0, the header on
    row 5 and the first unit on row 6, the window that ends at the section
    start holds no header row, so the worded detector finds none and the
    section would yield nothing; [extract_unit_data] finds the header and
    returns the unit. *)
Lemma header_window_ends_at_data_start :
  find_section_start sheet_far_header "sold" = 0 /\
  claimed_header_row sheet_far_header 0 = -1 /\
  fst (extract_unit_data sheet_far_header "sold" new_converter) =
    Ret [mk_unit 1 "A" "101" "23.5" "sold" ""].
Proof. repeat split; vm_compute; reflexivity. Qed.

(** C2, amended: the window is the four rows that end at the data start
    (fewer at the top of the sheet), the data start being the first row at
    or after the section start with a cell equal to 1; the header row is the
    first row of that window in which at least two cells contain one of the
    tokens sr, flat, carpet, unit, building, wing; a row with two such cells
    is taken, a row with one is not; and when no row of the window
    qualifies the section yields no unit. *)
Theorem header_row_first_in_data_window (sheet_data : grid) :
  (forall s d : nat,
      find_data_start_row sheet_data s = Z.of_nat d <->
      (s <= d)%nat /\
      (exists r, sheet_data !! d = Some r /\ row_has_one r) /\
      (forall j r, (s <= j < d)%nat -> sheet_data !! j = Some r -> ~ row_has_one r))
  /\ (forall d i : nat,
      header_row_index sheet_data d = Z.of_nat i <->
      (d - 3 <= i <= d)%nat /\
      (2 <= match_count (iloc sheet_data i))%nat /\
      (forall j, (d - 3 <= j < i)%nat -> (match_count (iloc sheet_data j) < 2)%nat))
  /\ (forall d : nat,
      header_row_index sheet_data d = -1 <->
      forall j, (d - 3 <= j <= d)%nat -> (match_count (iloc sheet_data j) < 2)%nat)
  /\ (forall (kw : string) (s d : nat) (st : converter),
      find_section_start sheet_data kw = Z.of_nat s ->
      find_data_start_row sheet_data s = Z.of_nat d ->
      header_row_index sheet_data d = -1 ->
      extract_unit_data sheet_data kw st = (Ret [], st)).
Proof.
  split; [|split; [|split]].
  - intros s d. unfold find_data_start_row.
    rewrite or_minus_one_nat, find_row_drop_spec. split.
    + intros (Hle & (r & Hr & Hp) & Hfirst). split; [exact Hle|]. split.
      * exists r. split; [exact Hr|]. apply existsb_row_has_one. exact Hp.
      * intros j r' Hj Hl Hm. apply existsb_row_has_one in Hm.
        rewrite (Hfirst j r') in Hm; [discriminate|exact Hj|exact Hl].
    + intros (Hle & (r & Hr & Hm) & Hfirst). split; [exact Hle|]. split.
      * exists r. split; [exact Hr|]. apply existsb_row_has_one. exact Hm.
      * intros j r' Hj Hl. apply not_true_false. intros Hp.
        apply (Hfirst j r' Hj Hl). apply existsb_row_has_one. exact Hp.
  - intros d i. unfold header_row_index, header_window.
    rewrite (proj1 (find_header_seq sheet_data _ _) i).
    split; intros (Hr & Hc & Hfirst); (split; [lia|]); (split; [exact Hc|]);
      exact Hfirst.
  - intros d. unfold header_row_index, header_window.
    rewrite (proj2 (find_header_seq sheet_data _ _)).
    split; intros H j Hj; apply H; lia.
  - intros kw s d st Hs Hd Hh.
    rewrite extract_unit_data_unfold. unfold locate_header.
    unfold find_section_start in Hs. apply or_minus_one_nat in Hs. rewrite Hs.
    unfold find_data_start_row in Hd. apply or_minus_one_nat in Hd. rewrite Hd.
    rewrite Hh. reflexivity.
Qed.

Lemma header_row_first_in_data_window_witness :
  header_row_index sheet_far_header 6 = 5 /\
  extract_unit_data sheet_one_hit "sold" new_converter = (Ret [], new_converter).
Proof.
  split.
  - apply (proj1 (proj2 (header_row_first_in_data_window sheet_far_header)) 6%nat 5%nat).
    split; [lia|]. split; [vm_compute; lia|].
    intros j Hj. assert (j = 3 \/ j = 4)%nat as [-> | ->] by lia; vm_compute; lia.
  - apply (proj2 (proj2 (proj2 (header_row_first_in_data_window sheet_one_hit)))
             "sold" 0%nat 2%nat new_converter); reflexivity.
Defined.

(** ** Project information (C4) *)

Lemma extract_project_info_absent (sheet_data : grid) :
  (forall v, In v (cell_values sheet_data) ->
             contains certificate_sentence (lower v) = false) ->
  extract_project_info sheet_data = Ret ("", "").
Proof.
  intros H. unfold extract_project_info.
  destruct (List.find _ (cell_values sheet_data)) as [v|] eqn:E; [|reflexivity].
  apply find_some in E as [Hin Hv]. rewrite (H v Hin) in Hv. discriminate.
Qed.


(** C4: a cell that holds the certificate sentence without the word
    "having" binds neither local, and the [return] statement raises
    [UnboundLocalError] where the claim promises a pair of texts; the
    exception leaves [extract_project_info] and [process_form3_file]
    reports the whole document as failed. *)
Theorem project_info_raises_without_captures :
  extract_project_info [[CText certificate_no_match]] = Raise UnboundLocalError /\
  fst (process_form3_file workbook_no_match ("", "", "") new_converter) = false.
Proof. split; vm_compute; reflexivity. Qed.

(** ** The merge of project metadata (C3) *)

(** C3: the primary pass takes the project name Alpha from the file name
    and leaves the registration number empty; the recovery pass then finds
    the certificate of project Beta on a later sheet and assigns its name
    over Alpha, because the test before the assignment asks whether either
    of the two fields is empty. *)
Theorem recovery_overwrites_project_name :
  let primary := process_form3_file workbook_alpha_beta fallback_alpha new_converter in
  fst primary = true /\
  project_name (snd primary) = "Alpha" /\
  rera_number (snd primary) = "" /\
  project_name (snd (attempt_data_recovery workbook_alpha_beta (snd primary))) = "Beta".
Proof. repeat split; vm_compute; reflexivity. Qed.

(** ** The record extractor (C1) *)

Lemma extract_rows_armed (m : gmap string nat) (kw : string) (r : row)
    (rows : grid) (units : list unit_data) :
  arms (serial_cell m r) = true ->
  extract_rows m kw false (r :: rows) units = extract_rows m kw true (r :: rows) units.
Proof.
  intros H. unfold arms, serial_cell in H. cbn [extract_rows].
  rewrite H. reflexivity.
Qed.

Lemma extract_rows_skip (m : gmap string nat) (kw : string) (r : row)
    (rows : grid) (units : list unit_data) :
  arms (serial_cell m r) = false ->
  extract_rows m kw false (r :: rows) units = extract_rows m kw false rows units.
Proof.
  intros H. unfold arms, serial_cell in H. cbn [extract_rows].
  rewrite H. reflexivity.
Qed.

Lemma extract_rows_take (m : gmap string nat) (kw : string) (r : row)
    (rows : grid) (units : list unit_data) (sr : Z) :
  blank (serial_cell m r) = false ->
  int_float (serial_cell m r) = Ret sr ->
  extract_rows m kw true (r :: rows) units =
  extract_rows m kw true rows (units ++ [unit_of_row m kw sr r]).
Proof.
  intros Hb Hi. unfold blank, serial_cell in *. cbn [extract_rows].
  simpl negb. cbn [andb]. rewrite Hb, Hi. reflexivity.
Qed.

Lemma extract_rows_stop (m : gmap string nat) (kw : string) (r : row)
    (rows : grid) (units : list unit_data) :
  stops (serial_cell m r) ->
  extract_rows m kw true (r :: rows) units = Ret units.
Proof.
  unfold stops, blank, serial_cell. cbn [extract_rows]. simpl negb. cbn [andb].
  destruct (isna_opt _ || is_empty _); [reflexivity|].
  intros [H|[H|H]]; [discriminate| |]; rewrite H; reflexivity.
Qed.

Lemma extract_rows_running (m : gmap string nat) (kw : string) (run : grid) :
  forall (srs : list Z) (rest : grid) (units : list unit_data),
    Forall2 (fun r sr => blank (serial_cell m r) = false /\
                         int_float (serial_cell m r) = Ret sr) run srs ->
    (rest = [] \/ exists r rest', rest = r :: rest' /\ stops (serial_cell m r)) ->
    extract_rows m kw true (run ++ rest) units =
    Ret (units ++ zip_with (unit_of_row m kw) srs run).
Proof.
  induction run as [|r run IH]; intros srs rest units Hrun Hrest.
  - apply Forall2_nil_inv_l in Hrun as ->. simpl. rewrite app_nil_r.
    destruct Hrest as [->|(r & rest' & -> & Hstop)]; [reflexivity|].
    apply extract_rows_stop. exact Hstop.
  - apply Forall2_cons_inv_l in Hrun as (sr & srs' & (Hb & Hi) & Hrun & ->).
    change ((r :: run) ++ rest) with (r :: (run ++ rest)).
    rewrite (extract_rows_take _ _ _ _ _ sr Hb Hi).
    rewrite (IH srs' rest _ Hrun Hrest). simpl.
    rewrite <- app_assoc. reflexivity.
Qed.

(** The run of rows that [extract_rows] turns into units: it skips the rows
    of [pre], whose serial text is not "1"; the first row after them has the
    serial text "1"; every row of [run] has a serial that is not blank and
    that [int(float(.))] turns into an integer; [rest] is empty or starts
    with a row whose serial is blank or raises [ValueError] or [TypeError].
    A serial on which [int(float(.))] raises [OverflowError] is outside this
    lemma. *)
Lemma extract_rows_run (m : gmap string nat) (kw : string)
    (pre run rest : grid) (srs : list Z) :
  Forall (fun r => arms (serial_cell m r) = false) pre ->
  match run ++ rest with
  | r :: _ => arms (serial_cell m r) = true
  | [] => True
  end ->
  Forall2 (fun r sr => blank (serial_cell m r) = false /\
                       int_float (serial_cell m r) = Ret sr) run srs ->
  (rest = [] \/ exists r rest', rest = r :: rest' /\ stops (serial_cell m r)) ->
  extract_rows m kw false (pre ++ run ++ rest) [] =
  Ret (zip_with (unit_of_row m kw) srs run).
Proof.
  intros Hpre Harm Hrun Hrest.
  induction Hpre as [|r pre Hr Hpre IH].
  - simpl. destruct (run ++ rest) as [|r rows] eqn:E.
    + destruct run; [|discriminate]. simpl in E. subst rest.
      apply Forall2_nil_inv_l in Hrun as ->. reflexivity.
    + rewrite (extract_rows_armed _ _ _ _ _ Harm). rewrite <- E.
      rewrite (extract_rows_running m kw run srs rest [] Hrun Hrest).
      reflexivity.
  - change ((r :: pre) ++ run ++ rest) with (r :: (pre ++ run ++ rest)).
    rewrite (extract_rows_skip _ _ _ _ _ Hr). exact IH.
Qed.

Lemma extract_rows_overflow (m : gmap string nat) (kw : string) (run : grid) :
  forall (srs : list Z) (r : row) (rest : grid) (units : list unit_data),
    Forall2 (fun r sr => blank (serial_cell m r) = false /\
                         int_float (serial_cell m r) = Ret sr) run srs ->
    blank (serial_cell m r) = false ->
    int_float (serial_cell m r) = Raise OverflowError ->
    extract_rows m kw true (run ++ r :: rest) units = Raise OverflowError.
Proof.
  induction run as [|r0 run IH]; intros srs r rest units Hrun Hb Hi.
  - unfold blank, serial_cell in *. cbn [app extract_rows]. simpl negb. cbn [andb].
    rewrite Hb, Hi. reflexivity.
  - apply Forall2_cons_inv_l in Hrun as (sr & srs' & (Hb0 & Hi0) & Hrun & ->).
    change ((r0 :: run) ++ r :: rest) with (r0 :: (run ++ r :: rest)).
    rewrite (extract_rows_take _ _ _ _ _ sr Hb0 Hi0).
    apply (IH srs'); assumption.
Qed.

Lemma to_int_raises (x : PyFloat.pyfloat) (e : py_exn) :
  PyFloat.to_int x = Raise e -> e = ValueError \/ e = OverflowError.
Proof. destruct x; simpl; intros H; inversion H; auto. Qed.

Lemma int_float_raises (c : option cell) (e : py_exn) :
  int_float c = Raise e -> e = ValueError \/ e = TypeError \/ e = OverflowError.
Proof.
  destruct c as [[|s|s]|]; simpl; intros H.
  - inversion H. auto.
  - destruct (PyFloat.parse s); [apply to_int_raises in H; tauto|inversion H; auto].
  - destruct (PyFloat.parse s); [apply to_int_raises in H; tauto|inversion H; auto].
  - inversion H. auto.
Qed.

(** [OverflowError] is the only exception that leaves the loop. *)
Lemma extract_rows_outcome (m : gmap string nat) (kw : string) (rows : grid) :
  forall started units,
    (exists us, extract_rows m kw started rows units = Ret us) \/
    extract_rows m kw started rows units = Raise OverflowError.
Proof.
  induction rows as [|r rows IH]; intros started units; cbn [extract_rows].
  - left. eauto.
  - destruct (negb started && _); [apply IH|].
    destruct (isna_opt _ || _); [left; eauto|].
    destruct (int_float _) as [sr|e] eqn:E; [apply IH|].
    apply int_float_raises in E as [->|[->| ->]]; [left|left|right]; eauto.
Qed.

(** X12: the rows [extract_unit_data] reads by position are rows of the
    sheet: the data start is inside the sheet, and the header row is at the
    data start or at most three rows above it, so [iloc] never raises
    [IndexError]. *)
Lemma locate_header_in_sheet (sheet_data : grid) (kw : string) (d h : nat) :
  locate_header sheet_data kw = Some (d, h) ->
  (h <= d < length sheet_data)%nat /\ (d - 3 <= h)%nat.
Proof.
  unfold locate_header.
  destruct (find_row _ 0 sheet_data) as [s|]; [|discriminate].
  destruct (find_row _ s (drop s sheet_data)) as [d'|] eqn:Ed; [|discriminate].
  destruct (header_row_index sheet_data d' =? -1) eqn:Eh; [discriminate|].
  intros H. injection H as -> <-.
  apply find_row_drop_spec in Ed as (_ & (r & Hr & _) & _).
  apply lookup_lt_Some in Hr.
  apply Z.eqb_neq in Eh.
  assert (exists i : nat, header_row_index sheet_data d = Z.of_nat i) as [i Hi].
  { unfold header_row_index in *. revert Eh.
    generalize (header_window d). intros w.
    induction w as [|j w IHw]; cbn [find_header]; [congruence|].
    destruct (2 <=? _)%nat; [eauto|exact IHw]. }
  rewrite Hi, Nat2Z.id.
  unfold header_row_index, header_window in Hi.
  apply (proj1 (find_header_seq sheet_data _ _) i) in Hi as (Hr' & _).
  lia.
Qed.

(** X10: when the rows from the data start on split into rows whose
    serial text is not "1", then a run of rows that starts with the serial
    text "1" and whose serials are not blank and are turned into integers by
    [int(float(.))], then nothing or a row whose serial is blank or raises
    [ValueError] or [TypeError], [extract_unit_data] returns exactly the
    units of the run, in order: the rows before the run and everything after
    the stopping row give nothing. *)
Lemma extract_unit_data_run (sheet_data : grid) (kw : string) (d h : nat)
    (pre run rest : grid) (srs : list Z) (st : converter) :
  locate_header sheet_data kw = Some (d, h) ->
  drop d sheet_data = pre ++ run ++ rest ->
  let m := column_map (iloc sheet_data h) in
  Forall (fun r => arms (serial_cell m r) = false) pre ->
  match run ++ rest with
  | r :: _ => arms (serial_cell m r) = true
  | [] => True
  end ->
  Forall2 (fun r sr => blank (serial_cell m r) = false /\
                       int_float (serial_cell m r) = Ret sr) run srs ->
  (rest = [] \/ exists r rest', rest = r :: rest' /\ stops (serial_cell m r)) ->
  fst (extract_unit_data sheet_data kw st) = Ret (zip_with (unit_of_row m kw) srs run).
Proof.
  intros Hloc Hdrop m Hpre Harm Hrun Hrest.
  rewrite extract_unit_data_unfold, Hloc. cbn zeta. cbn [fst]. rewrite Hdrop.
  apply extract_rows_run; assumption.
Qed.

(** The two runs named by the specification: the serials 1, 2, "x" and
    1, 2, "" each give two units. *)
Lemma serial_x_two_units :
  fst (extract_unit_data sheet_serial_x "sold" new_converter) =
  Ret [mk_unit 1 "A" "101" "23.5" "sold" ""; mk_unit 2 "A" "102" "40" "sold" ""].
Proof. vm_compute. reflexivity. Qed.

Lemma serial_blank_two_units :
  fst (extract_unit_data sheet_serial_blank "sold" new_converter) =
  Ret [mk_unit 1 "A" "101" "23.5" "sold" ""; mk_unit 2 "A" "102" "40" "sold" ""].
Proof. vm_compute. reflexivity. Qed.

(** C1: on the serials "1", "inf" the second serial is not an integer, so
    the run should end before it with one unit; [float("inf")] succeeds and
    [int] raises [OverflowError], which the loop does not catch: the
    extraction returns no list and [process_form3_file] reports the whole
    document as failed. *)
Theorem serial_overflow_leaves_extractor :
  fst (extract_unit_data sheet_serial_inf "sold" new_converter) = Raise OverflowError /\
  fst (process_form3_file workbook_serial_inf ("", "", "") new_converter) = false.
Proof. split; vm_compute; reflexivity. Qed.

(** ** The output table *)

Lemma render_units_imap (inc : bool) (section : string) (units : list unit_data) :
  forall n,
    render_units inc section n units =
    (imap (numbered_row inc n) (map (pair section) units),
     n + Z.of_nat (length units)).
Proof.
  induction units as [|u units IH]; intros n.
  - simpl. f_equal. lia.
  - cbn [render_units]. rewrite IH. cbn [map length]. rewrite imap_cons.
    f_equal.
    + unfold numbered_row at 2. simpl fst. simpl snd. f_equal.
      * f_equal. lia.
      * apply imap_ext. intros k su _. unfold numbered_row. simpl.
        f_equal. lia.
    + lia.
Qed.

Lemma render_sections_imap (st : converter) (order : list string) :
  forall n,
    let tagged :=
      concat (map (fun section => map (pair section) (units_of st section)) order) in
    render_sections st order n =
    (imap (numbered_row (include_building_column st) n) tagged,
     n + Z.of_nat (length tagged)).
Proof.
  induction order as [|section order IH]; intros n; cbn zeta.
  - simpl. f_equal. lia.
  - cbn [render_sections map concat]. rewrite render_units_imap.
    rewrite IH. cbn zeta. rewrite imap_app, length_app, length_map. f_equal.
    + f_equal. apply imap_ext. intros k su _. unfold numbered_row. simpl.
      f_equal. lia.
    + lia.
Qed.

(** The data rows are the units in the order of the output table, numbered
    from 1. *)
Lemma data_rows_imap (st : converter) :
  data_rows st =
  imap (numbered_row (include_building_column st) 1) (ordered_units st).
Proof.
  unfold data_rows, ordered_units. rewrite render_sections_imap. reflexivity.
Qed.

Lemma data_rows_lookup (st : converter) (k : nat) (section : string) (unit : unit_data) :
  ordered_units st !! k = Some (section, unit) ->
  data_rows st !! k =
  Some (render_unit (include_building_column st) section (Z.of_nat k + 1) unit).
Proof.
  intros H. rewrite data_rows_imap, list_lookup_imap, H.
  unfold numbered_row. cbn [fmap option_fmap option_map fst snd].
  replace (1 + Z.of_nat k) with (Z.of_nat k + 1) by lia. reflexivity.
Qed.

Lemma data_rows_In (st : converter) (r : list xl_value) :
  In r (data_rows st) ->
  exists k section unit,
    ordered_units st !! k = Some (section, unit) /\
    r = render_unit (include_building_column st) section (Z.of_nat k + 1) unit.
Proof.
  intros H. apply list_elem_of_In, list_elem_of_lookup in H as [k Hk].
  rewrite data_rows_imap, list_lookup_imap in Hk.
  destruct (ordered_units st !! k) as [[section unit]|] eqn:E; [|discriminate].
  simpl in Hk. injection Hk as <-. exists k, section, unit.
  split; [exact E|]. unfold numbered_row. cbn [fst snd].
  replace (1 + Z.of_nat k) with (Z.of_nat k + 1) by lia. reflexivity.
Qed.

(** ** Order and numbering of the output rows (C7) *)

(** C7: the table takes the sections in the order sold, unsold, landowner,
    tenant, rehab, cidco, pap, which is not the order of extraction; inside
    a section the units keep their order; row [k] (from 0) carries the
    serial [k + 1], whatever serial the unit stores; and with sold = [A, B],
    unsold = [C] and no landowner unit the rows are A (1), B (2), C (3). *)
Theorem data_rows_order_and_numbering (st : converter) :
  section_order = ["sold"; "unsold"; "landowner"; "tenant"; "rehab"; "cidco"; "pap"] /\
  section_order <> sections /\
  ordered_units st =
    concat (map (fun section => map (pair section) (units_of st section))
              section_order) /\
  length (data_rows st) = length (ordered_units st) /\
  (forall (k : nat) (section : string) (unit : unit_data),
      ordered_units st !! k = Some (section, unit) ->
      exists cells,
        data_rows st !! k = Some (XInt (Z.of_nat k + 1) :: cells) /\
        forall z, render_unit (include_building_column st) section
                    (Z.of_nat k + 1) (with_sr_no z unit)
                  = XInt (Z.of_nat k + 1) :: cells) /\
  data_rows converter_abc =
    [[XInt 1; XStr "101"; XStr "23.50"; XStr "Sold"; XStr ""];
     [XInt 2; XStr "102"; XStr "40.00"; XStr "Sold"; XStr ""];
     [XInt 3; XStr "201"; XStr "n/a"; XStr "Unsold"; XStr "NA"]].
Proof.
  split; [reflexivity|]. split; [discriminate|]. split; [reflexivity|].
  split; [rewrite data_rows_imap; apply length_imap|].
  split; [|vm_compute; reflexivity].
  intros k section unit H. rewrite (data_rows_lookup _ _ _ _ H).
  eexists. split; [reflexivity|]. intros z. reflexivity.
Qed.

Lemma data_rows_order_and_numbering_witness :
  exists cells, data_rows converter_abc !! 2%nat = Some (XInt 3 :: cells).
Proof.
  destruct (proj1 (proj2 (proj2 (proj2 (proj2
              (data_rows_order_and_numbering converter_abc)))))
              2%nat "unsold" unit_c) as (cells & H & _).
  - vm_compute. reflexivity.
  - exists cells. exact H.
Defined.

(** ** The registration date (C9) *)

(** C9: the last cell of a row, the registration date, is empty for a unit
    stored under the sold section and is "NA" for a unit stored under any
    other section. *)
Theorem registration_date_by_section (st : converter) (k : nat)
    (section : string) (unit : unit_data) :
  ordered_units st !! k = Some (section, unit) ->
  exists r,
    data_rows st !! k = Some r /\
    (section = "sold" -> last r = Some (XStr "")) /\
    (section <> "sold" -> last r = Some (XStr "NA")).
Proof.
  intros H. rewrite (data_rows_lookup _ _ _ _ H). eexists. split; [reflexivity|].
  unfold render_unit, reg_date_val.
  destruct (String.eqb_spec section "sold") as [->|Hne].
  - split; [|congruence]. intros _. destruct (include_building_column st); reflexivity.
  - split; [congruence|]. intros _. destruct (include_building_column st); reflexivity.
Qed.

Lemma registration_date_by_section_witness :
  exists r, data_rows converter_abc !! 2%nat = Some r /\ last r = Some (XStr "NA").
Proof.
  destruct (registration_date_by_section converter_abc 2%nat "unsold" unit_c)
    as (r & Hr & _ & Hna).
  - vm_compute. reflexivity.
  - exists r. split; [exact Hr|]. apply Hna. discriminate.
Defined.

(** ** The carpet area (C10) *)

Lemma ends_two_decimals_app (pre t : string) :
  ends_two_decimals t = true -> ends_two_decimals (String.append pre t) = true.
Proof.
  intros H. induction pre as [|c pre IH]; simpl; [exact H|].
  rewrite IH. apply orb_true_r.
Qed.

Lemma two_digits_point (k : Z) :
  0 <= k < 100 ->
  ends_two_decimals (String "." (PyFloat.two_digits k)) = true.
Proof.
  intros Hk.
  assert (forallb (fun n => ends_two_decimals
                              (String "." (PyFloat.two_digits (Z.of_nat n))))
            (seq 0 100) = true) as Hall by (vm_compute; reflexivity).
  rewrite forallb_forall in Hall.
  specialize (Hall (Z.to_nat k)). rewrite Z2Nat.id in Hall by lia.
  apply Hall. apply in_seq. lia.
Qed.

Lemma format_2f_two_decimals (neg : bool) (m q : Z) :
  ends_two_decimals (PyFloat.format_2f (PyFloat.FFin neg m q)) = true.
Proof.
  unfold PyFloat.format_2f.
  apply ends_two_decimals_app, ends_two_decimals_app, two_digits_point.
  apply Z.mod_pos_bound. lia.
Qed.

(** C10, as worded, fails: the text "inf" is accepted by [float], and the
    format [.2f] writes it as "inf", which has no decimal places. *)
Lemma carpet_inf_has_no_decimals :
  PyFloat.parse "inf" = Some (PyFloat.FInf false) /\
  render_carpet "inf" = "inf" /\
  ends_two_decimals (render_carpet "inf") = false.
Proof. repeat split; vm_compute; reflexivity. Qed.

(** C10, amended: the carpet cell of a row holds [render_carpet] of the
    unit's carpet text; a text that [float] reads as a finite number is
    written with two decimal places ("23.5" becomes "23.50"); a text that
    [float] reads as an infinity or as a NaN is written as "inf", "-inf" or
    "nan"; a text that [float] rejects is written unchanged. *)
Theorem render_carpet_cases (carpet_val : string) :
  (forall (inc : bool) (section : string) (n : Z) (unit : unit_data),
      render_unit inc section n unit !! (if inc then 3%nat else 2%nat) =
      Some (XStr (render_carpet (carpet_area unit)))) /\
  (forall neg m q,
      PyFloat.parse carpet_val = Some (PyFloat.FFin neg m q) ->
      render_carpet carpet_val = PyFloat.format_2f (PyFloat.FFin neg m q) /\
      ends_two_decimals (render_carpet carpet_val) = true) /\
  (forall neg,
      PyFloat.parse carpet_val = Some (PyFloat.FInf neg) ->
      render_carpet carpet_val = if neg then "-inf" else "inf") /\
  (PyFloat.parse carpet_val = Some PyFloat.FNan -> render_carpet carpet_val = "nan") /\
  (PyFloat.parse carpet_val = None -> render_carpet carpet_val = carpet_val) /\
  render_carpet "23.5" = "23.50".
Proof.
  unfold render_carpet.
  split; [intros [] section n unit; reflexivity|].
  split; [intros neg m q ->; split; [reflexivity|apply format_2f_two_decimals]|].
  split; [intros neg ->; reflexivity|].
  split; [intros ->; reflexivity|].
  split; [intros ->; reflexivity|].
  vm_compute. reflexivity.
Qed.

Lemma render_carpet_cases_witness :
  ends_two_decimals (render_carpet "40") = true /\
  render_carpet "n/a" = "n/a" /\
  render_carpet "-Infinity" = "-inf".
Proof.
  split; [|split].
  - apply (proj1 (proj2 (render_carpet_cases "40")) false 5629499534213120 (-47)).
    vm_compute. reflexivity.
  - apply (proj1 (proj2 (proj2 (proj2 (proj2 (render_carpet_cases "n/a")))))).
    vm_compute. reflexivity.
  - apply (proj1 (proj2 (proj2 (render_carpet_cases "-Infinity"))) true).
    vm_compute. reflexivity.
Defined.

(** ** Invariants of the converter *)

Section Invariant.

Variable I : converter -> Prop.

Lemma inv_ret {A : Type} (a : A) : invariant I (mret a).
Proof. intros st r st' H E. injection E as _ <-. exact H. Qed.

Lemma inv_lift {A : Type} (x : py_result A) : invariant I (mlift x).
Proof. intros st r st' H E. injection E as _ <-. exact H. Qed.

Lemma inv_modify (f : converter -> converter) :
  (forall st, I st -> I (f st)) -> invariant I (mmodify f).
Proof. intros Hf st r st' H E. injection E as _ <-. apply Hf, H. Qed.

Lemma inv_bind {A B : Type} (m : M A) (k : A -> M B) :
  invariant I m -> (forall a, invariant I (k a)) -> invariant I (mbind_ m k).
Proof.
  intros Hm Hk st r st' H E. unfold mbind_ in E.
  destruct (m st) as [[a|e] st1] eqn:Em.
  - eapply Hk; [|exact E]. eapply Hm; eauto.
  - injection E as _ <-. eapply Hm; eauto.
Qed.

Lemma inv_get {B : Type} (k : converter -> M B) :
  (forall a, I a -> invariant I (k a)) -> invariant I (mbind_ mget k).
Proof.
  intros Hk st r st' H E. unfold mbind_, mget in E.
  eapply Hk; eauto.
Qed.

Lemma inv_when (b : bool) (m : M unit) :
  (b = true -> invariant I m) -> invariant I (mwhen b m).
Proof.
  intros Hm. destruct b; simpl; [apply Hm; reflexivity|apply inv_ret].
Qed.

Lemma inv_try {A : Type} (m h : M A) :
  invariant I m -> invariant I h -> invariant I (mtry m h).
Proof.
  intros Hm Hh st r st' H E. unfold mtry in E.
  destruct (m st) as [[a|e] st1] eqn:Em.
  - injection E as _ <-. eapply Hm; eauto.
  - eapply Hh; [|exact E]. eapply Hm; eauto.
Qed.

Lemma inv_for {A : Type} (xs : list A) (body : A -> M unit) :
  (forall x, invariant I (body x)) -> invariant I (mfor xs body).
Proof.
  intros Hb. induction xs as [|x xs IH]; simpl.
  - apply inv_ret.
  - apply inv_bind; [apply Hb|intros _; exact IH].
Qed.

Lemma inv_units_at (section : string) : invariant I (units_at section).
Proof.
  intros st r st' H E. unfold units_at in E.
  destruct (unit_sections st !! section); injection E as _ <-; exact H.
Qed.

Lemma inv_extract_unit_data (sheet_data : grid) (kw : string) :
  (forall st b, I st -> I (set_include b st)) ->
  invariant I (extract_unit_data sheet_data kw).
Proof.
  intros Hset st r st' H E. rewrite extract_unit_data_unfold in E.
  destruct (locate_header sheet_data kw) as [[d h]|].
  - injection E as _ <-. apply Hset, H.
  - injection E as _ <-. exact H.
Qed.

End Invariant.

Lemma mbind_ret_inv {A B : Type} (m : M A) (k : A -> M B) (st st' : converter) (b : B) :
  mbind_ m k st = (Ret b, st') ->
  exists a st1, m st = (Ret a, st1) /\ k a st1 = (Ret b, st').
Proof.
  unfold mbind_. destruct (m st) as [[a|e] st1]; intros E; [eauto|discriminate].
Qed.

(** ** The building column (C6) *)

Lemma process_table_a_flag (wb : workbook) (b : bool) :
  invariant (fun st => include_building_column st = b) (process_table_a wb).
Proof.
  unfold process_table_a. destruct (find_sheet "table a" wb); [|apply inv_ret].
  apply inv_bind; [apply inv_lift|]. intros info.
  apply inv_bind; [|intros _]; apply inv_modify; intros st H; exact H.
Qed.

Lemma process_table_b_flag (wb : workbook) (b : bool) :
  invariant (fun st => include_building_column st = b) (process_table_b wb).
Proof.
  unfold process_table_b. destruct (find_sheet "table b" wb); [|apply inv_ret].
  apply inv_modify. intros st H. exact H.
Qed.

Lemma filename_fallback_flag (fallback : string * string * string) (b : bool) :
  invariant (fun st => include_building_column st = b) (filename_fallback fallback).
Proof.
  unfold filename_fallback. destruct fallback as [[fp fr] fd].
  apply inv_get. intros a _. apply inv_when. intros _.
  repeat (apply inv_bind; [|intros _]);
    apply inv_get; intros a' _; apply inv_when; intros _;
    apply inv_modify; intros st H; exact H.
Qed.

Lemma process_sections_flag (table_c_data : grid) (todo : list string) :
  forall st st',
    process_sections table_c_data todo st = (Ret tt, st') ->
    include_building_column st' =
    include_building_column st || existsb (maps_building table_c_data) todo.
Proof.
  unfold process_sections.
  induction todo as [|section todo IH]; intros st st' E.
  - injection E as <-. simpl. rewrite orb_false_r. reflexivity.
  - cbn [mfor] in E.
    apply mbind_ret_inv in E as (u & st1 & Estep & Erest).
    apply mbind_ret_inv in Estep as (units & st0 & Eextract & Eset).
    rewrite (IH _ _ Erest). injection Eset as _ <-.
    rewrite extract_unit_data_unfold in Eextract. unfold maps_building at 2.
    cbn [existsb].
    destruct (locate_header table_c_data section) as [[d h]|].
    + injection Eextract as _ <-. simpl. rewrite orb_assoc. reflexivity.
    + injection Eextract as _ <-. simpl. reflexivity.
Qed.

(** C6: [include_building_column] is one attribute of the converter.
    After a primary pass that succeeds on a fresh converter it is set
    exactly when the header row of some section of Table C, as the pass
    reads it, maps a building or wing column.  The table has the heading
    "Building No" exactly when the attribute is set.  The table has one row
    for each stored unit and no other row, and the row of a unit, of
    whatever section, has the building cell when the attribute is set and
    lacks it when it is not. *)
Theorem building_column_is_global :
  (forall (wb : workbook) (fallback : string * string * string) (st' : converter),
      process_form3_file wb fallback new_converter = (true, st') ->
      (include_building_column st' = true <->
       exists table_c section,
         find_sheet "table c" wb = Some table_c /\
         In section sections /\
         maps_building (read_excel_str table_c) section = true)) /\
  (forall b : bool, In "Building No" (table_headers b) <-> b = true) /\
  (forall (st : converter) (r : list xl_value),
      In r (data_rows st) ->
      exists k section unit,
        ordered_units st !! k = Some (section, unit) /\
        r = XInt (Z.of_nat k + 1) ::
            (if include_building_column st
             then [XStr (strip (building_no unit))] else []) ++
            [XStr (strip (flat_no unit)); XStr (render_carpet (carpet_area unit));
             XStr (status_display section); XStr (reg_date_val section)]) /\
  (forall (st : converter) (k : nat) (section : string) (unit : unit_data),
      ordered_units st !! k = Some (section, unit) ->
      data_rows st !! k =
      Some (XInt (Z.of_nat k + 1) ::
            (if include_building_column st
             then [XStr (strip (building_no unit))] else []) ++
            [XStr (strip (flat_no unit)); XStr (render_carpet (carpet_area unit));
             XStr (status_display section); XStr (reg_date_val section)])).
Proof.
  split; [|split; [|split]].
  - intros wb fallback st' E. unfold process_form3_file in E.
    destruct (process_body wb fallback new_converter) as [[[]|e] st2] eqn:Eb;
      [|discriminate].
    injection E as <-. unfold process_body in Eb.
    apply mbind_ret_inv in Eb as (u1 & st_a & Ea & Eb).
    apply mbind_ret_inv in Eb as (u2 & st_b & Eb' & Eb).
    apply mbind_ret_inv in Eb as (u3 & st_c & Ec & Ef).
    apply (process_table_a_flag wb false) in Ea; [|reflexivity].
    apply (process_table_b_flag wb false) in Eb'; [|exact Ea].
    apply (filename_fallback_flag fallback (include_building_column st_c)) in Ef;
      [|reflexivity].
    rewrite Ef. unfold process_table_c in Ec.
    destruct (find_sheet "table c" wb) as [table_c|].
    + destruct u3. apply process_sections_flag in Ec. rewrite Ec, Eb'.
      rewrite orb_false_l, existsb_exists. split.
      * intros (section & Hin & Hm). exists table_c, section. auto.
      * intros (t & section & Ht & Hin & Hm). injection Ht as <-. eauto.
    + injection Ec as _ <-. rewrite Eb'. split; [discriminate|].
      intros (t & section & Ht & _). discriminate.
  - intros [|]; unfold table_headers; simpl; split; intros H; try reflexivity.
    + auto.
    + repeat (destruct H as [H|H]; [discriminate|]). destruct H.
    + discriminate.
  - intros st r H. apply data_rows_In in H as (k & section & unit & Hk & ->).
    exists k, section, unit. split; [exact Hk|]. reflexivity.
  - intros st k section unit Hk. rewrite (data_rows_lookup _ _ _ _ Hk). reflexivity.
Qed.

(** On a Table C whose sold header has a wing column and whose unsold header
    has none, the attribute is set, and the row of the unsold unit has the
    building cell all the same. *)
Lemma building_column_is_global_witness :
  let st' := snd (process_form3_file workbook_two_sections ("", "", "") new_converter) in
  include_building_column st' = true /\
  maps_building sheet_two_sections "unsold" = false /\
  data_rows st' !! 1%nat =
  Some [XInt 2; XStr ""; XStr "201"; XStr "30.00"; XStr "Unsold"; XStr "NA"].
Proof.
  cbv zeta.
  assert (include_building_column
            (snd (process_form3_file workbook_two_sections ("", "", "") new_converter))
          = true) as Hflag.
  { apply (proj1 building_column_is_global workbook_two_sections ("", "", "")).
    - vm_compute. reflexivity.
    - exists (text_sheet sheet_two_sections), "sold".
      split; [reflexivity|]. split; [left; reflexivity|]. vm_compute. reflexivity. }
  split; [exact Hflag|]. split; [vm_compute; reflexivity|].
  rewrite (proj2 (proj2 (proj2 building_column_is_global)) _ 1%nat "unsold"
             (mk_unit 1 "" "201" "30" "unsold" ""))
    by (vm_compute; reflexivity).
  rewrite Hflag. vm_compute. reflexivity.
Defined.

(** ** Independence from the other cells (C8) *)






(** ** What the recovery pass keeps *)

Lemma is_empty_true (s : string) : is_empty s = true -> s = "".
Proof. destruct s; [reflexivity|discriminate]. Qed.

Lemma is_nil_true {A : Type} (l : list A) : is_nil l = true -> l = [].
Proof. destruct l; [reflexivity|discriminate]. Qed.

Lemma attempt_data_recovery_invariant (I : converter -> Prop) (wb : workbook) :
  (forall sheet_data, invariant I (recover_sheet sheet_data)) ->
  forall st, I st -> I (snd (attempt_data_recovery wb st)).
Proof.
  intros Hsheet st H. unfold attempt_data_recovery.
  destruct (mfor wb _ st) as [r st'] eqn:E. simpl.
  revert E. apply inv_for; [|exact H].
  intros sh. apply inv_try; [apply Hsheet|apply inv_ret].
Qed.

Lemma recover_sheet_keeps_date (sheet_data : grid) (v : string) :
  v <> "" -> invariant (fun st => as_on_date st = v) (recover_sheet sheet_data).
Proof.
  intros Hv. unfold recover_sheet.
  apply inv_bind; [|intros _; apply inv_bind; [|intros _]].
  - apply inv_get. intros a _. apply inv_when. intros _.
    apply inv_bind; [apply inv_lift|]. intros info.
    apply inv_bind; [|intros _]; apply inv_when; intros _;
      apply inv_modify; intros st H; exact H.
  - apply inv_get. intros a Ha. apply inv_when. intros Hb.
    apply is_empty_true in Hb. congruence.
  - apply inv_for. intros section.
    apply inv_bind; [apply inv_units_at|]. intros existing.
    apply inv_when. intros _.
    apply inv_bind; [apply inv_extract_unit_data; intros st b H; exact H|].
    intros units. apply inv_when. intros _.
    apply inv_modify. intros st H. exact H.
Qed.

Lemma recover_sheet_keeps_identity (sheet_data : grid) (p r : string) :
  p <> "" -> r <> "" ->
  invariant (fun st => project_name st = p /\ rera_number st = r)
    (recover_sheet sheet_data).
Proof.
  intros Hp Hr. unfold recover_sheet.
  apply inv_bind; [|intros _; apply inv_bind; [|intros _]].
  - apply inv_get. intros a [Hap Har]. apply inv_when. intros Hb.
    apply orb_true_iff in Hb as [Hb|Hb]; apply is_empty_true in Hb; congruence.
  - apply inv_get. intros a _. apply inv_when. intros _. cbn zeta.
    apply inv_when. intros _. apply inv_modify. intros st H. exact H.
  - apply inv_for. intros section.
    apply inv_bind; [apply inv_units_at|]. intros existing.
    apply inv_when. intros _.
    apply inv_bind; [apply inv_extract_unit_data; intros st b H; exact H|].
    intros units. apply inv_when. intros _.
    apply inv_modify. intros st H. exact H.
Qed.

Lemma recover_sheet_keeps_units (sheet_data : grid) (section : string)
    (units : list unit_data) :
  units <> [] ->
  invariant (fun st => unit_sections st !! section = Some units)
    (recover_sheet sheet_data).
Proof.
  intros Hu. unfold recover_sheet.
  apply inv_bind; [|intros _; apply inv_bind; [|intros _]].
  - apply inv_get. intros a _. apply inv_when. intros _.
    apply inv_bind; [apply inv_lift|]. intros info.
    apply inv_bind; [|intros _]; apply inv_when; intros _;
      apply inv_modify; intros st H; exact H.
  - apply inv_get. intros a _. apply inv_when. intros _. cbn zeta.
    apply inv_when. intros _. apply inv_modify. intros st H. exact H.
  - apply inv_for. intros sec.
    destruct (decide (sec = section)) as [->|Hne].
    + intros st r st' H E. unfold mbind_, units_at in E. rewrite H in E.
      destruct units as [|u units]; [congruence|].
      injection E as _ <-. exact H.
    + apply inv_bind; [apply inv_units_at|]. intros existing.
      apply inv_when. intros _.
      apply inv_bind; [apply inv_extract_unit_data; intros st b H; exact H|].
      intros units'. apply inv_when. intros _.
      apply inv_modify. intros st H. simpl.
      rewrite lookup_insert_ne by exact Hne. exact H.
Qed.

(** X11: first writer wins where the recovery pass tests the field it
    assigns: a non-empty as-on date stays, a non-empty list of units stays
    under its section, and the project name and the registration number stay
    when both are non-empty. *)
Lemma recovery_keeps_filled_fields (wb : workbook) (st : converter) :
  let st' := snd (attempt_data_recovery wb st) in
  (as_on_date st <> "" -> as_on_date st' = as_on_date st) /\
  (project_name st <> "" -> rera_number st <> "" ->
   project_name st' = project_name st /\ rera_number st' = rera_number st) /\
  (forall section units,
      unit_sections st !! section = Some units -> units <> [] ->
      unit_sections st' !! section = Some units).
Proof.
  cbn zeta. split; [|split].
  - intros Hv.
    apply (attempt_data_recovery_invariant (fun s => as_on_date s = as_on_date st));
      [|reflexivity].
    intros g. apply recover_sheet_keeps_date. exact Hv.
  - intros Hp Hr.
    apply (attempt_data_recovery_invariant
             (fun s => project_name s = project_name st /\
                       rera_number s = rera_number st)); [|auto].
    intros g. apply recover_sheet_keeps_identity; assumption.
  - intros section units H Hu.
    apply (attempt_data_recovery_invariant
             (fun s => unit_sections s !! section = Some units)); [|exact H].
    intros g. apply recover_sheet_keeps_units. exact Hu.
Qed.

(** The filename fallback of the primary pass tests each field on its own:
    it changes no field that is already non-empty. *)
Lemma filename_fallback_keeps_filled_fields
    (fallback : string * string * string) (st : converter) :
  let st' := snd (filename_fallback fallback st) in
  (project_name st <> "" -> project_name st' = project_name st) /\
  (rera_number st <> "" -> rera_number st' = rera_number st) /\
  (as_on_date st <> "" -> as_on_date st' = as_on_date st).
Proof.
  destruct fallback as [[fp fr] fd]. destruct st as [inc p r d us].
  unfold filename_fallback, mbind_, mget, mwhen, mmodify, mret. simpl.
  destruct p, r, d; simpl; repeat split; congruence.
Qed.

(** ** Stripping *)

Section Strip.

Variable sp : ascii -> bool.

Lemma lstrip_by_head (s : string) :
  match lstrip_by sp s with
  | EmptyString => True
  | String c _ => sp c = false
  end.
Proof.
  induction s as [|c s IH]; simpl; [exact Logic.I|].
  destruct (sp c) eqn:E; [exact IH|exact E].
Qed.

Lemma lstrip_by_id (c : ascii) (s : string) :
  sp c = false -> lstrip_by sp (String c s) = String c s.
Proof. intros H. simpl. rewrite H. reflexivity. Qed.

Lemma rstrip_by_cons (c : ascii) (s : string) :
  sp c = false -> rstrip_by sp (String c s) = String c (rstrip_by sp s).
Proof.
  intros H. simpl. destruct (rstrip_by sp s); [rewrite H|]; reflexivity.
Qed.

Lemma rstrip_by_idem (s : string) :
  rstrip_by sp (rstrip_by sp s) = rstrip_by sp s.
Proof.
  induction s as [|c s IH]; [reflexivity|].
  simpl. destruct (rstrip_by sp s) as [|d r] eqn:E.
  - destruct (sp c) eqn:Ec; [reflexivity|]. simpl. rewrite Ec. reflexivity.
  - change (rstrip_by sp (String c (String d r)))
      with (match rstrip_by sp (String d r) with
            | EmptyString => if sp c then EmptyString else String c EmptyString
            | r' => String c r'
            end).
    rewrite IH. reflexivity.
Qed.

(** A stripped text stays as it is when stripped again. *)
Lemma strip_by_idem (s : string) :
  strip_by sp (strip_by sp s) = strip_by sp s.
Proof.
  unfold strip_by.
  pose proof (lstrip_by_head s) as H.
  destruct (lstrip_by sp s) as [|c t]; [reflexivity|].
  rewrite (rstrip_by_cons c t H), (lstrip_by_id c _ H).
  rewrite <- (rstrip_by_cons c t H). apply rstrip_by_idem.
Qed.

End Strip.

Lemma strip_idem (s : string) : strip (strip s) = strip s.
Proof. apply strip_by_idem. Qed.

Lemma field_at_stripped (r : row) (i : nat) : strip (field_at r i) = field_at r i.
Proof.
  unfold field_at. destruct (r !! i) as [c|]; [|reflexivity].
  destruct (notna c); [apply strip_idem|reflexivity].
Qed.

(** ** What [extract_unit_data] returns and what it changes *)

Lemma extract_rows_units (m : gmap string nat) (kw : string) (rows : grid) :
  forall started acc us,
    extract_rows m kw started rows acc = Ret us ->
    exists new,
      us = acc ++ new /\
      (length new <= length rows)%nat /\
      Forall (fun u => exists sr r, In r rows /\ u = unit_of_row m kw sr r) new.
Proof.
  induction rows as [|r rows IH]; intros started acc us H; cbn [extract_rows] in H.
  - injection H as <-. exists []. rewrite app_nil_r. repeat split; auto.
  - assert (forall started' acc',
               extract_rows m kw started' rows acc' = Ret us ->
               exists new, us = acc' ++ new /\ (length new <= length (r :: rows))%nat /\
                 Forall (fun u => exists sr r0, In r0 (r :: rows) /\
                                                u = unit_of_row m kw sr r0) new) as Hrec.
    { intros started' acc' H'. destruct (IH _ _ _ H') as (new & -> & Hlen & Hall).
      exists new. split; [reflexivity|]. split; [simpl; lia|].
      eapply Forall_impl; [exact Hall|].
      intros u (sr & r0 & Hin & ->). exists sr, r0. split; [right; exact Hin|reflexivity]. }
    destruct (negb started && _); [apply Hrec in H; exact H|].
    assert (exists new, acc = acc ++ new /\ (length new <= length (r :: rows))%nat /\
              Forall (fun u => exists sr r0, In r0 (r :: rows) /\
                                             u = unit_of_row m kw sr r0) new) as Hstop.
    { exists []. rewrite app_nil_r. split; [reflexivity|]. split; [simpl; lia|constructor]. }
    destruct (isna_opt _ || _); [injection H as <-; exact Hstop|].
    destruct (int_float _) as [sr|e].
    + destruct (IH _ _ _ H) as (new & -> & Hlen & Hall).
      exists (unit_of_row m kw sr r :: new).
      split; [rewrite <- app_assoc; reflexivity|]. split; [simpl; lia|].
      constructor.
      * exists sr, r. split; [left; reflexivity|reflexivity].
      * eapply Forall_impl; [exact Hall|].
        intros u (sr' & r0 & Hin & ->). exists sr', r0.
        split; [right; exact Hin|reflexivity].
    + destruct e; try discriminate; injection H as <-; exact Hstop.
Qed.

(** X1: every unit that [extract_unit_data] returns carries the section
    keyword in lower case as its status and an empty registration date,
    and its building, flat and carpet texts have no whitespace at either
    end, so that the [strip] applied again when the table is written changes
    nothing; there are no more units than the sheet has rows. *)
Theorem extracted_units_are_well_formed (sheet_data : grid) (kw : string)
    (st : converter) (us : list unit_data) :
  fst (extract_unit_data sheet_data kw st) = Ret us ->
  (length us <= length sheet_data)%nat /\
  Forall (fun u =>
            status u = lower kw /\
            registration_date u = "" /\
            strip (building_no u) = building_no u /\
            strip (flat_no u) = flat_no u /\
            strip (carpet_area u) = carpet_area u /\
            forall inc section n,
              render_unit inc section n u =
              XInt n :: (if inc then [XStr (building_no u)] else []) ++
              [XStr (flat_no u); XStr (render_carpet (carpet_area u));
               XStr (status_display section); XStr (reg_date_val section)]) us.
Proof.
  rewrite extract_unit_data_unfold.
  destruct (locate_header sheet_data kw) as [[d h]|]; cbn [fst].
  - intros H. apply extract_rows_units in H as (new & -> & Hlen & Hall).
    rewrite length_drop in Hlen. split; [simpl; lia|].
    simpl. eapply Forall_impl; [exact Hall|].
    intros u (sr & r & _ & ->). unfold unit_of_row. simpl.
    repeat split; try apply field_at_stripped.
    intros inc section n. unfold render_unit. simpl.
    rewrite !field_at_stripped. reflexivity.
  - intros H. injection H as <-. split; [simpl; lia|constructor].
Qed.

Lemma extracted_units_are_well_formed_witness :
  Forall (fun u => status u = "sold" /\ registration_date u = "")
    [mk_unit 1 "A" "101" "23.5" "sold" ""; mk_unit 2 "A" "102" "40" "sold" ""].
Proof.
  eapply Forall_impl.
  - apply (extracted_units_are_well_formed sheet_serial_x "sold" new_converter).
    vm_compute. reflexivity.
  - intros u (Hs & Hr & _). split; [exact Hs|exact Hr].
Defined.

(** X2: [extract_unit_data] either returns a list or raises
    [OverflowError]; what it returns does not depend on the converter; it
    leaves the project name, the registration number, the as-on date and the
    stored units as they were, and it sets [include_building_column] when
    the section's header maps a building column but never clears it. *)
Theorem extract_unit_data_effect (sheet_data : grid) (kw : string) (st : converter) :
  let r := fst (extract_unit_data sheet_data kw st) in
  let st' := snd (extract_unit_data sheet_data kw st) in
  ((exists us, r = Ret us) \/ r = Raise OverflowError) /\
  (forall st0, fst (extract_unit_data sheet_data kw st0) = r) /\
  project_name st' = project_name st /\
  rera_number st' = rera_number st /\
  as_on_date st' = as_on_date st /\
  unit_sections st' = unit_sections st /\
  include_building_column st' =
    include_building_column st || maps_building sheet_data kw.
Proof.
  cbn zeta. rewrite extract_unit_data_unfold. unfold maps_building.
  split; [|split].
  - destruct (locate_header sheet_data kw) as [[d h]|]; cbn [fst].
    + apply extract_rows_outcome.
    + left. eauto.
  - intros st0. rewrite extract_unit_data_unfold.
    destruct (locate_header sheet_data kw) as [[d h]|]; reflexivity.
  - destruct (locate_header sheet_data kw) as [[d h]|]; simpl;
      repeat split; try reflexivity.
    rewrite orb_false_r. reflexivity.
Qed.

(** ** The column mapping *)

Lemma mapped_false (k : string) (m : gmap string nat) :
  mapped k m = false -> m !! k = None.
Proof.
  unfold mapped. rewrite bool_decide_eq_false. intros H.
  destruct (m !! k) eqn:E; [|reflexivity]. exfalso. apply H. eauto.
Qed.

Lemma map_header_step_cases (i : nat) (h : string) (m : gmap string nat) :
  map_header_step i h m = m \/
  exists k, In k mapping_keys /\ m !! k = None /\
            map_header_step i h m = <[k := i]> m.
Proof.
  unfold map_header_step.
  repeat match goal with
         | |- context [if ?b && negb (mapped ?k m) then _ else _] =>
             destruct b; cbn [andb];
             [destruct (mapped k m) eqn:?; cbn [negb];
              [|right; exists k; split; [simpl; tauto|];
                split; [apply mapped_false; assumption|reflexivity]]|]
         end; rewrite ?andb_false_r; left; reflexivity.
Qed.

Lemma map_header_step_ok (i : nat) (h : string) (m : gmap string nat) :
  mapping_ok i m -> mapping_ok (S i) (map_header_step i h m).
Proof.
  intros [Hb Hinj].
  destruct (map_header_step_cases i h m) as [->|(k & Hk & Hnone & ->)].
  - split; [|exact Hinj]. intros k j H. destruct (Hb k j H). split; [lia|assumption].
  - split.
    + intros k' j H. destruct (decide (k = k')) as [<-|Hne].
      * rewrite lookup_insert_eq in H. injection H as <-. split; [lia|exact Hk].
      * rewrite lookup_insert_ne in H by exact Hne.
        destruct (Hb k' j H). split; [lia|assumption].
    + intros k1 k2 j H1 H2.
      destruct (decide (k = k1)) as [<-|Hne1], (decide (k = k2)) as [<-|Hne2];
        [reflexivity| | |].
      * rewrite lookup_insert_eq in H1. injection H1 as <-.
        rewrite lookup_insert_ne in H2 by exact Hne2.
        destruct (Hb k2 i H2). lia.
      * rewrite lookup_insert_eq in H2. injection H2 as <-.
        rewrite lookup_insert_ne in H1 by exact Hne1.
        destruct (Hb k1 i H1). lia.
      * rewrite lookup_insert_ne in H1 by exact Hne1.
        rewrite lookup_insert_ne in H2 by exact Hne2.
        eapply Hinj; eauto.
Qed.

Lemma map_columns_ok (hs : list string) :
  forall i m b,
    mapping_ok i m -> mapping_ok (i + length hs) (fst (map_columns i hs (m, b))).
Proof.
  induction hs as [|h hs IH]; intros i m b H; simpl.
  - rewrite Nat.add_0_r. exact H.
  - replace (i + S (length hs))%nat with (S i + length hs)%nat by lia.
    apply IH, map_header_step_ok, H.
Qed.

Lemma map_header_step_preserves (i : nat) (h : string) (m : gmap string nat)
    (k : string) (j : nat) :
  m !! k = Some j -> map_header_step i h m !! k = Some j.
Proof.
  intros H.
  destruct (map_header_step_cases i h m) as [->|(k' & _ & Hnone & ->)]; [exact H|].
  rewrite lookup_insert_ne; [exact H|]. intros ->. congruence.
Qed.

Lemma map_columns_preserves (hs : list string) (k : string) (j : nat) :
  forall i m b,
    m !! k = Some j -> fst (map_columns i hs (m, b)) !! k = Some j.
Proof.
  induction hs as [|h hs IH]; intros i m b H; simpl; [exact H|].
  apply IH, map_header_step_preserves, H.
Qed.

Lemma map_header_step_serial (i : nat) (h : string) (m : gmap string nat) :
  m !! "sr_no" = None ->
  map_header_step i h m !! "sr_no" = if is_serial_header h then Some i else None.
Proof.
  intros Hnone. unfold map_header_step, is_serial_header.
  assert (mapped "sr_no" m = false) as Hm.
  { unfold mapped. apply bool_decide_eq_false. rewrite Hnone. intros [x Hx]. discriminate. }
  rewrite Hm. cbn [negb]. rewrite andb_true_r.
  destruct (contains "sr" h && contains "no" h); [apply lookup_insert_eq|].
  repeat match goal with
         | |- context [if ?b then _ else _] => destruct b
         end; rewrite ?lookup_insert_ne by discriminate; exact Hnone.
Qed.

Lemma map_columns_serial (hs : list string) :
  forall i m b j,
    m !! "sr_no" = None ->
    (fst (map_columns i hs (m, b)) !! "sr_no" = Some j <->
     exists o h,
       j = (i + o)%nat /\ hs !! o = Some h /\ is_serial_header h = true /\
       forall o' h', (o' < o)%nat -> hs !! o' = Some h' -> is_serial_header h' = false).
Proof.
  induction hs as [|h hs IH]; intros i m b j Hnone; simpl.
  - rewrite Hnone. split; [discriminate|]. intros (o & h & _ & H & _). discriminate.
  - pose proof (map_header_step_serial i h m Hnone) as Hstep.
    destruct (is_serial_header h) eqn:Eh.
    + rewrite (map_columns_preserves hs "sr_no" i _ _ _ Hstep). split.
      * intros H. injection H as <-. exists 0%nat, h.
        split; [lia|]. split; [reflexivity|]. split; [exact Eh|]. intros o' h' Hlt. lia.
      * intros (o & h0 & -> & Ho & Hh0 & Hfirst). destruct o as [|o].
        -- f_equal. lia.
        -- rewrite (Hfirst 0%nat h) in Eh; [discriminate|lia|reflexivity].
    + rewrite (IH (S i) _ _ j Hstep). split.
      * intros (o & h0 & -> & Ho & Hh0 & Hfirst). exists (S o), h0.
        split; [lia|]. split; [exact Ho|]. split; [exact Hh0|].
        intros [|o'] h' Hlt Hl; simpl in Hl.
        -- injection Hl as <-. exact Eh.
        -- apply (Hfirst o'); [lia|exact Hl].
      * intros (o & h0 & -> & Ho & Hh0 & Hfirst). destruct o as [|o]; simpl in Ho.
        -- injection Ho as <-. congruence.
        -- exists o, h0. split; [lia|]. split; [exact Ho|]. split; [exact Hh0|].
           intros o' h' Hlt Hl. apply (Hfirst (S o')); [lia|exact Hl].
Qed.

(** X3: the column mapping built from a header row holds only the five
    field names, every column it names is a position of the header row, no
    column is given to two fields, and the serial column is the first header
    cell whose normalized text contains both "sr" and "no". *)
Theorem column_map_is_sound (header_row : row) :
  (forall k j, column_map header_row !! k = Some j ->
               (j < length header_row)%nat /\ In k mapping_keys) /\
  (forall k1 k2 j,
      column_map header_row !! k1 = Some j ->
      column_map header_row !! k2 = Some j -> k1 = k2) /\
  (forall j,
      column_map header_row !! "sr_no" = Some j <->
      exists h, headers_of header_row !! j = Some h /\ is_serial_header h = true /\
        forall j' h', (j' < j)%nat -> headers_of header_row !! j' = Some h' ->
                      is_serial_header h' = false).
Proof.
  unfold column_map.
  assert (mapping_ok 0 (∅ : gmap string nat)) as H0.
  { split; intros *; rewrite lookup_empty; discriminate. }
  pose proof (map_columns_ok (headers_of header_row) 0 ∅ false H0) as [Hb Hinj].
  assert (length (headers_of header_row) = length header_row) as Hlen
    by apply length_map.
  rewrite Hlen in Hb. simpl in Hb.
  split; [exact Hb|]. split; [exact Hinj|].
  intros j. rewrite map_columns_serial by apply lookup_empty. split.
  - intros (o & h & -> & Ho & Hh & Hfirst). exists h. auto.
  - intros (h & Ho & Hh & Hfirst). exists j, h. auto.
Qed.

(** ** The serial of the first unit *)

Lemma append_cons (c : ascii) (a b : string) :
  String.append (String c a) b = String c (String.append a b).
Proof. reflexivity. Qed.

Lemma append_nil (b : string) : String.append EmptyString b = b.
Proof. reflexivity. Qed.

Section StripShape.

Variables sp sp' : ascii -> bool.

Lemma lstrip_by_split (s : string) :
  exists a, s = String.append a (lstrip_by sp s) /\ all_chars sp a = true.
Proof.
  induction s as [|c s IH]; simpl.
  - exists EmptyString. auto.
  - destruct (sp c) eqn:E.
    + destruct IH as (a & Ha & Hall). exists (String c a). split.
      * rewrite append_cons. f_equal. exact Ha.
      * cbn [all_chars]. rewrite E, Hall. reflexivity.
    + exists EmptyString. auto.
Qed.

Lemma rstrip_by_empty (s : string) :
  rstrip_by sp s = EmptyString -> all_chars sp s = true.
Proof.
  induction s as [|c s IH]; simpl; [reflexivity|].
  destruct (rstrip_by sp s); [|discriminate].
  destruct (sp c); [intros _; apply IH; reflexivity|discriminate].
Qed.

Lemma rstrip_by_single (s : string) (x : ascii) :
  rstrip_by sp s = String x EmptyString ->
  exists b, s = String x b /\ all_chars sp b = true.
Proof.
  destruct s as [|c s]; simpl; [discriminate|].
  destruct (rstrip_by sp s) eqn:E.
  - destruct (sp c); [discriminate|]. intros H. injection H as ->.
    exists s. split; [reflexivity|]. apply rstrip_by_empty, E.
  - discriminate.
Qed.

Lemma all_chars_lstrip (s : string) :
  all_chars sp s = true -> all_chars sp (lstrip_by sp' s) = true.
Proof.
  induction s as [|c s IH]; simpl; [reflexivity|].
  intros H. apply andb_true_iff in H as [Hc Hs].
  destruct (sp' c); [apply IH, Hs|]. simpl. rewrite Hc, Hs. reflexivity.
Qed.

Lemma all_chars_rstrip (s : string) :
  all_chars sp s = true -> all_chars sp (rstrip_by sp' s) = true.
Proof.
  induction s as [|c s IH]; simpl; [reflexivity|].
  intros H. apply andb_true_iff in H as [Hc Hs]. specialize (IH Hs).
  destruct (rstrip_by sp' s) as [|d r].
  - destruct (sp' c); [reflexivity|]. simpl. rewrite Hc. reflexivity.
  - simpl. simpl in IH. rewrite Hc, IH. reflexivity.
Qed.

Lemma lstrip_by_app (a : string) (c : ascii) (b : string) :
  sp c = false ->
  lstrip_by sp (String.append a (String c b)) =
  String.append (lstrip_by sp a) (String c b).
Proof.
  intros Hc. induction a as [|d a IH].
  - rewrite append_nil. simpl. rewrite Hc. reflexivity.
  - rewrite append_cons. simpl. destruct (sp d); [exact IH|reflexivity].
Qed.

Lemma rstrip_by_app (x : string) (c : ascii) (y : string) :
  rstrip_by sp (String.append x (String c y)) =
  String.append x (rstrip_by sp (String c y)) \/
  rstrip_by sp (String c y) = EmptyString.
Proof.
  destruct (rstrip_by sp (String c y)) as [|d r] eqn:E; [right; reflexivity|].
  left. induction x as [|e x IH].
  - rewrite !append_nil. exact E.
  - rewrite !append_cons.
    change (rstrip_by sp (String e (String.append x (String c y))))
      with (match rstrip_by sp (String.append x (String c y)) with
            | EmptyString => if sp e then EmptyString else String e EmptyString
            | r' => String e r'
            end).
    rewrite IH. destruct x; rewrite ?append_nil, ?append_cons; reflexivity.
Qed.

End StripShape.

(** The text [float] works on, when the stripped text is "1". *)
Lemma cstrip_of_one (s : string) :
  strip s = "1" ->
  strip_by PyFloat.is_cspace s = "1" \/
  (exists c rest, strip_by PyFloat.is_cspace s = String c rest /\ is_space c = true) \/
  (exists c rest, strip_by PyFloat.is_cspace s = String "1" (String c rest) /\
                  is_space c = true).
Proof.
  unfold strip, strip_by. intros H.
  destruct (lstrip_by_split is_space s) as (a & Hs & Ha).
  apply rstrip_by_single in H as (b & Hb & Hall). rewrite Hb in Hs.
  rewrite Hs. rewrite lstrip_by_app by reflexivity.
  pose proof (all_chars_lstrip is_space PyFloat.is_cspace a Ha) as Ha'.
  pose proof (all_chars_rstrip is_space PyFloat.is_cspace b Hall) as Hb'.
  destruct (rstrip_by_app PyFloat.is_cspace (lstrip_by PyFloat.is_cspace a) "1" b)
    as [E|E]; [|rewrite rstrip_by_cons in E by reflexivity; discriminate].
  rewrite E, rstrip_by_cons by reflexivity.
  destruct (lstrip_by PyFloat.is_cspace a) as [|c a'].
  - rewrite append_nil. destruct (rstrip_by PyFloat.is_cspace b) as [|c b'].
    + left. reflexivity.
    + right. right. exists c, b'. split; [reflexivity|].
      simpl in Hb'. apply andb_true_iff in Hb' as [Hc _]. exact Hc.
  - right. left. rewrite append_cons. eexists c, _. split; [reflexivity|].
    simpl in Ha'. apply andb_true_iff in Ha' as [Hc _]. exact Hc.
Qed.

Lemma parse_stripped_one (s : string) (x : PyFloat.pyfloat) (z : Z) :
  strip s = "1" -> PyFloat.parse s = Some x -> PyFloat.to_int x = Ret z -> z = 1.
Proof.
  intros Hs Hp Hz. unfold PyFloat.parse in Hp.
  destruct (cstrip_of_one s Hs) as [E|[(c & rest & E & Hc)|(c & rest & E & Hc)]];
    rewrite E in Hp.
  - vm_compute in Hp. injection Hp as <-. vm_compute in Hz. congruence.
  - exfalso.
    destruct c as [[] [] [] [] [] [] [] []]; try discriminate Hc;
      cbn in Hp; destruct (PyFloat.remove_underscores _ rest); cbn in Hp;
      discriminate Hp.
  - exfalso.
    destruct c as [[] [] [] [] [] [] [] []]; try discriminate Hc;
      cbn in Hp; destruct (PyFloat.remove_underscores _ rest); cbn in Hp;
      discriminate Hp.
Qed.

Lemma arms_int_float (c : option cell) (z : Z) :
  arms c = true -> int_float c = Ret z -> z = 1.
Proof.
  unfold arms. intros Ha Hi. apply String.eqb_eq in Ha.
  destruct c as [[|s|s]|]; simpl in *; try discriminate Hi;
    destruct (PyFloat.parse s) as [x|] eqn:Hp; try discriminate Hi;
    exact (parse_stripped_one s x z Ha Hp Hi).
Qed.

Lemma extract_rows_first_serial (m : gmap string nat) (kw : string) (rows : grid) :
  forall u us,
    extract_rows m kw false rows [] = Ret (u :: us) -> sr_no u = 1.
Proof.
  induction rows as [|r rows IH]; intros u us H; [discriminate|].
  destruct (arms (serial_cell m r)) eqn:Ea.
  - rewrite (extract_rows_armed _ _ _ _ _ Ea) in H.
    cbn [extract_rows] in H. cbn [negb andb] in H.
    destruct (isna_opt _ || _); [discriminate|].
    destruct (int_float _) as [sr|e] eqn:Ei.
    + apply extract_rows_units in H as (new & Hnew & _).
      simpl in Hnew. injection Hnew as -> _. simpl.
      exact (arms_int_float _ _ Ea Ei).
    + destruct e; discriminate.
  - rewrite (extract_rows_skip _ _ _ _ _ Ea) in H. eapply IH, H.
Qed.

(** X4: when [extract_unit_data] returns units, the first of them has the
    serial 1: the row that starts the run has the serial text "1", and
    [int(float(.))] of such a cell is 1 whenever it is defined. *)
Theorem first_unit_has_serial_one (sheet_data : grid) (kw : string)
    (st : converter) (u : unit_data) (us : list unit_data) :
  fst (extract_unit_data sheet_data kw st) = Ret (u :: us) -> sr_no u = 1.
Proof.
  rewrite extract_unit_data_unfold.
  destruct (locate_header sheet_data kw) as [[d h]|]; cbn [fst]; [|discriminate].
  apply extract_rows_first_serial.
Qed.

Lemma first_unit_has_serial_one_witness :
  sr_no (mk_unit 1 "A" "101" "23.5" "sold" "") = 1.
Proof.
  apply (first_unit_has_serial_one sheet_serial_x "sold" new_converter _
           [mk_unit 2 "A" "102" "40" "sold" ""]).
  vm_compute. reflexivity.
Defined.

(** ** The primary pass *)



Lemma process_table_a_run (wb : workbook) (st : converter) :
  process_table_a wb st =
  match find_sheet "table a" wb with
  | Some table_a =>
      match extract_project_info (read_excel table_a) with
      | Ret info => (Ret tt, set_rera_number (snd info) (set_project_name (fst info) st))
      | Raise e => (Raise e, st)
      end
  | None => (Ret tt, st)
  end.
Proof.
  unfold process_table_a. destruct (find_sheet "table a" wb); [|reflexivity].
  unfold mbind_, mlift, mmodify. destruct (extract_project_info _); reflexivity.
Qed.

Lemma process_table_b_run (wb : workbook) (st : converter) :
  process_table_b wb st =
  (Ret tt, match find_sheet "table b" wb with
           | Some table_b => set_as_on_date (extract_as_on_date (read_excel table_b)) st
           | None => st
           end).
Proof.
  unfold process_table_b. destruct (find_sheet "table b" wb); reflexivity.
Qed.

Lemma filename_fallback_run (fallback : string * string * string) (st : converter) :
  filename_fallback fallback st =
  (Ret tt,
   mk_converter (include_building_column st)
     (or_else (project_name st) (fst (fst fallback)))
     (or_else (rera_number st) (snd (fst fallback)))
     (or_else (as_on_date st) (snd fallback))
     (unit_sections st)).
Proof.
  destruct fallback as [[fp fr] fd]. destruct st as [inc p r d us].
  unfold filename_fallback, mbind_, mget, mwhen, mmodify, mret, or_else. simpl.
  destruct p, r, d; reflexivity.
Qed.








Lemma process_sections_metadata (table_c_data : grid) (todo : list string)
    (p r d : string) :
  invariant (fun st => project_name st = p /\ rera_number st = r /\ as_on_date st = d)
    (process_sections table_c_data todo).
Proof.
  unfold process_sections. apply inv_for. intros section.
  apply inv_bind; [apply inv_extract_unit_data; intros st b H; exact H|].
  intros units. apply inv_modify. intros st H. exact H.
Qed.

(** X6: after a primary pass that succeeds on a fresh converter, the
    project name and the registration number are the ones found in Table A
    and the as-on date is the one found in Table B, each replaced by the
    value read off the file name exactly when the sheets left it empty. *)
Theorem primary_pass_metadata (wb : workbook) (fallback_project fallback_rera
    fallback_date : string) (st' : converter) :
  process_form3_file wb (fallback_project, fallback_rera, fallback_date)
    new_converter = (true, st') ->
  exists info,
    table_a_info wb = Ret info /\
    project_name st' = or_else (fst info) fallback_project /\
    rera_number st' = or_else (snd info) fallback_rera /\
    as_on_date st' = or_else (table_b_date wb) fallback_date.
Proof.
  unfold process_form3_file. intros H.
  destruct (process_body _ _ _) as [[[]|e] st2] eqn:Eb; [|discriminate].
  injection H as <-. unfold process_body in Eb.
  apply mbind_ret_inv in Eb as (u1 & st_a & Ea & Eb).
  apply mbind_ret_inv in Eb as (u2 & st_b & Eb' & Eb).
  apply mbind_ret_inv in Eb as (u3 & st_c & Ec & Ef).
  rewrite process_table_a_run in Ea. rewrite process_table_b_run in Eb'.
  rewrite filename_fallback_run in Ef. injection Ef as <-. injection Eb' as _ <-.
  assert (project_name st_c = project_name st_a /\
          rera_number st_c = rera_number st_a /\
          as_on_date st_c = table_b_date wb) as (Hp & Hr & Hd).
  { unfold process_table_c in Ec.
    assert (as_on_date
              match find_sheet "table b" wb with
              | Some table_b => set_as_on_date (extract_as_on_date (read_excel table_b)) st_a
              | None => st_a
              end = table_b_date wb ->
            project_name st_c = project_name st_a /\
            rera_number st_c = rera_number st_a /\
            as_on_date st_c = table_b_date wb) as Hgo.
    { intros Hdate.
      destruct (find_sheet "table c" wb) as [c|].
      - eapply (process_sections_metadata _ _ (project_name st_a) (rera_number st_a)
                  (table_b_date wb)) in Ec; [exact Ec|].
        split; [|split; [|exact Hdate]];
          destruct (find_sheet "table b" wb); reflexivity.
      - injection Ec as _ <-. split; [|split; [|exact Hdate]];
          destruct (find_sheet "table b" wb); reflexivity. }
    apply Hgo. unfold table_b_date, table_a_info in *.
    destruct (find_sheet "table b" wb); [reflexivity|].
    destruct (find_sheet "table a" wb) as [a|].
    - destruct (extract_project_info (read_excel a)); injection Ea as _ <-; reflexivity.
    - injection Ea as _ <-. reflexivity. }
  cbn [project_name rera_number as_on_date fst snd]. rewrite Hp, Hr, Hd.
  unfold table_a_info.
  destruct (find_sheet "table a" wb) as [a|].
  - destruct (extract_project_info (read_excel a)) as [info|e]; [|discriminate].
    injection Ea as _ <-. exists info. auto.
  - injection Ea as _ <-. exists ("", ""). auto.
Qed.

Lemma primary_pass_metadata_witness :
  exists info,
    table_a_info workbook_alpha_beta = Ret info /\
    project_name (snd (process_form3_file workbook_alpha_beta fallback_alpha
                         new_converter)) = or_else (fst info) "Alpha".
Proof.
  destruct (primary_pass_metadata workbook_alpha_beta "Alpha" "" ""
              (snd (process_form3_file workbook_alpha_beta fallback_alpha new_converter)))
    as (info & Hi & Hp & _).
  - vm_compute. reflexivity.
  - exists info. split; [exact Hi|exact Hp].
Defined.

(** ** The seven sections of the converter *)

Lemma inv_for_in {A : Type} (I : converter -> Prop) (xs : list A)
    (body : A -> M unit) :
  (forall x, In x xs -> invariant I (body x)) -> invariant I (mfor xs body).
Proof.
  induction xs as [|x xs IH]; intros Hb; simpl.
  - apply inv_ret.
  - apply inv_bind; [apply Hb; left; reflexivity|].
    intros _. apply IH. intros y Hy. apply Hb. right. exact Hy.
Qed.

Lemma set_units_keys (section : string) (units : list unit_data) (st : converter) :
  In section sections -> has_section_keys st ->
  has_section_keys (set_units section units st).
Proof.
  unfold has_section_keys. intros Hin H. simpl. rewrite dom_insert_L, H.
  apply list_elem_of_In in Hin.
  apply (elem_of_list_to_set (C := gset string)) in Hin.
  apply subseteq_union_1_L, singleton_subseteq_l, Hin.
Qed.

Lemma process_body_keys (wb : workbook) (fallback : string * string * string) :
  invariant has_section_keys (process_body wb fallback).
Proof.
  unfold process_body.
  apply inv_bind; [|intros _; apply inv_bind; [|intros _; apply inv_bind; [|intros _]]].
  - unfold process_table_a. destruct (find_sheet "table a" wb); [|apply inv_ret].
    apply inv_bind; [apply inv_lift|]. intros info.
    apply inv_bind; [|intros _]; apply inv_modify; intros st H; exact H.
  - unfold process_table_b. destruct (find_sheet "table b" wb); [|apply inv_ret].
    apply inv_modify. intros st H. exact H.
  - unfold process_table_c. destruct (find_sheet "table c" wb); [|apply inv_ret].
    unfold process_sections. apply inv_for_in. intros section Hin.
    apply inv_bind; [apply inv_extract_unit_data; intros st b H; exact H|].
    intros units. apply inv_modify. intros st H. apply set_units_keys; assumption.
  - intros st r st' H E. rewrite filename_fallback_run in E.
    injection E as _ <-. exact H.
Qed.

Lemma recover_sheet_keys (sheet_data : grid) :
  invariant has_section_keys (recover_sheet sheet_data).
Proof.
  unfold recover_sheet.
  apply inv_bind; [|intros _; apply inv_bind; [|intros _]].
  - apply inv_get. intros a _. apply inv_when. intros _.
    apply inv_bind; [apply inv_lift|]. intros info.
    apply inv_bind; [|intros _]; apply inv_when; intros _;
      apply inv_modify; intros st H; exact H.
  - apply inv_get. intros a _. apply inv_when. intros _. cbn zeta.
    apply inv_when. intros _. apply inv_modify. intros st H. exact H.
  - apply inv_for_in. intros section Hin.
    apply inv_bind; [apply inv_units_at|]. intros existing.
    apply inv_when. intros _.
    apply inv_bind; [apply inv_extract_unit_data; intros st b H; exact H|].
    intros units. apply inv_when. intros _.
    apply inv_modify. intros st H. apply set_units_keys; assumption.
Qed.

(** X7: a fresh converter stores a list under each of the seven section
    names and under no other key, and the primary pass and the recovery
    pass keep it so, whether they succeed or not; on such a converter the
    lookup [unit_sections[section]] of the recovery pass never raises
    [KeyError] for a section name. *)
Theorem section_keys_are_kept :
  has_section_keys new_converter /\
  (forall wb fallback st,
      has_section_keys st ->
      has_section_keys (snd (process_form3_file wb fallback st))) /\
  (forall wb st,
      has_section_keys st ->
      has_section_keys (snd (attempt_data_recovery wb st))) /\
  (forall st section,
      has_section_keys st -> In section sections ->
      units_at section st = (Ret (units_of st section), st)).
Proof.
  split; [|split; [|split]].
  - unfold has_section_keys. vm_compute. reflexivity.
  - intros wb fallback st H. unfold process_form3_file.
    destruct (process_body wb fallback st) as [[[]|e] st'] eqn:E; cbn [snd];
      eapply process_body_keys; eauto.
  - intros wb st H.
    apply (attempt_data_recovery_invariant has_section_keys); [|exact H].
    apply recover_sheet_keys.
  - intros st section H Hin. unfold units_at, units_of.
    apply list_elem_of_In in Hin.
    apply (elem_of_list_to_set (C := gset string)) in Hin.
    unfold has_section_keys in H. rewrite <- H in Hin.
    apply elem_of_dom in Hin as [us Hus]. rewrite Hus. reflexivity.
Qed.

Lemma section_keys_are_kept_witness :
  has_section_keys
    (snd (attempt_data_recovery workbook_alpha_beta
            (snd (process_form3_file workbook_alpha_beta fallback_alpha new_converter)))).
Proof.
  destruct section_keys_are_kept as (Hnew & Hprocess & Hrecover & _).
  apply Hrecover, Hprocess, Hnew.
Defined.

(** ** The conversion report and the table *)

Lemma section_order_NoDup : NoDup section_order.
Proof.
  apply (@bool_decide_unpack (NoDup section_order) _). vm_compute. reflexivity.
Qed.

Lemma section_order_sections (s : string) : s ∈ section_order <-> s ∈ sections.
Proof.
  unfold section_order, sections. rewrite !list_elem_of_In. simpl. tauto.
Qed.

Lemma map_to_list_section_order (st : converter) :
  has_section_keys st ->
  map_to_list (unit_sections st) ≡ₚ
  (fun s => (s, units_of st s)) <$> section_order.
Proof.
  intros Hkeys. apply NoDup_Permutation.
  - apply NoDup_map_to_list.
  - apply NoDup_fmap_2; [|apply section_order_NoDup].
    intros s1 s2 H. injection H as ->. reflexivity.
  - intros [k v]. rewrite elem_of_map_to_list, list_elem_of_fmap. split.
    + intros Hk. exists k. unfold units_of. rewrite Hk. split; [reflexivity|].
      apply section_order_sections.
      apply (elem_of_list_to_set (C := gset string)).
      unfold has_section_keys in Hkeys. rewrite <- Hkeys.
      apply elem_of_dom. eauto.
    + intros (s & Hs & Hin). injection Hs as -> ->.
      apply section_order_sections in Hin.
      apply (elem_of_list_to_set (C := gset string)) in Hin.
      unfold has_section_keys in Hkeys. rewrite <- Hkeys in Hin.
      apply elem_of_dom in Hin as [us Hus]. unfold units_of. rewrite Hus. reflexivity.
Qed.

Lemma length_tagged_units (st : converter) (order : list string) :
  length (concat (map (fun section => map (pair section) (units_of st section)) order)) =
  sum_list_with (fun kv => length (snd kv))
    ((fun s => (s, units_of st s)) <$> order).
Proof.
  induction order as [|s order IH]; [reflexivity|].
  cbn [map concat fmap list_fmap sum_list_with].
  rewrite length_app, length_map. simpl. f_equal. exact IH.
Qed.

Lemma has_units_total (st : converter) :
  has_units st = true <-> (0 < total_units st)%nat.
Proof.
  unfold has_units, total_units.
  induction (map_to_list (unit_sections st)) as [|[k us] l IH]; simpl.
  - split; [discriminate|lia].
  - destruct us as [|u us]; simpl; [exact IH|]. split; [lia|reflexivity].
Qed.

(** X8: on a converter that stores the seven sections, the total the
    conversion report prints is the number of data rows of the table, the
    report says success exactly when the table has a data row, and the test
    [any(converter.unit_sections.values())] of the recovery pass holds in
    exactly the same case. *)
Theorem report_total_is_table_length (st : converter) :
  has_section_keys st ->
  total_units st = length (data_rows st) /\
  (report_success st = true <-> data_rows st <> []) /\
  (has_units st = true <-> data_rows st <> []).
Proof.
  intros Hkeys.
  assert (total_units st = length (data_rows st)) as Htotal.
  { unfold total_units. rewrite (map_to_list_section_order st Hkeys).
    rewrite data_rows_imap, length_imap. unfold ordered_units.
    symmetry. apply length_tagged_units. }
  split; [exact Htotal|].
  assert ((0 < total_units st)%nat <-> data_rows st <> []) as Hpos.
  { rewrite Htotal. destruct (data_rows st); simpl; split; try congruence; lia. }
  split.
  - unfold report_success. rewrite Nat.ltb_lt. exact Hpos.
  - rewrite has_units_total. exact Hpos.
Qed.

Lemma report_total_is_table_length_witness :
  total_units converter_abc = 3%nat.
Proof.
  rewrite (proj1 (report_total_is_table_length converter_abc
                    ltac:(unfold has_section_keys; vm_compute; reflexivity))).
  vm_compute. reflexivity.
Defined.

(** ** Reading a sheet as text *)

Lemma as_str_py_str (c : cell) : py_str (as_str c) = py_str c.
Proof. destruct c; reflexivity. Qed.

Lemma as_str_cell_text (c : cell) : cell_text (as_str c) = cell_text c.
Proof. destruct c; reflexivity. Qed.

Lemma as_str_is_one (c : cell) : c <> CNum "1.0" -> is_one (as_str c) = is_one c.
Proof.
  destruct c as [|s|r]; try reflexivity. intros H. simpl.
  destruct (String.eqb_spec r "1.0") as [->|Hne]; [congruence|].
  rewrite orb_false_r. reflexivity.
Qed.

Lemma existsb_map_as_str (p : cell -> bool) (r : row) :
  (forall c, In c r -> p (as_str c) = p c) ->
  existsb p (map as_str r) = existsb p r.
Proof.
  induction r as [|c r IH]; intros H; [reflexivity|]. simpl.
  rewrite (H c) by (left; reflexivity). rewrite IH; [reflexivity|].
  intros c' Hc'. apply H. right. exact Hc'.
Qed.

Lemma find_row_map_as_str (p : row -> bool) (g : grid) :
  (forall r, In r g -> p (map as_str r) = p r) ->
  forall i, find_row p i (map (map as_str) g) = find_row p i g.
Proof.
  induction g as [|r g IH]; intros H i; [reflexivity|]. simpl.
  rewrite (H r) by (left; reflexivity). destruct (p r); [reflexivity|].
  apply IH. intros r' Hr'. apply H. right. exact Hr'.
Qed.

Lemma match_count_as_str (r : row) : match_count (map as_str r) = match_count r.
Proof.
  induction r as [|c r IH]; [reflexivity|]. cbn [map match_count].
  rewrite IH. unfold header_hit. rewrite as_str_py_str. reflexivity.
Qed.

Lemma iloc_as_str (g : grid) (i : nat) :
  iloc (map (map as_str) g) i = map as_str (iloc g i).
Proof.
  unfold iloc. change (map (map as_str) g) with (map as_str <$> g).
  rewrite list_lookup_fmap. destruct (g !! i); reflexivity.
Qed.

Lemma find_header_as_str (g : grid) (w : list nat) :
  find_header (map (map as_str) g) w = find_header g w.
Proof.
  induction w as [|i w IH]; [reflexivity|]. cbn [find_header].
  rewrite iloc_as_str, match_count_as_str, IH. reflexivity.
Qed.

Lemma headers_of_as_str (r : row) : headers_of (map as_str r) = headers_of r.
Proof.
  unfold headers_of. rewrite map_map. apply map_ext. intros c.
  rewrite as_str_cell_text. reflexivity.
Qed.

Lemma cell_at_as_str (r : row) (i : nat) :
  cell_at (map as_str r) i = as_str <$> cell_at r i.
Proof. unfold cell_at. apply (list_lookup_fmap as_str). Qed.

Lemma field_at_as_str (r : row) (i : nat) :
  field_at (map as_str r) i = field_at r i.
Proof.
  unfold field_at. change (map as_str r) with (as_str <$> r).
  rewrite list_lookup_fmap. destruct (r !! i) as [[]|]; reflexivity.
Qed.

Lemma as_str_serial (o : option cell) :
  py_str_opt (as_str <$> o) = py_str_opt o /\
  isna_opt (as_str <$> o) = isna_opt o /\
  int_float (as_str <$> o) = int_float o.
Proof. destruct o as [[|s|s]|]; repeat split; reflexivity. Qed.

Lemma extract_rows_as_str (m : gmap string nat) (kw : string) (rows : grid) :
  forall started acc,
    extract_rows m kw started (map (map as_str) rows) acc =
    extract_rows m kw started rows acc.
Proof.
  induction rows as [|r rows IH]; intros started acc; [reflexivity|].
  cbn [map extract_rows]. rewrite cell_at_as_str.
  destruct (as_str_serial (cell_at r (sr_no_col m))) as (-> & -> & ->).
  unfold unit_of_row. rewrite !field_at_as_str.
  destruct (negb started && _); [apply IH|].
  destruct (isna_opt _ || _); [reflexivity|].
  destruct (int_float _) as [sr|e]; [apply IH|reflexivity].
Qed.

(** Readings that show every number alike agree cell by cell. *)
Lemma prints_alike_readings_agree (s : sheet) :
  prints_alike s -> readings_agree s.
Proof.
  unfold prints_alike, readings_agree. intros ->.
  induction (read_excel s) as [|r g IH]; constructor; [|exact IH].
  induction r as [|c r IHr]; constructor; [|exact IHr].
  destruct c as [|t|n]; cbn [reads_as as_str]; [reflexivity|reflexivity|].
  exists n. split; [reflexivity|]. left. reflexivity.
Qed.

(** X9: the primary pass reads Table C with [dtype=str] and the recovery
    pass reads it as it is.  On a sheet whose two readings show every number
    alike and whose plain reading holds no float [1.0], both readings give
    [extract_unit_data] the same result and the same effect on the
    converter. *)
Theorem text_reading_gives_same_units (table_c : sheet) (kw : string)
    (st : converter) :
  prints_alike table_c ->
  no_float_one (read_excel table_c) ->
  extract_unit_data (read_excel_str table_c) kw st =
  extract_unit_data (read_excel table_c) kw st.
Proof.
  intros Halike Hno. rewrite Halike. set (g := read_excel table_c) in *.
  unfold extract_unit_data, find_section_start, find_data_start_row, header_row_index.
  rewrite find_row_map_as_str.
  2:{ intros r _. apply existsb_map_as_str. intros c _.
      unfold cell_has_keyword. rewrite as_str_cell_text. reflexivity. }
  set (s := or_minus_one (find_row (existsb (cell_has_keyword kw)) 0 g)).
  destruct (s =? -1); [reflexivity|].
  assert (forall n, drop n (map (map as_str) g) = map (map as_str) (drop n g)) as Hdrop.
  { intros n. symmetry. apply (fmap_drop (map as_str)). }
  rewrite !Hdrop. rewrite find_row_map_as_str.
  2:{ intros r Hr. apply existsb_map_as_str. intros c Hc.
      apply as_str_is_one. apply (Hno r c); [|exact Hc].
      apply list_elem_of_In in Hr. apply list_elem_of_In.
      apply list_elem_of_lookup in Hr as [i Hi]. rewrite lookup_drop in Hi.
      apply list_elem_of_lookup. eauto. }
  set (d := or_minus_one (find_row (existsb is_one) (Z.to_nat s) (drop (Z.to_nat s) g))).
  destruct (d =? -1); [reflexivity|].
  rewrite find_header_as_str.
  set (h := find_header g (header_window (Z.to_nat d))).
  destruct (h =? -1); [reflexivity|].
  rewrite iloc_as_str, headers_of_as_str.
  unfold mbind_, mget, mmodify, mlift.
  destruct (map_columns 0 _ _) as [m inc].
  rewrite extract_rows_as_str. reflexivity.
Qed.

Lemma text_reading_gives_same_units_witness :
  extract_unit_data sheet_serial_x_str "sold" new_converter =
  extract_unit_data sheet_serial_x "sold" new_converter.
Proof.
  apply (text_reading_gives_same_units (mk_sheet sheet_serial_x sheet_serial_x_str)).
  - reflexivity.
  - intros r c Hr Hc. unfold sheet_serial_x, sold_header in Hr. simpl in Hr.
    repeat (destruct Hr as [<-|Hr];
            [simpl in Hc; repeat (destruct Hc as [<-|Hc]; [discriminate|]); destruct Hc|]).
    destruct Hr.
Defined.

(** ** Instances of the statements above *)

Lemma extract_unit_data_run_witness :
  fst (extract_unit_data sheet_serial_x "sold" new_converter) =
  Ret (zip_with (unit_of_row (column_map sold_header) "sold") [1; 2]
         [[CNum "1"; CText "A"; CText "101"; CNum "23.5"];
          [CNum "2"; CText "A"; CText "102"; CNum "40"]]).
Proof.
  apply (extract_unit_data_run sheet_serial_x "sold" 2 1 []
           [[CNum "1"; CText "A"; CText "101"; CNum "23.5"];
            [CNum "2"; CText "A"; CText "102"; CNum "40"]]
           [[CText "x"; CText "A"; CText "103"; CNum "41"]] [1; 2] new_converter).
  - vm_compute. reflexivity.
  - reflexivity.
  - constructor.
  - vm_compute. reflexivity.
  - repeat constructor; vm_compute; reflexivity.
  - right. eexists _, _. split; [reflexivity|].
    right. left. vm_compute. reflexivity.
Defined.

Lemma recovery_keeps_filled_fields_witness :
  as_on_date
    (snd (attempt_data_recovery
            [("Table B", text_sheet [[CText "Table B (as on 1st May 2025)"]])]
            (set_as_on_date "30th June 2025" new_converter)))
  = "30th June 2025".
Proof.
  apply (proj1 (recovery_keeps_filled_fields
                  [("Table B", text_sheet [[CText "Table B (as on 1st May 2025)"]])]
                  (set_as_on_date "30th June 2025" new_converter))).
  discriminate.
Defined.

Lemma locate_header_in_sheet_witness :
  (1 <= 2 < length sheet_serial_x)%nat /\ (2 - 3 <= 1)%nat.
Proof.
  apply (locate_header_in_sheet sheet_serial_x "sold" 2 1).
  vm_compute. reflexivity.
Defined.

(** ** Validation and extraction *)

Lemma any_cell_false (p : string -> bool) (g : grid) (r : row) (c : cell) :
  any_cell p g = false -> In r g -> In c r -> notna c = true ->
  p (lower (py_str c)) = false.
Proof.
  unfold any_cell. intros H Hr Hc Hn.
  destruct (p (lower (py_str c))) eqn:E; [|reflexivity].
  rewrite <- H. symmetry. apply existsb_exists. exists c. split.
  - apply in_concat. exists r. auto.
  - rewrite Hn, E. reflexivity.
Qed.

Lemma cell_values_In (g : grid) (v : string) :
  In v (cell_values g) -> exists r c, In r g /\ In c r /\ v = cell_text c.
Proof.
  unfold cell_values. intros H. apply in_map_iff in H as (c & <- & Hc).
  apply in_concat in Hc as (r & Hr & Hc). eauto.
Qed.

Lemma first_date_absent (values : list string) :
  (forall v, In v values -> contains "as on" (lower v) = false) ->
  first_date values = "".
Proof.
  induction values as [|v values IH]; intros H; [reflexivity|]. simpl.
  rewrite (H v) by (left; reflexivity). rewrite andb_false_r.
  apply IH. intros v' Hv'. apply H. right. exact Hv'.
Qed.

Lemma find_sheet_head (pattern name : string) (s : sheet) (rest : workbook) :
  contains pattern (lower name) = true ->
  find_sheet pattern ((name, s) :: rest) = Some s.
Proof. intros H. unfold find_sheet. simpl. rewrite H. reflexivity. Qed.

Lemma find_sheet_exists (pattern : string) (w : workbook) (s : sheet) :
  find_sheet pattern w = Some s ->
  existsb (contains pattern) (map (fun sh => lower (fst sh)) w) = true.
Proof.
  unfold find_sheet. destruct (List.find _ w) as [sh|] eqn:E; [|discriminate].
  intros _. apply find_some in E as [Hin Hsh].
  apply existsb_exists. exists (lower (fst sh)). split; [|exact Hsh].
  apply in_map_iff. exists sh. auto.
Qed.

Lemma section_names_lower (section : string) :
  In section sections ->
  lower section = section /\ contains section "" = false.
Proof.
  unfold sections. simpl.
  intros [<-|[<-|[<-|[<-|[<-|[<-|[<-|[]]]]]]]]; split; reflexivity.
Qed.

(** A sheet none of whose cells mentions the section has no section start. *)
Lemma find_section_start_absent (g : grid) (section : string) :
  (forall r c, In r g -> In c r -> cell_has_keyword section c = false) ->
  find_section_start g section = -1.
Proof.
  intros H. unfold find_section_start. apply or_minus_one_none, find_row_all_false.
  intros j r Hj. apply not_true_false. intros Hex.
  apply existsb_exists in Hex as (c & Hc & Hkw).
  rewrite (H r c) in Hkw; [discriminate| |exact Hc].
  apply list_elem_of_In, list_elem_of_lookup. eauto.
Qed.

(** A text that contains a keyword holds the first character of the
    keyword. *)
Lemma contains_first_char (k : ascii) (keyword text : string) :
  contains (String k keyword) text = true ->
  all_chars (fun c => negb (Ascii.eqb c k)) text = false.
Proof.
  induction text as [|c text IH]; cbn [contains String.prefix all_chars].
  - discriminate.
  - destruct (ascii_dec k c) as [<-|Hne].
    + intros _. rewrite Ascii.eqb_refl. reflexivity.
    + cbn [orb]. intros H. rewrite (IH H). apply andb_false_r.
Qed.

Lemma all_chars_lower (p q : ascii -> bool) (s : string) :
  (forall c, p c = true -> q (lower_char c) = true) ->
  all_chars p s = true -> all_chars q (lower s) = true.
Proof.
  intros Hpq. induction s as [|c s IH]; [reflexivity|]. cbn [all_chars lower].
  intros H. apply andb_true_iff in H as [Hc Hs].
  rewrite (Hpq c Hc), (IH Hs). reflexivity.
Qed.

(** No section name starts with a character of a numeral. *)
Lemma numeral_char_section (c k : ascii) (keyword section : string) :
  In section sections -> section = String k keyword ->
  numeral_char c = true -> negb (Ascii.eqb (lower_char c) k) = true.
Proof.
  unfold sections. simpl.
  intros [<-|[<-|[<-|[<-|[<-|[<-|[<-|[]]]]]]]] Hk; injection Hk as <- _;
    destruct c as [[] [] [] [] [] [] [] []]; intros H;
    try discriminate H; reflexivity.
Qed.

Lemma numeral_mentions_no_section (r section : string) :
  In section sections -> all_chars numeral_char r = true ->
  contains section (lower r) = false.
Proof.
  intros Hin Hr. apply not_true_false. intros Hc.
  destruct section as [|k keyword].
  - destruct (section_names_lower "" Hin) as [_ H]. simpl in Hin.
    repeat (destruct Hin as [Hin|Hin]; [discriminate|]). destruct Hin.
  - apply contains_first_char in Hc.
    rewrite (all_chars_lower numeral_char _ r) in Hc; [discriminate| |exact Hr].
    intros c. apply (numeral_char_section c k keyword _ Hin eq_refl).
Qed.

(** X13: validation is a sound pre-check of the primary pass.  For a file
    with an Excel extension whose workbook could be opened: when
    [has_date_info] is false, Table B gives the primary pass no as-on date;
    when [has_unit_data] is false, every section of Table C yields no unit
    and leaves the converter as it was, in the plain reading that the
    validation and the recovery pass see and, when the two readings agree
    cell by cell, in the [dtype=str] reading of the primary pass; and when
    [has_project_info] is false and Table A is the first sheet,
    [extract_project_info] returns two empty texts and does not raise. *)
Theorem validation_is_sound (file_path : string) (w : workbook) :
  let v := validate_form3_file file_path (Some w) in
  is_excel v = true ->
  (has_date_info v = false -> table_b_date w = "") /\
  (has_unit_data v = false ->
   forall table_c section st,
     find_sheet "table c" w = Some table_c -> In section sections ->
     extract_unit_data (read_excel table_c) section st = (Ret [], st) /\
     (readings_agree table_c ->
      extract_unit_data (read_excel_str table_c) section st = (Ret [], st))) /\
  (has_project_info v = false ->
   forall name table_a rest,
     w = (name, table_a) :: rest -> contains "table a" (lower name) = true ->
     table_a_info w = Ret ("", "")).
Proof.
  cbn zeta. unfold validate_form3_file.
  destruct (negb _); [discriminate|]. cbn [is_excel has_date_info has_unit_data
                                              has_project_info].
  intros _. split; [|split].
  - unfold table_b_date. destruct (find_sheet "table b" w) as [b|] eqn:Eb;
      [|reflexivity].
    rewrite (find_sheet_exists _ _ _ Eb). cbn [andb]. intros Hany.
    unfold extract_as_on_date. apply first_date_absent. intros v Hv.
    apply cell_values_In in Hv as (r & c & Hr & Hc & ->).
    unfold cell_text. destruct (notna c) eqn:En; [|reflexivity].
    exact (any_cell_false _ _ _ _ Hany Hr Hc En).
  - intros Hany t section st Ht Hin. rewrite Ht, (find_sheet_exists _ _ _ Ht) in Hany.
    cbn [andb] in Hany.
    destruct (section_names_lower section Hin) as [Hlow Hempty].
    assert (forall r c, In r (read_excel t) -> In c r ->
                        cell_has_keyword section c = false) as Hplain.
    { intros r c Hr Hc. unfold cell_has_keyword, cell_text. rewrite Hlow.
      destruct (notna c) eqn:En; [|exact Hempty].
      pose proof (any_cell_false _ _ _ _ Hany Hr Hc En) as Hno. cbv beta in Hno.
      apply not_true_false. intros Hkw.
      assert (existsb (fun keyword => contains keyword (lower (py_str c))) sections
              = true) as Hyes
          by (apply existsb_exists; exists section; split; [exact Hin|exact Hkw]).
      congruence. }
    split.
    + unfold extract_unit_data.
      rewrite (find_section_start_absent _ _ Hplain). reflexivity.
    + intros Hagree. unfold extract_unit_data.
      rewrite find_section_start_absent; [reflexivity|].
      intros r' c' Hr' Hc'.
      apply list_elem_of_In, list_elem_of_lookup in Hr' as [i Hi].
      destruct (Forall2_lookup_r _ _ _ _ _ Hagree Hi) as (r & Hr & Hrow).
      apply list_elem_of_In, list_elem_of_lookup in Hc' as [j Hj].
      destruct (Forall2_lookup_r _ _ _ _ _ Hrow Hj) as (c & Hc & Hcell).
      assert (In r (read_excel t)) as Hrin
          by (apply list_elem_of_In, list_elem_of_lookup; eauto).
      assert (In c r) as Hcin
          by (apply list_elem_of_In, list_elem_of_lookup; eauto).
      pose proof (Hplain r c Hrin Hcin) as Hno.
      destruct c as [|s|n]; cbn [reads_as] in Hcell.
      * subst c'. exact Hno.
      * subst c'. exact Hno.
      * destruct Hcell as (n' & -> & [->|Hnum]); [exact Hno|].
        unfold cell_has_keyword, cell_text. cbn [notna py_str]. rewrite Hlow.
        apply numeral_mentions_no_section; assumption.
  - intros Hany name g rest -> Hname.
    unfold table_a_info. rewrite (find_sheet_head _ _ _ _ Hname).
    simpl map in Hany. cbn [existsb] in Hany. rewrite Hname in Hany.
    cbn [orb andb] in Hany.
    unfold extract_project_info.
    destruct (List.find _ (cell_values (read_excel g))) as [v|] eqn:E; [|reflexivity].
    apply find_some in E as [Hv Hcontains].
    apply cell_values_In in Hv as (r & c & Hr & Hc & ->).
    unfold cell_text in Hcontains. destruct (notna c) eqn:En.
    + rewrite (any_cell_false _ _ _ _ Hany Hr Hc En) in Hcontains. discriminate.
    + discriminate.
Qed.

(** A Table C without a section: the number 12 arrives as the text "12". *)
Lemma validation_is_sound_witness :
  extract_unit_data [[CText "Inventory"; CText "12"]] "sold" new_converter
  = (Ret [], new_converter).
Proof.
  apply (proj1 (proj2 (validation_is_sound "form3.xlsx"
                         [("Table C",
                           mk_sheet [[CText "Inventory"; CNum "12"]]
                                    [[CText "Inventory"; CText "12"]])]
                         eq_refl))
           eq_refl
           (mk_sheet [[CText "Inventory"; CNum "12"]] [[CText "Inventory"; CText "12"]])
           "sold" new_converter eq_refl (or_introl eq_refl)).
  repeat constructor. exists "12". split; [reflexivity|]. left. reflexivity.
Defined.

(** ** The file name *)

Lemma run_length_le (cls : ascii -> bool) (s : string) :
  (FileName.run_length cls s <= String.length s)%nat.
Proof.
  induction s as [|c s IH]; simpl; [lia|]. destruct (cls c); lia.
Qed.

Lemma all_chars_substring (cls : ascii -> bool) (s : string) (k : nat) :
  (k <= FileName.run_length cls s)%nat ->
  all_chars cls (String.substring 0 k s) = true.
Proof.
  revert k. induction s as [|c s IH]; intros k Hk.
  - destruct k; reflexivity.
  - destruct k as [|k]; [reflexivity|]. simpl in *.
    destruct (cls c) eqn:E; [|lia]. apply IH. lia.
Qed.

Lemma length_substring_0 (s : string) (k : nat) :
  (k <= String.length s)%nat -> String.length (String.substring 0 k s) = k.
Proof.
  revert k. induction s as [|c s IH]; intros [|k] H; simpl in *; try lia.
  f_equal. apply IH. lia.
Qed.

Lemma length_drop_chars (s : string) (k : nat) :
  String.length (FileName.drop_chars k s) = (String.length s - k)%nat.
Proof.
  revert k. induction s as [|c s IH]; intros [|k]; simpl; try lia. apply IH.
Qed.

Lemma substring_0_add (s : string) (k m : nat) :
  (k <= String.length s)%nat ->
  String.substring 0 (k + m) s =
  String.append (String.substring 0 k s)
    (String.substring 0 m (FileName.drop_chars k s)).
Proof.
  revert k. induction s as [|c s IH]; intros [|k] H; simpl in H; try lia.
  - rewrite append_nil. reflexivity.
  - rewrite append_nil. reflexivity.
  - cbn [Nat.add String.substring FileName.drop_chars]. rewrite append_cons.
    f_equal. apply IH. lia.
Qed.

Lemma substring_drop_chars (s : string) (i n : nat) :
  String.substring i n s = String.substring 0 n (FileName.drop_chars i s).
Proof.
  revert i. induction s as [|c s IH]; intros [|i]; try reflexivity.
  - destruct n; reflexivity.
  - cbn [FileName.drop_chars]. rewrite <- IH. reflexivity.
Qed.

Lemma all_chars_append (cls : ascii -> bool) (a b : string) :
  all_chars cls (String.append a b) = all_chars cls a && all_chars cls b.
Proof.
  induction a as [|c a IH]; [rewrite append_nil; reflexivity|].
  rewrite append_cons. cbn [all_chars]. rewrite IH, andb_assoc. reflexivity.
Qed.

Lemma all_chars_impl (cls cls' : ascii -> bool) (s : string) :
  (forall c, cls c = true -> cls' c = true) ->
  all_chars cls s = true -> all_chars cls' s = true.
Proof.
  intros Himp. induction s as [|c s IH]; [reflexivity|]. cbn [all_chars].
  intros H. apply andb_true_iff in H as [Hc Hs].
  rewrite (Himp c Hc), (IH Hs). reflexivity.
Qed.

Lemma try_down_some (f : nat -> option nat) (lo k r : nat) :
  (lo <= k)%nat -> FileName.try_down f lo k = Some r ->
  exists k', (lo <= k' <= k)%nat /\ f k' = Some r.
Proof.
  induction k as [|k IH]; intros Hlo H; simpl in H.
  - destruct (f 0%nat) eqn:E; [|discriminate]. injection H as ->.
    exists 0%nat. split; [lia|exact E].
  - destruct (f (S k)) eqn:E.
    + injection H as ->. exists (S k). split; [lia|exact E].
    + destruct (lo <=? k)%nat eqn:El; [|discriminate]. apply Nat.leb_le in El.
      destruct (IH El H) as (k' & Hk' & Hf). exists k'. split; [lia|exact Hf].
Qed.

(** A match of [p] at the start of [s] covers a text that [p] accepts. *)
Lemma match_here_accepts (p : list FileName.atom) (s : string) (n : nat) :
  FileName.match_here p s = Some n ->
  FileName.accepts p (String.substring 0 n s) /\ (n <= String.length s)%nat.
Proof.
  revert s n. induction p as [|[cls lo hi] p IH]; intros s n H.
  - injection H as <-. split; [destruct s; reflexivity|lia].
  - cbn [FileName.match_here] in H. cbv zeta in H.
    set (top := match hi with
                | Some h => Nat.min h (FileName.run_length cls s)
                | None => FileName.run_length cls s
                end) in *.
    destruct (top <? lo)%nat eqn:Et; [discriminate|]. apply Nat.ltb_ge in Et.
    apply try_down_some in H as (k & Hk & Hf); [|exact Et].
    destruct (FileName.match_here p (FileName.drop_chars k s)) as [m|] eqn:Em;
      [|discriminate].
    injection Hf as <-. apply IH in Em as [Hacc Hm].
    pose proof (run_length_le cls s) as Hrun.
    assert (k <= FileName.run_length cls s)%nat as Hkr
        by (subst top; destruct hi; lia).
    rewrite length_drop_chars in Hm. split; [|lia].
    cbn [FileName.accepts].
    exists (String.substring 0 k s),
           (String.substring 0 m (FileName.drop_chars k s)).
    split; [apply substring_0_add; lia|].
    split; [apply all_chars_substring; exact Hkr|].
    rewrite length_substring_0 by lia. split; [lia|]. split; [|exact Hacc].
    subst top. destruct hi; [lia|exact Logic.I].
Qed.

Lemma search_from_some (p : list FileName.atom) (s : string) (i0 i n : nat) :
  FileName.search_from p i0 s = Some (i, n) ->
  exists j, i = (i0 + j)%nat /\
            FileName.match_here p (FileName.drop_chars j s) = Some n.
Proof.
  revert i0. induction s as [|c s IH]; intros i0 H; cbn [FileName.search_from] in H.
  - destruct (FileName.match_here p "") eqn:E; [|discriminate].
    injection H as <- <-. exists 0%nat. split; [lia|exact E].
  - destruct (FileName.match_here p (String c s)) eqn:E.
    + injection H as <- <-. exists 0%nat. split; [lia|exact E].
    + apply IH in H as (j & -> & Hj). exists (S j). split; [lia|exact Hj].
Qed.

(** The text of a match is a text the pattern accepts. *)
Lemma group_accepts (p : list FileName.atom) (s : string) (m : nat * nat) :
  FileName.search p s = Some m -> FileName.accepts p (FileName.group s m).
Proof.
  destruct m as [i n]. unfold FileName.search, FileName.group. intros H.
  apply search_from_some in H as (j & -> & Hj). cbn [fst snd Nat.add].
  rewrite substring_drop_chars. apply (match_here_accepts _ _ _ Hj).
Qed.

Lemma accepts_all_chars (q : ascii -> bool) (p : list FileName.atom) :
  Forall (fun a => match a with
                   | FileName.Rep cls _ _ => forall c, cls c = true -> q c = true
                   end) p ->
  forall t, FileName.accepts p t -> all_chars q t = true.
Proof.
  induction 1 as [|[cls lo hi] p Hcls _ IH]; intros t Ht; cbn [FileName.accepts] in Ht.
  - subst t. reflexivity.
  - destruct Ht as (a & b & -> & Ha & _ & _ & Hb).
    rewrite all_chars_append, (all_chars_impl _ _ _ Hcls Ha), (IH _ Hb). reflexivity.
Qed.

Lemma sub_joiners_clean (in_run : bool) (s : string) :
  all_chars (fun c => negb (FileName.is_joiner c)) (FileName.sub_joiners in_run s) = true.
Proof.
  revert in_run. induction s as [|c s IH]; intros in_run; [reflexivity|].
  cbn [FileName.sub_joiners]. destruct (FileName.is_joiner c) eqn:E.
  - destruct in_run; [apply IH|]. cbn [all_chars]. rewrite IH. reflexivity.
  - cbn [all_chars]. rewrite E, IH. reflexivity.
Qed.

Lemma all_chars_strip (cls : ascii -> bool) (s : string) :
  all_chars cls s = true -> all_chars cls (strip s) = true.
Proof.
  intros H. unfold strip, strip_by. apply all_chars_rstrip, all_chars_lstrip, H.
Qed.

Lemma append_empty_r (s : string) : String.append s EmptyString = s.
Proof.
  induction s as [|c s IH]; [reflexivity|]. rewrite append_cons, IH. reflexivity.
Qed.

Lemma length_one (s : string) :
  (1 <= String.length s)%nat -> (String.length s <= 1)%nat ->
  exists c, s = String c EmptyString.
Proof.
  destruct s as [|c [|d s]]; simpl; intros H1 H2; try lia. exists c. reflexivity.
Qed.

Lemma accepts_rera_shape (rera : string) :
  FileName.accepts FileName.filename_rera rera ->
  exists c ds,
    rera = String c ds /\ (is_upper c = true) /\
    (ds <> "") /\ (all_chars is_digit ds = true).
Proof.
  intros (a & b & -> & Ha & Hlo & Hhi & ds & e & -> & Hds & Hlen & _ & ->).
  destruct (length_one a Hlo Hhi) as [c ->]. exists c, ds.
  rewrite append_empty_r, append_cons, append_nil.
  split; [reflexivity|]. split.
  - cbn [all_chars] in Ha. rewrite andb_true_r in Ha. exact Ha.
  - split; [|exact Hds]. intros ->. simpl in Hlen. lia.
Qed.

Lemma accepts_date_shape (date : string) :
  FileName.accepts FileName.filename_date date ->
  exists d1 x d2 y d3,
    date = String.append d1 (String x (String.append d2 (String y d3))) /\
    (all_chars is_digit d1 = true /\ all_chars is_digit d2 = true /\
     all_chars is_digit d3 = true) /\
    (FileName.is_sep x = true /\ FileName.is_sep y = true) /\
    (1 <= String.length d1 <= 2)%nat /\
    (1 <= String.length d2 <= 2)%nat /\
    (2 <= String.length d3 <= 4)%nat.
Proof.
  intros (d1 & b1 & -> & H1 & Hlo1 & Hhi1 &
          s1 & b2 & -> & Hx & Hlox & Hhix &
          d2 & b3 & -> & H2 & Hlo2 & Hhi2 &
          s2 & b4 & -> & Hy & Hloy & Hhiy &
          d3 & e & -> & H3 & Hlo3 & Hhi3 & ->).
  destruct (length_one s1 Hlox Hhix) as [x ->].
  destruct (length_one s2 Hloy Hhiy) as [y ->].
  exists d1, x, d2, y, d3.
  rewrite append_empty_r, !append_cons, !append_nil.
  cbn [all_chars] in Hx, Hy. rewrite andb_true_r in Hx, Hy.
  split; [reflexivity|]. split; [auto|]. split; [auto|]. lia.
Qed.

(** X14: whatever the file is called, the three values read off its name
    have a fixed shape.  The project name carries no underscore and no hyphen
    and no whitespace at either end.  The registration number is empty or one
    capital letter followed by one or more digits.  The date is empty or one
    or two digits, a slash or hyphen, one or two digits, a slash or hyphen,
    and two to four digits. *)
Theorem filename_fields_shape (filename : string) :
  let '(project, rera, date) := FileName.extract_from_filename filename in
  (strip project = project /\
   all_chars (fun c => negb (FileName.is_joiner c)) project = true) /\
  (rera = "" \/
   exists c ds,
     rera = String c ds /\ (is_upper c = true) /\
     (ds <> "") /\ (all_chars is_digit ds = true)) /\
  (date = "" \/
   exists d1 x d2 y d3,
     date = String.append d1 (String x (String.append d2 (String y d3))) /\
     (all_chars is_digit d1 = true /\ all_chars is_digit d2 = true /\
      all_chars is_digit d3 = true) /\
     (FileName.is_sep x = true /\ FileName.is_sep y = true) /\
     (1 <= String.length d1 <= 2)%nat /\
     (1 <= String.length d2 <= 2)%nat /\
     (2 <= String.length d3 <= 4)%nat).
Proof.
  unfold FileName.extract_from_filename. cbv zeta.
  set (base_name := FileName.splitext_root filename).
  split; [split|split].
  - apply strip_idem.
  - apply all_chars_strip, sub_joiners_clean.
  - destruct (FileName.search FileName.filename_rera base_name) as [m|] eqn:E;
      [right; apply accepts_rera_shape, group_accepts, E|left; reflexivity].
  - destruct (FileName.search FileName.filename_date base_name) as [m|] eqn:E;
      [right; apply accepts_date_shape, group_accepts, E|left; reflexivity].
Qed.

Lemma try_down_first (f : nat -> option nat) (lo k r : nat) :
  f k = Some r -> FileName.try_down f lo k = Some r.
Proof. intros H. destruct k; simpl; rewrite H; reflexivity. Qed.

Lemma match_here_plus (cls : ascii -> bool) (s : string) :
  FileName.match_here [FileName.Rep cls 1 None] s =
  if (1 <=? FileName.run_length cls s)%nat
  then Some (FileName.run_length cls s + 0)%nat else None.
Proof.
  cbn [FileName.match_here]. cbv zeta.
  destruct (FileName.run_length cls s) as [|n]; [reflexivity|].
  cbn [Nat.ltb Nat.leb]. apply try_down_first. reflexivity.
Qed.

Lemma match_here_one (cls : ascii -> bool) (p : list FileName.atom) (s : string) :
  FileName.match_here (FileName.Rep cls 1 (Some 1%nat) :: p) s =
  match s with
  | String c s' => if cls c then option_map S (FileName.match_here p s') else None
  | EmptyString => None
  end.
Proof.
  destruct s as [|c s]; [reflexivity|].
  cbn [FileName.match_here FileName.run_length]. cbv zeta.
  destruct (cls c); [|reflexivity].
  cbn [Nat.min Nat.ltb Nat.leb FileName.try_down FileName.drop_chars].
  destruct (FileName.match_here p s); reflexivity.
Qed.

Lemma match_rera_none (s : string) :
  FileName.match_here FileName.filename_rera s = None <->
  FileName.token_at_start s = false.
Proof.
  unfold FileName.filename_rera. rewrite match_here_one.
  destruct s as [|c s]; [split; reflexivity|].
  rewrite match_here_plus.
  destruct s as [|d s]; cbn [FileName.token_at_start FileName.run_length].
  - destruct (is_upper c); split; reflexivity.
  - destruct (is_upper c); [|split; reflexivity].
    destruct (is_digit d); cbn; split; (reflexivity || discriminate).
Qed.

Lemma token_at_start_prefix (c : ascii) (s : string) (k : nat) :
  FileName.token_at_start (String c s) = false ->
  FileName.token_at_start (String c (String.substring 0 k s)) = false.
Proof.
  destruct s as [|d s]; destruct k; try reflexivity. intros H. exact H.
Qed.

Lemma has_token_tail (c : ascii) (s : string) :
  FileName.has_token (String c s) = false ->
  FileName.token_at_start (String c s) = false /\ FileName.has_token s = false.
Proof.
  cbn [FileName.has_token]. intros H. apply orb_false_iff in H. exact H.
Qed.

Lemma has_token_cons (c : ascii) (s : string) :
  FileName.token_at_start (String c s) = false -> FileName.has_token s = false ->
  FileName.has_token (String c s) = false.
Proof.
  intros H1 H2. cbn [FileName.has_token]. rewrite H1, H2. reflexivity.
Qed.

Lemma has_token_prefix (s : string) (k : nat) :
  FileName.has_token s = false ->
  FileName.has_token (String.substring 0 k s) = false.
Proof.
  revert k. induction s as [|c s IH]; intros [|k] H; try reflexivity.
  apply has_token_tail in H as [Hc Hs]. cbn [String.substring].
  apply has_token_cons; [apply token_at_start_prefix, Hc|apply IH, Hs].
Qed.

(** Nothing before the leftmost registration number looks like one. *)
Lemma search_rera_before (s : string) (i0 i n : nat) :
  FileName.search_from FileName.filename_rera i0 s = Some (i, n) ->
  FileName.has_token (String.substring 0 (i - i0) s) = false.
Proof.
  revert i0. induction s as [|c s IH]; intros i0 H.
  - destruct (i - i0)%nat; reflexivity.
  - cbn [FileName.search_from] in H.
    destruct (FileName.match_here FileName.filename_rera (String c s)) eqn:E.
    + injection H as <- <-. rewrite Nat.sub_diag. reflexivity.
    + apply match_rera_none in E.
      pose proof (search_from_some _ _ _ _ _ H) as (j & -> & _).
      apply IH in H. replace (S i0 + j - i0)%nat with (S j) by lia.
      replace (S i0 + j - S i0)%nat with j in H by lia.
      cbn [String.substring].
      apply has_token_cons; [apply token_at_start_prefix, E|exact H].
Qed.

Lemma search_rera_none (s : string) (i0 : nat) :
  FileName.search_from FileName.filename_rera i0 s = None <->
  FileName.has_token s = false.
Proof.
  revert i0. induction s as [|c s IH]; intros i0.
  - split; reflexivity.
  - cbn [FileName.search_from FileName.has_token].
    destruct (FileName.match_here FileName.filename_rera (String c s)) eqn:E.
    + split; [discriminate|]. intros H. apply orb_false_iff in H as [H _].
      apply match_rera_none in H. congruence.
    + apply match_rera_none in E. rewrite E, IH. reflexivity.
Qed.

Lemma has_token_lstrip (sp : ascii -> bool) (s : string) :
  FileName.has_token s = false -> FileName.has_token (lstrip_by sp s) = false.
Proof.
  induction s as [|c s IH]; [reflexivity|]. intros H. cbn [lstrip_by].
  destruct (sp c); [|exact H]. apply IH. apply has_token_tail in H. apply H.
Qed.

Lemma rstrip_by_first (sp : ascii -> bool) (s : string) (d : ascii) (r : string) :
  rstrip_by sp s = String d r -> exists s', s = String d s'.
Proof.
  destruct s as [|c s]; [discriminate|]. cbn [rstrip_by].
  destruct (rstrip_by sp s); [destruct (sp c)|]; intros H; try discriminate;
    injection H as -> _; eauto.
Qed.

Lemma has_token_rstrip (sp : ascii -> bool) (s : string) :
  FileName.has_token s = false -> FileName.has_token (rstrip_by sp s) = false.
Proof.
  induction s as [|c s IH]; [reflexivity|]. intros H.
  apply has_token_tail in H as [Hc Hs]. specialize (IH Hs). cbn [rstrip_by].
  destruct (rstrip_by sp s) as [|d r] eqn:E.
  - destruct (sp c); reflexivity.
  - apply has_token_cons; [|exact IH].
    apply rstrip_by_first in E as [s' ->]. exact Hc.
Qed.

Lemma has_token_strip (s : string) :
  FileName.has_token s = false -> FileName.has_token (strip s) = false.
Proof.
  intros H. unfold strip, strip_by. apply has_token_rstrip, has_token_lstrip, H.
Qed.

Lemma has_token_sub_joiners (in_run : bool) (s : string) :
  FileName.has_token s = false ->
  FileName.has_token (FileName.sub_joiners in_run s) = false.
Proof.
  revert in_run. induction s as [|c s IH]; intros in_run H; [reflexivity|].
  apply has_token_tail in H as [Hc Hs]. cbn [FileName.sub_joiners].
  destruct (FileName.is_joiner c) eqn:Ej.
  - destruct in_run; [apply IH, Hs|].
    apply has_token_cons; [|apply IH, Hs].
    cbn [FileName.token_at_start]. destruct (FileName.sub_joiners true s); reflexivity.
  - apply has_token_cons; [|apply IH, Hs].
    destruct s as [|d s]; [reflexivity|]. cbn [FileName.sub_joiners].
    destruct (FileName.is_joiner d) eqn:Ed; [|exact Hc].
    cbn [FileName.token_at_start]. apply andb_false_r.
Qed.

(** X15: the project name read off a file name never holds a capital letter
    directly followed by a digit: the name is cut at the first such pair,
    which starts the registration number, so that searching the project name
    for a registration number again finds nothing. *)
Theorem filename_project_has_no_number (filename : string) :
  let '(project, _, _) := FileName.extract_from_filename filename in
  FileName.search FileName.filename_rera project = None.
Proof.
  unfold FileName.extract_from_filename. cbv zeta.
  set (base_name := FileName.splitext_root filename).
  apply search_rera_none, has_token_strip, has_token_sub_joiners.
  destruct (FileName.search FileName.filename_rera base_name) as [[i n]|] eqn:E.
  - apply has_token_strip. unfold FileName.before. cbn [fst].
    apply search_rera_before in E. rewrite Nat.sub_0_r in E. exact E.
  - apply search_rera_none in E.
    destruct (FileName.search FileName.filename_date base_name) as [[i n]|];
      [|exact E].
    apply has_token_strip, has_token_prefix, E.
Qed.

(** ** The shape of the metadata *)

Lemma length_append (a b : string) :
  String.length (String.append a b) = (String.length a + String.length b)%nat.
Proof.
  induction a as [|c a IH]; [rewrite append_nil; reflexivity|].
  rewrite append_cons. simpl. rewrite IH. reflexivity.
Qed.

Lemma substring_append_prefix (a b : string) :
  String.substring 0 (String.length (String.append a b) - String.length b)
    (String.append a b) = a.
Proof.
  rewrite length_append. replace (_ + _ - _)%nat with (String.length a) by lia.
  induction a as [|c a IH].
  - rewrite append_nil. destruct b; reflexivity.
  - rewrite append_cons. simpl. rewrite IH. reflexivity.
Qed.

Lemma append_snoc (a : string) (x : ascii) (t : string) :
  String.append a (String x t) = String.append (String.append a (String x "")) t.
Proof.
  induction a as [|c a IH]; [rewrite !append_nil, append_cons, append_nil; reflexivity|].
  rewrite !append_cons, IH. reflexivity.
Qed.

(** Atoms other than parentheses leave the captured group as it is. *)
Lemma re_plain_keeps_group (rest : list Re.atom) :
  Forall plain_atom rest ->
  forall start cap s r, Re.match_here rest start cap s = Some r -> r = cap.
Proof.
  induction 1 as [|a rest Ha _ IH]; intros start cap s r H.
  - injection H as <-. reflexivity.
  - destruct a as [c|cls greedy| |]; try contradiction.
    + cbn [Re.match_here] in H. destruct s as [|x s]; [discriminate|].
      destruct (Re.lit_eq c x); [|discriminate]. exact (IH _ _ _ _ H).
    + revert H. induction s as [|x t IHt]; [discriminate|].
      cbn [Re.match_here]. destruct (cls x); [|discriminate].
      destruct greedy.
      * destruct ((fix more (t0 : string) : option string := _) t) eqn:E.
        -- intros H. injection H as <-. apply IHt. exact E.
        -- apply IH.
      * destruct (Re.match_here rest start cap t) eqn:E.
        -- intros H. injection H as <-. exact (IH _ _ _ _ E).
        -- apply IHt.
Qed.

(** What a pattern captures is what the part from its opening parenthesis
    on captures somewhere in the text. *)
Lemma re_skip_prefix (pre rest : list Re.atom) :
  Forall plain_atom pre ->
  forall start cap s r,
    Re.match_here (pre ++ Re.Open :: rest) start cap s = Some r ->
    exists s', Re.match_here rest s' cap s' = Some r.
Proof.
  induction 1 as [|a pre Ha _ IH]; intros start cap s r H.
  - exists s. exact H.
  - destruct a as [c|cls greedy| |]; try contradiction.
    + cbn [Re.match_here app] in H. destruct s as [|x s]; [discriminate|].
      destruct (Re.lit_eq c x); [|discriminate]. exact (IH _ _ _ _ H).
    + revert H. induction s as [|x t IHt]; [discriminate|].
      cbn [Re.match_here app]. destruct (cls x); [|discriminate].
      destruct greedy.
      * destruct ((fix more (t0 : string) : option string := _) t) eqn:E.
        -- intros H. injection H as <-. apply IHt. exact E.
        -- apply IH.
      * destruct (Re.match_here (pre ++ Re.Open :: rest) start cap t) eqn:E.
        -- intros H. injection H as <-. exact (IH _ _ _ _ E).
        -- apply IHt.
Qed.

(** A group that holds one repeated class captures characters of the class. *)
Lemma re_group_class (cls : ascii -> bool) (greedy : bool) (rest : list Re.atom)
    (cap r : string) :
  Forall plain_atom rest ->
  forall t a,
    all_chars cls a = true ->
    Re.match_here (Re.Plus cls greedy :: Re.Close :: rest) (String.append a t) cap t
    = Some r ->
    all_chars cls r = true.
Proof.
  intros Hrest. induction t as [|x t IHt]; intros a Ha; [discriminate|].
  cbn [Re.match_here]. destruct (cls x) eqn:Ex; [|discriminate].
  assert (all_chars cls (String.append a (String x "")) = true) as Hax.
  { rewrite all_chars_append, Ha. cbn [all_chars]. rewrite Ex. reflexivity. }
  assert (forall r',
            Re.match_here rest (String.append a (String x t))
              (String.substring 0
                 (String.length (String.append a (String x t)) - String.length t)
                 (String.append a (String x t))) t = Some r' ->
            all_chars cls r' = true) as Hclose.
  { intros r' H. apply (re_plain_keeps_group _ Hrest) in H. subst r'.
    rewrite (append_snoc a x t), substring_append_prefix. exact Hax. }
  pose proof (IHt (String.append a (String x "")) Hax) as IHt'.
  rewrite <- append_snoc in IHt'. cbn [Re.match_here] in IHt'.
  destruct greedy.
  - destruct ((fix more (t0 : string) : option string := _) t) eqn:E.
    + intros H. injection H as <-. apply IHt'. first [exact E|reflexivity].
    + apply Hclose.
  - destruct (Re.match_here rest _ _ t) eqn:E.
    + intros H. injection H as <-. apply Hclose. first [exact E|reflexivity].
    + apply IHt'.
Qed.

Lemma re_search_some (p : list Re.atom) (s r : string) :
  Re.search p s = Some r -> exists s', Re.match_here p s' "" s' = Some r.
Proof.
  induction s as [|c s IH]; cbn [Re.search].
  - destruct (Re.match_here p "" "" "") eqn:E; [|discriminate].
    intros H. injection H as <-. eauto.
  - destruct (Re.match_here p (String c s) "" (String c s)) eqn:E.
    + intros H. injection H as <-. eauto.
    + exact IH.
Qed.

(** The registration number captured in Table A holds letters and digits. *)
Lemma rera_capture_alnum (v r : string) :
  Re.search Re.rera_number v = Some r -> all_chars Re.alnum r = true.
Proof.
  intros H. apply re_search_some in H as [s H].
  change Re.rera_number
    with ((Re.lits "having maharera registration number" ++ [Re.Plus is_space true])
          ++ Re.Open :: Re.Plus Re.alnum true :: Re.Close
             :: (Re.Plus is_space true :: Re.lits "being developed")) in H.
  apply re_skip_prefix in H as [s' H]; [|repeat constructor].
  apply (re_group_class Re.alnum true
           (Re.Plus is_space true :: Re.lits "being developed") "" r
           ltac:(repeat constructor) s' "" eq_refl).
  rewrite append_nil. exact H.
Qed.


Lemma strip_by_clean (sp : ascii -> bool) (s : string) :
  all_chars (fun c => negb (sp c)) s = true -> strip_by sp s = s.
Proof.
  intros H. unfold strip_by.
  assert (lstrip_by sp s = s) as ->.
  { destruct s as [|c s]; [reflexivity|]. cbn [all_chars] in H.
    apply andb_true_iff in H as [Hc _]. apply lstrip_by_id.
    destruct (sp c); [discriminate|reflexivity]. }
  induction s as [|c s IH]; [reflexivity|]. cbn [all_chars] in H.
  apply andb_true_iff in H as [Hc Hs].
  rewrite rstrip_by_cons, (IH Hs); [reflexivity|].
  destruct (sp c); [discriminate|reflexivity].
Qed.

Lemma digit_not_space (c : ascii) : is_digit c = true -> negb (is_space c) = true.
Proof.
  destruct c as [[] [] [] [] [] [] [] []]; intros H; try discriminate H; reflexivity.
Qed.

Lemma sep_not_space (c : ascii) : FileName.is_sep c = true -> negb (is_space c) = true.
Proof.
  destruct c as [[] [] [] [] [] [] [] []]; intros H; try discriminate H; reflexivity.
Qed.

Lemma upper_alnum (c : ascii) : is_upper c = true -> Re.alnum c = true.
Proof. intros H. unfold Re.alnum. rewrite H. reflexivity. Qed.

Lemma digit_alnum (c : ascii) : is_digit c = true -> Re.alnum c = true.
Proof. intros H. unfold Re.alnum. rewrite H. apply orb_true_r. Qed.

(** The three values read off a file name, as the sheets would give them. *)
Lemma filename_fields_clean (filename : string) :
  let '(project, rera, date) := FileName.extract_from_filename filename in
  strip project = project /\ all_chars Re.alnum rera = true /\ strip date = date.
Proof.
  unfold FileName.extract_from_filename. cbv zeta.
  set (base_name := FileName.splitext_root filename).
  split; [apply strip_idem|]. split.
  - destruct (FileName.search FileName.filename_rera base_name) as [m|] eqn:E;
      [|reflexivity].
    apply group_accepts in E. revert E. apply accepts_all_chars.
    repeat constructor; [apply upper_alnum|apply digit_alnum].
  - destruct (FileName.search FileName.filename_date base_name) as [m|] eqn:E;
      [|reflexivity].
    apply group_accepts in E. apply strip_by_clean. revert E.
    apply accepts_all_chars.
    repeat constructor; first [apply digit_not_space|apply sep_not_space].
Qed.

Lemma extract_project_info_shape (sheet_data : grid) (info : string * string) :
  extract_project_info sheet_data = Ret info ->
  strip (fst info) = fst info /\ all_chars Re.alnum (snd info) = true.
Proof.
  unfold extract_project_info.
  destruct (List.find _ (cell_values sheet_data)) as [v|].
  - destruct (Re.search Re.project_info v) as [p|]; [|discriminate].
    destruct (Re.search Re.rera_number v) as [r|] eqn:Er; [|discriminate].
    cbn [option_map]. intros H. injection H as <-. cbn [fst snd].
    split; [apply strip_idem|]. apply all_chars_strip, (rera_capture_alnum v), Er.
  - intros H. injection H as <-. split; reflexivity.
Qed.

Lemma first_date_stripped (values : list string) :
  strip (first_date values) = first_date values.
Proof.
  induction values as [|v values IH]; [reflexivity|]. cbn [first_date].
  destruct (_ && _); [|exact IH].
  destruct (Re.search Re.date_pattern v); [apply strip_idem|exact IH].
Qed.

Lemma or_else_cases (P : string -> Prop) (s fallback : string) :
  P s -> P fallback -> P (or_else s fallback).
Proof. intros Hs Hf. unfold or_else. destruct (is_empty s); assumption. Qed.

Lemma inv_lift_bind {A B : Type} (I : converter -> Prop) (x : py_result A)
    (k : A -> M B) :
  (forall a, x = Ret a -> invariant I (k a)) -> invariant I (mbind_ (mlift x) k).
Proof.
  intros Hk st r st' H E. unfold mbind_, mlift in E. destruct x as [a|e].
  - exact (Hk a eq_refl st r st' H E).
  - injection E as _ <-. exact H.
Qed.

Lemma process_table_a_clean (wb : workbook) :
  invariant clean_metadata (process_table_a wb).
Proof.
  intros st r st' (Hp & Hr & Hd) E. rewrite process_table_a_run in E.
  destruct (find_sheet "table a" wb) as [a|];
    [|injection E as _ <-; repeat split; assumption].
  destruct (extract_project_info (read_excel a)) as [info|e] eqn:Ea;
    injection E as _ <-; [|repeat split; assumption].
  apply extract_project_info_shape in Ea as [Hip Hir].
  repeat split; assumption.
Qed.

Lemma process_table_b_clean (wb : workbook) :
  invariant clean_metadata (process_table_b wb).
Proof.
  intros st r st' (Hp & Hr & Hd) E. rewrite process_table_b_run in E.
  injection E as _ <-.
  destruct (find_sheet "table b" wb) as [b|]; [|repeat split; assumption].
  split; [exact Hp|]. split; [exact Hr|]. apply first_date_stripped.
Qed.

Lemma extract_unit_data_clean (sheet_data : grid) (section : string) :
  invariant clean_metadata (extract_unit_data sheet_data section).
Proof. apply inv_extract_unit_data. intros st b H. exact H. Qed.

Lemma process_table_c_clean (wb : workbook) :
  invariant clean_metadata (process_table_c wb).
Proof.
  unfold process_table_c. destruct (find_sheet "table c" wb); [|apply inv_ret].
  unfold process_sections. apply inv_for. intros section.
  apply inv_bind; [apply extract_unit_data_clean|].
  intros units. apply inv_modify. intros st H. exact H.
Qed.

Lemma filename_fallback_clean (filename : string) :
  invariant clean_metadata
    (filename_fallback (FileName.extract_from_filename filename)).
Proof.
  pose proof (filename_fields_clean filename) as Hf.
  destruct (FileName.extract_from_filename filename)
    as [[fallback_project fallback_rera] fallback_date].
  destruct Hf as (Hfp & Hfr & Hfd).
  intros st r st' (Hp & Hr & Hd) E. rewrite filename_fallback_run in E.
  injection E as _ <-. unfold clean_metadata.
  cbn [project_name rera_number as_on_date fst snd]. split; [|split].
  - apply (or_else_cases (fun s => strip s = s)); assumption.
  - apply (or_else_cases (fun s => all_chars Re.alnum s = true)); assumption.
  - apply (or_else_cases (fun s => strip s = s)); assumption.
Qed.

Lemma recover_sheet_clean (sheet_data : grid) :
  invariant clean_metadata (recover_sheet sheet_data).
Proof.
  unfold recover_sheet.
  apply inv_bind; [|intros _; apply inv_bind; [|intros _]].
  - apply inv_get. intros a _. apply inv_when. intros _.
    apply inv_lift_bind. intros info Hinfo.
    apply extract_project_info_shape in Hinfo as [Hip Hir].
    apply inv_bind; [|intros _]; apply inv_when; intros _; apply inv_modify;
      intros st (Hp & Hr & Hd); repeat split; assumption.
  - apply inv_get. intros a _. apply inv_when. intros _. cbn zeta.
    apply inv_when. intros _. apply inv_modify.
    intros st (Hp & Hr & Hd). split; [exact Hp|]. split; [exact Hr|].
    apply first_date_stripped.
  - apply inv_for. intros section.
    apply inv_bind; [apply inv_units_at|]. intros existing.
    apply inv_when. intros _.
    apply inv_bind; [apply extract_unit_data_clean|].
    intros units. apply inv_when. intros _.
    apply inv_modify. intros st H. exact H.
Qed.

Lemma process_body_clean (wb : workbook) (filename : string) :
  invariant clean_metadata
    (process_body wb (FileName.extract_from_filename filename)).
Proof.
  unfold process_body.
  apply inv_bind; [apply process_table_a_clean|intros _].
  apply inv_bind; [apply process_table_b_clean|intros _].
  apply inv_bind; [apply process_table_c_clean|intros _].
  apply filename_fallback_clean.
Qed.

(** X16: the three header values of the certificate are clean whichever
    source they came from, Table A and Table B, the file name, or a sheet
    visited by the recovery pass, and whether or not the passes succeed: the
    project name and the as-on date have no whitespace at either end, and
    the registration number holds nothing but letters and digits. *)
Theorem converter_metadata_is_clean (file_path : string) (wb : workbook) :
  let st1 := snd (process_form3_path file_path wb new_converter) in
  let st2 := snd (attempt_data_recovery wb st1) in
  clean_metadata st1 /\ clean_metadata st2.
Proof.
  cbv zeta.
  assert (clean_metadata (snd (process_form3_path file_path wb new_converter)))
    as H1.
  { unfold process_form3_path, process_form3_file.
    destruct (process_body wb _ new_converter) as [r st'] eqn:E.
    assert (clean_metadata st') as H.
    { apply (process_body_clean wb (FileName.basename file_path) new_converter r st');
        [|exact E].
      repeat split. }
    destruct r; exact H. }
  split; [exact H1|].
  apply attempt_data_recovery_invariant; [apply recover_sheet_clean|exact H1].
Qed.

(** ** Output paths *)

Lemma rfind_spec (q : ascii -> bool) (s : string) (i j : nat) :
  FileName.rfind q i s = Some j ->
  exists k c rest,
    j = (i + k)%nat /\
    s = String.append (String.substring 0 k s) (String c rest) /\
    q c = true.
Proof.
  revert i. induction s as [|c s IH]; intros i H; [discriminate|].
  cbn [FileName.rfind] in H.
  destruct (FileName.rfind q (S i) s) as [j'|] eqn:E.
  - injection H as <-. apply IH in E as (k & c' & rest & -> & Hs & Hq).
    exists (S k), c', rest. split; [lia|]. split; [|exact Hq].
    cbn [String.substring]. rewrite append_cons. f_equal. exact Hs.
  - destruct (q c) eqn:Eq; [|discriminate]. injection H as <-.
    exists 0%nat, c, s. split; [lia|]. split; [|exact Eq].
    cbn [String.substring]. rewrite append_nil. reflexivity.
Qed.

Lemma substring_no_length (s : string) (n : nat) : String.substring n 0 s = "".
Proof.
  revert n. induction s as [|c s IH]; intros [|n]; try reflexivity.
  cbn [String.substring]. apply IH.
Qed.

Lemma append_cancel_l (a b c : string) :
  String.append a b = String.append a c -> b = c.
Proof.
  induction a as [|x a IH]; [rewrite !append_nil; auto|].
  rewrite !append_cons. intros H. injection H as H. exact (IH H).
Qed.

(** A path is its root followed by its extension; the extension is empty or
    starts with a dot, and the root of a path that is not empty is not
    empty. *)
Lemma splitext_split (p : string) :
  exists ext,
    p = String.append (FileName.splitext_root p) ext /\
    (ext = "" \/ exists e, ext = String "." e) /\
    (FileName.splitext_root p = "" -> p = "").
Proof.
  unfold FileName.splitext_root.
  destruct (FileName.rfind (Ascii.eqb ".") 0 p) as [dot_index|] eqn:E.
  - match goal with
    | |- context [if ?b then _ else _] => destruct b eqn:Ec
    end.
    + apply rfind_spec in E as (k & c & rest & -> & Hp & Hc).
      apply Ascii.eqb_eq in Hc. subst c. cbn [Nat.add] in *.
      exists (String "." rest). split; [exact Hp|]. split; [right; eauto|].
      intros Hroot. exfalso. apply andb_true_iff in Ec as [_ Ec].
      assert (k = 0%nat) as ->.
      { destruct k as [|k]; [reflexivity|]. rewrite Hroot, append_nil in Hp.
        rewrite Hp in Hroot. discriminate Hroot. }
      rewrite Nat.sub_0_l, substring_no_length in Ec. discriminate Ec.
    + exists "". rewrite append_empty_r. auto.
  - exists "". rewrite append_empty_r. auto.
Qed.

Lemma default_output_path_differs (p : string) : default_output_path p <> p.
Proof.
  unfold default_output_path. intros H.
  destruct (splitext_split p) as (ext & Hp & Hext & _).
  rewrite Hp in H at 2. apply append_cancel_l in H.
  destruct Hext as [->|[e ->]]; discriminate H.
Qed.

Lemma prefix_empty (s : string) : String.prefix "" s = true.
Proof. destruct s; reflexivity. Qed.

Lemma default_output_path_slash (p : string) :
  String.prefix "/" (default_output_path p) = String.prefix "/" p.
Proof.
  unfold default_output_path.
  destruct (splitext_split p) as (ext & Hp & _ & Hroot).
  destruct (FileName.splitext_root p) as [|c r].
  - rewrite (Hroot eq_refl). reflexivity.
  - rewrite Hp, !append_cons. cbn [String.prefix].
    destruct (ascii_dec "/" c); [|reflexivity]. rewrite !prefix_empty. reflexivity.
Qed.

(** X17: a conversion that is not told where to write never overwrites the
    Form 3 file it reads.  The path [convert_form3_to_circular29] chooses
    differs from the input path, and in a batch whose output directory is
    the input directory the path written for a file differs from the path
    the file is read from. *)
Theorem conversion_keeps_its_input (input_file_path input_directory file : string) :
  convert_output_path input_file_path None <> input_file_path /\
  (let '(input_path, output_path) := batch_paths input_directory None file in
   output_path <> input_path).
Proof.
  split; [apply default_output_path_differs|].
  unfold batch_paths, path_join. rewrite default_output_path_slash.
  pose proof (default_output_path_differs file) as Hne.
  destruct (String.prefix "/" file); [exact Hne|].
  destruct (is_empty input_directory || ends_with "/" input_directory);
    intros H; apply append_cancel_l in H; [|injection H as H]; exact (Hne H).
Qed.
